(** * SparkX admin console: a shallow embedding of the page logic

    The admin console is a set of React pages (login, software templates,
    LLM management, agent management).  Every page is a collection of
    thin wrappers around [fetch] plus event handlers that read a snapshot
    of the component state and issue state updates and backend calls.

    This development embeds
    - the JavaScript primitives the pages rely on ([trim], [parseInt],
      [toString(16)], [padStart], SHA-256 of [crypto.subtle.digest]),
    - the error decoding of the four pages ([parseApiErrorMessage]),
    - the API wrappers of the login and software-template pages,
    - the upload-and-register handlers of the software-template page,
    - the payload construction of the edit forms of every page,
    - the stored session (login, guard, admin information, logout), the
      choice of a file, the selection of a template and the dialogs and
      bindings of the LLM and agent pages,
    and states the properties of the specification about them, followed
    by further properties of the same code. *)

From Stdlib Require Import ZArith NArith List String Ascii Bool Lia.
From Stdlib.Strings Require Import Byte.
From Stdlib Require Import DecimalString DecimalPos.
Import ListNotations.

Set Implicit Arguments.
Set Warnings "-register-all".

Local Open Scope string_scope.
Local Open Scope Z_scope.

(* ================================================================== *)
(** * JavaScript primitives *)
(* ================================================================== *)

(** Strings are byte strings.  [trim] strips the ASCII members of the
    ECMAScript WhiteSpace and LineTerminator classes (TAB, LF, VT, FF, CR,
    SP); the non-ASCII members (U+00A0, U+FEFF, ...) are outside the
    model.  Numbers that the pages use as identifiers, sizes and counters
    are integers [Z]; [NaN] is [None]. *)
Module JS.

Definition isWhiteSpace (c : ascii) : bool :=
  let n := N_of_ascii c in
  (N.eqb n 9 || N.eqb n 10 || N.eqb n 11 || N.eqb n 12 || N.eqb n 13
   || N.eqb n 32)%bool.

Fixpoint trimStart (s : string) : string :=
  match s with
  | EmptyString => EmptyString
  | String c r => if isWhiteSpace c then trimStart r else s
  end.

Fixpoint trimEnd (s : string) : string :=
  match s with
  | EmptyString => EmptyString
  | String c r =>
      match trimEnd r with
      | EmptyString => if isWhiteSpace c then EmptyString
                       else String c EmptyString
      | r' => String c r'
      end
  end.

(** [s.trim()] *)
Definition trim (s : string) : string := trimEnd (trimStart s).

(** Truthiness of a string: every string but the empty one. *)
Definition truthy (s : string) : bool :=
  match s with EmptyString => false | _ => true end.

(** Truthiness of a number: every number but 0 (and NaN). *)
Definition truthyNum (n : Z) : bool := negb (n =? 0).

(** [a || b] on strings. *)
Definition orElse (a b : string) : string := if truthy a then a else b.

Definition isDigit (c : ascii) : bool :=
  let n := N_of_ascii c in (N.leb 48 n && N.leb n 57)%bool.

Definition digitValue (c : ascii) : Z := Z.of_N (N_of_ascii c) - 48.

(** The longest prefix of decimal digits, read as a number; [None] when
    the prefix is empty. *)
Fixpoint parseDigits (s : string) (acc : option Z) : option Z :=
  match s with
  | EmptyString => acc
  | String c r =>
      if isDigit c
      then parseDigits r
             (Some (10 * match acc with Some a => a | None => 0 end
                    + digitValue c))
      else acc
  end.

(** [parseInt(s, 10)]: leading white space is skipped, one sign is
    accepted, the longest run of digits is read and the rest of the
    string is ignored; [None] is NaN. *)
Definition parseInt (s : string) : option Z :=
  match trimStart s with
  | String "-" r => option_map Z.opp (parseDigits r None)
  | String "+" r => parseDigits r None
  | r => parseDigits r None
  end.

(** [String(n)] and [`${n}`] for an integer. *)
Definition stringOfNumber (n : Z) : string :=
  NilZero.string_of_int (Z.to_int n).

Definition toLowerChar (c : ascii) : ascii :=
  let n := N_of_ascii c in
  if (N.leb 65 n && N.leb n 90)%bool then ascii_of_N (n + 32) else c.

(** [s.toLowerCase()] on the ASCII letters. *)
Fixpoint toLowerCase (s : string) : string :=
  match s with
  | EmptyString => EmptyString
  | String c r => String (toLowerChar c) (toLowerCase r)
  end.

(** [s.split(sep)] for a one-character separator: never empty. *)
Fixpoint split (sep : ascii) (s : string) : list string :=
  match s with
  | EmptyString => [EmptyString]
  | String c r =>
      if Ascii.eqb c sep then EmptyString :: split sep r
      else match split sep r with
           | p :: ps => String c p :: ps
           | [] => [String c EmptyString]
           end
  end.

(** [arr.includes(x)] on an array of strings. *)
Definition includes (arr : list string) (x : string) : bool :=
  existsb (String.eqb x) arr.

Definition hexDigit (n : N) : ascii :=
  if N.ltb n 10 then ascii_of_N (48 + n) else ascii_of_N (87 + n).

Fixpoint toString16_fuel (fuel : nat) (n : N) : string :=
  match fuel with
  | O => String (hexDigit (n mod 16)) EmptyString
  | S f =>
      if N.ltb n 16 then String (hexDigit n) EmptyString
      else toString16_fuel f (n / 16)
             ++ String (hexDigit (n mod 16)) EmptyString
  end.

(** [n.toString(16)]: the shortest lowercase hexadecimal numeral. *)
Definition toString16 (n : N) : string :=
  toString16_fuel (N.to_nat (N.log2 n)) n.

Fixpoint repeatChar (n : nat) (c : ascii) : string :=
  match n with O => EmptyString | S k => String c (repeatChar k c) end.

(** [s.padStart(len, c)] for a one-character filler. *)
Definition padStart (len : nat) (c : ascii) (s : string) : string :=
  repeatChar (len - String.length s) c ++ s.

(** [arr.join('')] *)
Definition join (l : list string) : string :=
  fold_right String.append EmptyString l.

(** [arr.join(sep)] *)
Fixpoint joinWith (sep : string) (l : list string) : string :=
  match l with
  | [] => EmptyString
  | [x] => x
  | x :: r => x ++ sep ++ joinWith sep r
  end.

End JS.

(* ================================================================== *)
(** * SHA-256, the digest of [crypto.subtle.digest('SHA-256', _)] *)
(* ================================================================== *)

(** FIPS 180-4 on 32-bit words carried by [Z] with the wrap-around
    written out. *)
Module SHA256.

Definition wrap (x : Z) : Z := x mod 4294967296.

Definition add (x y : Z) : Z := wrap (x + y).

Definition rotr (n x : Z) : Z :=
  wrap (Z.lor (Z.shiftr x n) (Z.shiftl x (32 - n))).

Definition shr (n x : Z) : Z := Z.shiftr x n.

Definition Ch (x y z : Z) : Z :=
  Z.lxor (Z.land x y) (Z.land (wrap (Z.lnot x)) z).

Definition Maj (x y z : Z) : Z :=
  Z.lxor (Z.lxor (Z.land x y) (Z.land x z)) (Z.land y z).

Definition Sigma0 (x : Z) : Z :=
  Z.lxor (Z.lxor (rotr 2 x) (rotr 13 x)) (rotr 22 x).

Definition Sigma1 (x : Z) : Z :=
  Z.lxor (Z.lxor (rotr 6 x) (rotr 11 x)) (rotr 25 x).

Definition sigma0 (x : Z) : Z :=
  Z.lxor (Z.lxor (rotr 7 x) (rotr 18 x)) (shr 3 x).

Definition sigma1 (x : Z) : Z :=
  Z.lxor (Z.lxor (rotr 17 x) (rotr 19 x)) (shr 10 x).

(** The first sixty-four primes. *)
Definition primes : list Z :=
  [2; 3; 5; 7; 11; 13; 17; 19; 23; 29; 31; 37; 41; 43; 47; 53; 59; 61; 67;
   71; 73; 79; 83; 89; 97; 101; 103; 107; 109; 113; 127; 131; 137; 139; 149;
   151; 157; 163; 167; 173; 179; 181; 191; 193; 197; 199; 211; 223; 227; 229;
   233; 239; 241; 251; 257; 263; 269; 271; 277; 281; 283; 293; 307; 311].

(** The integer cube root below [2^n], one bit at a time. *)
Fixpoint cubeRoot (n : nat) (x r : Z) : Z :=
  match n with
  | O => r
  | S k =>
      let c := r + 2 ^ Z.of_nat k in
      cubeRoot k x (if c * c * c <=? x then c else r)
  end.

(** The round constants: the first 32 bits of the fractional part of the
    cube root of each prime. *)
Definition K : list Z :=
  map (fun p => wrap (cubeRoot 40 (p * 2 ^ 96) 0)) primes.

(** The eight working variables. *)
Record state := mkState
  { ha : Z; hb : Z; hc : Z; hd : Z; he : Z; hf : Z; hg : Z; hh : Z }.

(** The initial hash value: the first 32 bits of the fractional part of
    the square root of each of the first eight primes. *)
Definition root32 (p : Z) : Z := wrap (Z.sqrt (p * 2 ^ 64)).

Definition H0 : state :=
  mkState (root32 2) (root32 3) (root32 5) (root32 7)
          (root32 11) (root32 13) (root32 17) (root32 19).

Definition byteZ (b : byte) : Z := Z.of_N (Byte.to_N b).

Definition zByte (x : Z) : byte :=
  match Byte.of_N (Z.to_N (x mod 256)) with
  | Some b => b
  | None => x00
  end.

(** Big-endian bytes of the low [8 * n] bits of [x]. *)
Fixpoint bigEndian (n : nat) (x : Z) : list byte :=
  match n with
  | O => []
  | S k => bigEndian k (Z.shiftr x 8) ++ [zByte x]
  end.

(** Message padding: 0x80, zeros up to 56 mod 64, the bit length on
    eight bytes. *)
Definition pad (msg : list byte) : list byte :=
  let len := Z.of_nat (List.length msg) in
  let zeros := Z.to_nat ((55 - len) mod 64) in
  msg ++ [x80] ++ repeat x00 zeros ++ bigEndian 8 (8 * len).

Fixpoint words (bs : list byte) : list Z :=
  match bs with
  | b0 :: b1 :: b2 :: b3 :: r =>
      (byteZ b0 * 16777216 + byteZ b1 * 65536 + byteZ b2 * 256 + byteZ b3)
      :: words r
  | _ => []
  end.

(** Message schedule: [rev_w] holds W[t-1], W[t-2], ... *)
Fixpoint schedule (n : nat) (rev_w : list Z) : list Z :=
  match n with
  | O => rev rev_w
  | S k =>
      let w i := nth i rev_w 0 in
      schedule k
        (add (add (sigma1 (w 1%nat)) (w 6%nat))
             (add (sigma0 (w 14%nat)) (w 15%nat)) :: rev_w)
  end.

Definition round (s : state) (kw : Z * Z) : state :=
  let t1 := add (add (add (hh s) (Sigma1 (he s)))
                     (add (Ch (he s) (hf s) (hg s)) (fst kw))) (snd kw) in
  let t2 := add (Sigma0 (ha s)) (Maj (ha s) (hb s) (hc s)) in
  mkState (add t1 t2) (ha s) (hb s) (hc s) (add (hd s) t1)
          (he s) (hf s) (hg s).

Definition compress (s : state) (block : list Z) : state :=
  let w := schedule 48 (rev block) in
  let r := fold_left round (combine K w) s in
  mkState (add (ha s) (ha r)) (add (hb s) (hb r)) (add (hc s) (hc r))
          (add (hd s) (hd r)) (add (he s) (he r)) (add (hf s) (hf r))
          (add (hg s) (hg r)) (add (hh s) (hh r)).

Fixpoint blocks (fuel : nat) (ws : list Z) (s : state) : state :=
  match fuel with
  | O => s
  | S f =>
      match ws with
      | [] => s
      | _ => blocks f (skipn 16 ws) (compress s (firstn 16 ws))
      end
  end.

Definition digest (msg : list byte) : list byte :=
  let ws := words (pad msg) in
  let s := blocks (List.length ws) ws H0 in
  bigEndian 4 (ha s) ++ bigEndian 4 (hb s) ++ bigEndian 4 (hc s)
  ++ bigEndian 4 (hd s) ++ bigEndian 4 (he s) ++ bigEndian 4 (hf s)
  ++ bigEndian 4 (hg s) ++ bigEndian 4 (hh s).

End SHA256.

(* ================================================================== *)
(** * JSON values and [JSON.parse] *)
(* ================================================================== *)

Module Json.

(** A number is kept as the decimal it was written as: [JNum m e] is
    [m * 10^e]. *)
Inductive json : Type :=
| JNull
| JBool (b : bool)
| JNum (m e : Z)
| JStr (s : string)
| JArr (l : list json)
| JObj (l : list (string * json)).

Definition num (n : Z) : json := JNum n 0.

(** The value of property [k] of an object literal: the last binding of
    [k] wins, as in [JSON.parse]. *)
Fixpoint lookup (k : string) (l : list (string * json)) : option json :=
  match l with
  | [] => None
  | (k', v) :: r =>
      match lookup k r with
      | Some v' => Some v'
      | None => if String.eqb k k' then Some v else None
      end
  end.

Definition quote : ascii := "034"%char.
Definition backslash : ascii := "092"%char.

Definition isJsonSpace (c : ascii) : bool :=
  let n := N_of_ascii c in
  (N.eqb n 32 || N.eqb n 9 || N.eqb n 10 || N.eqb n 13)%bool.

Fixpoint skipSpace (s : string) : string :=
  match s with
  | String c r => if isJsonSpace c then skipSpace r else s
  | EmptyString => s
  end.

Definition hexValue (c : ascii) : option N :=
  let n := N_of_ascii c in
  if (N.leb 48 n && N.leb n 57)%bool then Some (n - 48)%N
  else if (N.leb 97 n && N.leb n 102)%bool then Some (n - 87)%N
  else if (N.leb 65 n && N.leb n 70)%bool then Some (n - 55)%N
  else None.

(** UTF-8 bytes of a code unit of the basic plane. *)
Definition utf8 (u : N) : string :=
  if N.ltb u 128 then String (ascii_of_N u) EmptyString
  else if N.ltb u 2048 then
    String (ascii_of_N (192 + u / 64))
      (String (ascii_of_N (128 + u mod 64)) EmptyString)
  else
    String (ascii_of_N (224 + u / 4096))
      (String (ascii_of_N (128 + (u / 64) mod 64))
         (String (ascii_of_N (128 + u mod 64)) EmptyString)).

(** The characters of a string literal after its opening quote, up to
    the closing quote; the rest of the input is returned with them. *)
Fixpoint parseChars (s : string) : option (string * string) :=
  match s with
  | EmptyString => None
  | String c r =>
      if Ascii.eqb c quote then Some (EmptyString, r)
      else if Ascii.eqb c backslash then
        match r with
        | String e r1 =>
            let simple (x : ascii) :=
              match parseChars r1 with
              | Some (t, rest) => Some (String x t, rest)
              | None => None
              end in
            if Ascii.eqb e quote then simple quote
            else if Ascii.eqb e backslash then simple backslash
            else if Ascii.eqb e "/" then simple "/"%char
            else if Ascii.eqb e "b" then simple "008"%char
            else if Ascii.eqb e "f" then simple "012"%char
            else if Ascii.eqb e "n" then simple "010"%char
            else if Ascii.eqb e "r" then simple "013"%char
            else if Ascii.eqb e "t" then simple "009"%char
            else if Ascii.eqb e "u" then
              match r1 with
              | String h1 (String h2 (String h3 (String h4 r2))) =>
                  match hexValue h1, hexValue h2, hexValue h3, hexValue h4,
                        parseChars r2 with
                  | Some a, Some b, Some c', Some d, Some (t, rest) =>
                      Some (utf8 (a * 4096 + b * 256 + c' * 16 + d)%N ++ t,
                            rest)
                  | _, _, _, _, _ => None
                  end
              | _ => None
              end
            else None
        | EmptyString => None
        end
      else if N.ltb (N_of_ascii c) 32 then None
      else match parseChars r with
           | Some (t, rest) => Some (String c t, rest)
           | None => None
           end
  end.

(** A run of digits: its value, its length and the rest. *)
Fixpoint digits (s : string) (acc : Z) (n : Z) : Z * Z * string :=
  match s with
  | String c r =>
      if JS.isDigit c then digits r (10 * acc + JS.digitValue c) (n + 1)
      else (acc, n, s)
  | EmptyString => (acc, n, s)
  end.

Definition parseExponent (s : string) : option (Z * string) :=
  match s with
  | String c r =>
      if (Ascii.eqb c "e" || Ascii.eqb c "E")%bool then
        let '(sign, r1) :=
          match r with
          | String "-" r' => (-1, r')
          | String "+" r' => (1, r')
          | _ => (1, r)
          end in
        let '(v, n, rest) := digits r1 0 0 in
        if n =? 0 then None else Some (sign * v, rest)
      else Some (0, s)
  | EmptyString => Some (0, s)
  end.

Definition parseFraction (s : string) : option (Z * Z * string) :=
  match s with
  | String "." r =>
      let '(v, n, rest) := digits r 0 0 in
      if n =? 0 then None else Some (v, n, rest)
  | _ => Some (0, 0, s)
  end.

(** A number literal: [-? int frac? exp?], no leading zero. *)
Definition parseNumber (s : string) : option (json * string) :=
  let '(sign, r) :=
    match s with String "-" r' => (-1, r') | _ => (1, s) end in
  let int :=
    match r with
    | String "0" r' => Some (0, r')
    | _ => let '(v, n, rest) := digits r 0 0 in
           if n =? 0 then None else Some (v, rest)
    end in
  match int with
  | None => None
  | Some (i, r1) =>
      match parseFraction r1 with
      | None => None
      | Some (f, fn, r2) =>
          match parseExponent r2 with
          | None => None
          | Some (e, r3) =>
              Some (JNum (sign * (i * 10 ^ fn + f)) (e - fn), r3)
          end
      end
  end.

Definition literal (lit : string) (v : json) (s : string)
  : option (json * string) :=
  if String.prefix lit s
  then Some (v, String.substring (String.length lit)
                  (String.length s - String.length lit) s)
  else None.

(** Recursive descent; the fuel bounds the nesting and the number of
    elements, and the length of the input is always enough. *)
Fixpoint parseValue (fuel : nat) (s : string) : option (json * string) :=
  match fuel with
  | O => None
  | S f =>
      match skipSpace s with
      | EmptyString => None
      | String c r as s' =>
          if Ascii.eqb c quote then
            match parseChars r with
            | Some (t, rest) => Some (JStr t, rest)
            | None => None
            end
          else if Ascii.eqb c "[" then
            match skipSpace r with
            | String "]" rest => Some (JArr [], rest)
            | _ => match parseElements f r with
                   | Some (l, rest) => Some (JArr l, rest)
                   | None => None
                   end
            end
          else if Ascii.eqb c "{" then
            match skipSpace r with
            | String "}" rest => Some (JObj [], rest)
            | _ => match parseMembers f r with
                   | Some (l, rest) => Some (JObj l, rest)
                   | None => None
                   end
            end
          else if Ascii.eqb c "t" then literal "true" (JBool true) s'
          else if Ascii.eqb c "f" then literal "false" (JBool false) s'
          else if Ascii.eqb c "n" then literal "null" JNull s'
          else parseNumber s'
      end
  end
with parseElements (fuel : nat) (s : string)
  : option (list json * string) :=
  match fuel with
  | O => None
  | S f =>
      match parseValue f s with
      | None => None
      | Some (v, r) =>
          match skipSpace r with
          | String "," r' =>
              match parseElements f r' with
              | Some (l, rest) => Some (v :: l, rest)
              | None => None
              end
          | String "]" rest => Some ([v], rest)
          | _ => None
          end
      end
  end
with parseMembers (fuel : nat) (s : string)
  : option (list (string * json) * string) :=
  match fuel with
  | O => None
  | S f =>
      match skipSpace s with
      | String c r =>
          if Ascii.eqb c quote then
            match parseChars r with
            | None => None
            | Some (k, r1) =>
                match skipSpace r1 with
                | String ":" r2 =>
                    match parseValue f r2 with
                    | None => None
                    | Some (v, r3) =>
                        match skipSpace r3 with
                        | String "," r4 =>
                            match parseMembers f r4 with
                            | Some (l, rest) => Some ((k, v) :: l, rest)
                            | None => None
                            end
                        | String "}" rest => Some ([(k, v)], rest)
                        | _ => None
                        end
                    end
                | _ => None
                end
            end
          else None
      | EmptyString => None
      end
  end.

(** [JSON.parse(text)]; [None] is the thrown SyntaxError. *)
Definition parse (text : string) : option json :=
  match parseValue (S (String.length text)) text with
  | Some (v, rest) =>
      match skipSpace rest with
      | EmptyString => Some v
      | _ => None
      end
  | None => None
  end.

End Json.

(* ================================================================== *)
(** * The platform: exceptions, [fetch], storage, files *)
(* ================================================================== *)

Module Platform.

(** A thrown value is an [Error] object with its message, or any other
    value. *)
Inductive Thrown : Type :=
| ErrorObject (message : string)
| OtherValue.

(** The outcome of an expression or of an awaited promise. *)
Inductive Exc (A : Type) : Type :=
| Normal (a : A)
| Throws (t : Thrown).

Arguments Normal {A} a.
Arguments Throws {A} t.

Definition bind {A B} (c : Exc A) (k : A -> Exc B) : Exc B :=
  match c with
  | Normal a => k a
  | Throws t => Throws t
  end.

(** [try { body } catch (error) { handler }] *)
Definition tryCatch {A} (body : Exc A) (handler : Thrown -> Exc A) : Exc A :=
  match body with
  | Normal a => Normal a
  | Throws t => handler t
  end.

(** [error instanceof Error ? error.message : fallback] *)
Definition errorMessageOr (fallback : string) (error : Thrown) : string :=
  match error with
  | ErrorObject message => message
  | OtherValue => fallback
  end.

(** [JSON.parse] as an expression that may throw a SyntaxError. *)
Definition JSON_parse (parser : string -> option Json.json) (text : string)
  : Exc Json.json :=
  match parser text with
  | Some v => Normal v
  | None => Throws (ErrorObject "Unexpected token in JSON")
  end.

(** [parsed.key] for a parsed JSON value: a TypeError on [null], the
    binding on an object, [undefined] ([None]) on anything else. *)
Definition getProp (parsed : Json.json) (key : string)
  : Exc (option Json.json) :=
  match parsed with
  | Json.JNull =>
      Throws (ErrorObject "Cannot read properties of null")
  | Json.JObj l => Normal (Json.lookup key l)
  | _ => Normal None
  end.

(** [typeof v === 'string' && v.trim()] *)
Definition nonBlankString (v : option Json.json) : option string :=
  match v with
  | Some (Json.JStr s) => if JS.truthy (JS.trim s) then Some s else None
  | _ => None
  end.

(** A [File]: its metadata and the outcome of [arrayBuffer()]. *)
Record File : Type := mkFile
  { fileName : string;
    fileType : string;
    fileSize : Z;
    arrayBuffer : Exc (list byte) }.

Inductive Body : Type :=
| JsonBody (value : Json.json)   (* JSON.stringify(value) *)
| FileBody (file : File).

Record Request : Type := mkRequest
  { method : string;
    url : string;
    headers : list (string * string);
    body : option Body }.

(** A [Response] whose JSON payload has the type [T] the page casts it
    to; [text()] and [json()] may reject. *)
Record Response (T : Type) : Type := mkResponse
  { status : Z;
    statusText : string;
    text : Exc string;
    json : Exc T }.

(** [response.ok] *)
Definition ok {T} (r : Response T) : bool :=
  (200 <=? status r) && (status r <=? 299).

(** The environment of a wrapper: the build-time variable
    [SPARKX_API_BASE_URL], the JSON parser, the two storages and the
    network. *)
Record Env (T : Type) : Type := mkEnv
  { SPARKX_API_BASE_URL : option string;
    parser : string -> option Json.json;
    localStorage_getItem : string -> Exc (option string);
    sessionStorage_getItem : string -> Exc (option string);
    fetch : Request -> Exc (Response T) }.

(** What the wrappers of every page return. *)
Inductive ApiResult (T : Type) : Type :=
| Success (data : T)               (* { ok: true, data } *)
| Failure (message : string).      (* { ok: false, message } *)

Arguments Success {T} data.
Arguments Failure {T} message.

End Platform.

Import Platform.

Notation "x <- c ;; k" := (Platform.bind c (fun x => k))
  (at level 61, c at next level, right associativity).

(** [`Bearer ${token}`] for a token that may be [null]. *)
Definition bearer (token : option string) : string :=
  "Bearer " ++ match token with Some t => t | None => "null" end.

(** [a || b] on the result of [getItem]. *)
Definition truthyItem (v : option string) : bool :=
  match v with Some s => JS.truthy s | None => false end.

(* ================================================================== *)
(** * src/pages/LoginPage.tsx *)
(* ================================================================== *)

Module LoginPage.

Record LoginData : Type := mkLoginData
  { adminId : Z; role : string; token : string }.

Record LoginInput : Type := mkLoginInput
  { username : string; password : string }.

Definition LoginInput_json (input : LoginInput) : Json.json :=
  Json.JObj [("username", Json.JStr (username input));
             ("password", Json.JStr (password input))].

Definition parseApiErrorMessage {T} (env : Env T) (response : Response T)
  : Exc string :=
  text <- Platform.text response ;;
  if negb (JS.truthy text) then Normal "Request failed"
  else
    returned <-
      tryCatch
        (parsed <- JSON_parse (parser env) text ;;
         message <- getProp parsed "message" ;;
         match nonBlankString message with
         | Some m => Normal (Some m)
         | None =>
             msg <- getProp parsed "msg" ;;
             match nonBlankString msg with
             | Some m => Normal (Some m)
             | None => Normal None
             end
         end)
        (fun _ => Normal None) ;;
    match returned with
    | Some m => Normal m
    | None =>
        let normalized := JS.trim text in
        Normal (JS.orElse normalized "Request failed")
    end.

Definition API_BASE_URL {T} (env : Env T) : string :=
  match SPARKX_API_BASE_URL env with
  | Some u => JS.orElse u ""
  | None => ""
  end.

Definition adminLogin (env : Env LoginData) (input : LoginInput)
  : Exc (ApiResult LoginData) :=
  tryCatch
    (response <-
       fetch env
         {| method := "POST";
            url := API_BASE_URL env ++ "/api/v1/admin/login";
            headers := [("Content-Type", "application/json")];
            body := Some (JsonBody (LoginInput_json input)) |} ;;
     if negb (ok response) then
       message <- parseApiErrorMessage env response ;;
       Normal (Failure message)
     else
       data <- json response ;;
       Normal (Success data))
    (fun error => Normal (Failure (errorMessageOr "Request failed" error))).

End LoginPage.

(* ================================================================== *)
(** * src/pages/SoftwareTemplatesPage.tsx: wrappers and helpers *)
(* ================================================================== *)

Module SoftwareTemplatesPage.

Record SoftwareTemplate : Type := mkSoftwareTemplate
  { id : Z;
    name : string;
    description : string;
    archiveFileId : Z;
    createdBy : Z;
    createdAt : string;
    updatedAt : string }.

Record PageInfo : Type := mkPageInfo
  { page : Z; pageSize : Z; total : Z }.

Inductive MessageType : Type := error | success | info.

Record Message : Type := mkMessage
  { type : MessageType; text : string }.

Record PreUploadResp : Type := mkPreUploadResp
  { uploadUrl : string;
    fileId : Z;
    versionId : Z;
    versionNumber : Z;
    contentType : string }.

Record FileVersionItem : Type := mkFileVersionItem
  { fv_id : Z;
    fv_fileId : Z;
    fv_versionNumber : Z;
    fv_sizeBytes : Z;
    fv_hash : string;
    fv_storageKey : string;
    fv_createdAt : string;
    fv_updatedAt : string;
    fv_createdBy : Z }.

Record DownloadFileResp : Type := mkDownloadFileResp
  { downloadUrl : string; expiresAt : string }.

(** [{ list, page }] *)
Record Listing (A : Type) : Type := mkListing
  { list_ : list A; page_ : PageInfo }.

Definition API_BASE_URL {T} (env : Env T) : string :=
  match SPARKX_API_BASE_URL env with
  | Some u => JS.orElse u ""
  | None => ""
  end.

Definition parseApiErrorMessage {T} (env : Env T) (response : Response T)
  : Exc string :=
  text <- Platform.text response ;;
  if negb (JS.truthy text) then Normal "Request failed"
  else
    returned <-
      tryCatch
        (parsed <- JSON_parse (parser env) text ;;
         message <- getProp parsed "message" ;;
         match nonBlankString message with
         | Some m => Normal (Some m)
         | None =>
             msg <- getProp parsed "msg" ;;
             match nonBlankString msg with
             | Some m => Normal (Some m)
             | None => Normal None
             end
         end)
        (fun _ => Normal None) ;;
    match returned with
    | Some m => Normal m
    | None =>
        let normalized := JS.trim text in
        Normal (JS.orElse normalized "Request failed")
    end.

Definition getAuthToken {T} (env : Env T) : Exc (option string) :=
  l <- localStorage_getItem env "sparkx_admin_token" ;;
  if truthyItem l then Normal l
  else sessionStorage_getItem env "sparkx_admin_token".

(** SHA-256 of the content, two lowercase hexadecimal digits a byte. *)
Definition calculateFileHash (file : File) : Exc string :=
  arrayBuffer <- Platform.arrayBuffer file ;;
  let hashBuffer := SHA256.digest arrayBuffer in
  let hashArray := map Byte.to_N hashBuffer in
  Normal (JS.join
            (map (fun b => JS.padStart 2 "0" (JS.toString16 b)) hashArray)).

Record PreUploadInput : Type := mkPreUploadInput
  { pu_projectId : Z;
    pu_name : string;
    pu_fileCategory : string;
    pu_fileFormat : string;
    pu_sizeBytes : Z;
    pu_hash : string;
    pu_contentType : option string }.

(** The object [JSON.stringify] serialises: a property that is
    [undefined] is left out. *)
Definition optField {A} (k : string) (f : A -> Json.json) (v : option A)
  : list (string * Json.json) :=
  match v with Some a => [(k, f a)] | None => [] end.

Definition PreUploadInput_json (i : PreUploadInput) : Json.json :=
  Json.JObj
    ([("projectId", Json.num (pu_projectId i));
      ("name", Json.JStr (pu_name i));
      ("fileCategory", Json.JStr (pu_fileCategory i));
      ("fileFormat", Json.JStr (pu_fileFormat i));
      ("sizeBytes", Json.num (pu_sizeBytes i));
      ("hash", Json.JStr (pu_hash i))]
     ++ optField "contentType" Json.JStr (pu_contentType i)).

Definition jsonHeaders (token : option string) : list (string * string) :=
  [("Content-Type", "application/json"); ("Authorization", bearer token)].

Definition requestFailed (error : Thrown) : string :=
  errorMessageOr "Request failed" error.

Definition preUploadFile (env : Env PreUploadResp) (input : PreUploadInput)
  : Exc (ApiResult PreUploadResp) :=
  tryCatch
    (token <- getAuthToken env ;;
     response <-
       fetch env
         {| method := "POST";
            url := API_BASE_URL env ++ "/api/v1/admin/files/preupload";
            headers := jsonHeaders token;
            body := Some (JsonBody (PreUploadInput_json input)) |} ;;
     if negb (ok response) then
       message <- parseApiErrorMessage env response ;;
       Normal (Failure message)
     else
       data <- json response ;;
       Normal (Success data))
    (fun error => Normal (Failure (requestFailed error))).

Definition listFileVersions (env : Env (Listing FileVersionItem))
    (fileId page pageSize : Z)
  : Exc (ApiResult (Listing FileVersionItem)) :=
  tryCatch
    (token <- getAuthToken env ;;
     response <-
       fetch env
         {| method := "GET";
            url := API_BASE_URL env ++ "/api/v1/admin/files/"
                   ++ JS.stringOfNumber fileId ++ "/versions?page="
                   ++ JS.stringOfNumber page ++ "&pageSize="
                   ++ JS.stringOfNumber pageSize;
            headers := jsonHeaders token;
            body := None |} ;;
     if negb (ok response) then
       message <- parseApiErrorMessage env response ;;
       Normal (Failure message)
     else
       data <- json response ;;
       Normal (Success data))
    (fun error => Normal (Failure (requestFailed error))).

Record DownloadInput : Type := mkDownloadInput
  { dl_fileId : Z;
    dl_versionId : option Z;
    dl_versionNumber : option Z }.

(** [if (v) params.set(k, String(v))] for an optional number. *)
Definition setIfTruthy (k : string) (v : option Z)
    (params : list (string * string)) : list (string * string) :=
  match v with
  | Some n => if JS.truthyNum n then params ++ [(k, JS.stringOfNumber n)]
              else params
  | None => params
  end.

(** [params.toString()] for keys and values that need no escaping. *)
Definition URLSearchParams_toString (params : list (string * string))
  : string :=
  JS.joinWith "&" (map (fun kv => fst kv ++ "=" ++ snd kv) params).

Definition getDownloadUrl (env : Env DownloadFileResp)
    (input : DownloadInput) : Exc (ApiResult DownloadFileResp) :=
  tryCatch
    (token <- getAuthToken env ;;
     let params := setIfTruthy "versionId" (dl_versionId input) [] in
     let params := setIfTruthy "versionNumber" (dl_versionNumber input)
                     params in
     let query := URLSearchParams_toString params in
     response <-
       fetch env
         {| method := "GET";
            url := API_BASE_URL env ++ "/api/v1/admin/files/"
                   ++ JS.stringOfNumber (dl_fileId input) ++ "/download"
                   ++ (if JS.truthy query then "?" ++ query else "");
            headers := jsonHeaders token;
            body := None |} ;;
     if negb (ok response) then
       message <- parseApiErrorMessage env response ;;
       Normal (Failure message)
     else
       data <- json response ;;
       Normal (Success data))
    (fun error => Normal (Failure (requestFailed error))).

Definition uploadFileToOSS {T} (env : Env T)
    (uploadUrl : string) (file : File) (contentType : string)
  : Exc (ApiResult unit) :=
  tryCatch
    (response <-
       fetch env
         {| method := "PUT";
            url := uploadUrl;
            headers := [("Content-Type", contentType)];
            body := Some (FileBody file) |} ;;
     if negb (ok response) then
       Normal (Failure ("上传失败: " ++ JS.stringOfNumber (status response)
                        ++ " " ++ statusText response))
     else Normal (Success tt))
    (fun error => Normal (Failure (errorMessageOr "Upload failed" error))).

Definition listSoftwareTemplates (env : Env (Listing SoftwareTemplate))
    (page pageSize : Z) : Exc (ApiResult (Listing SoftwareTemplate)) :=
  tryCatch
    (token <- getAuthToken env ;;
     response <-
       fetch env
         {| method := "GET";
            url := API_BASE_URL env
                   ++ "/api/v1/admin/software-templates?page="
                   ++ JS.stringOfNumber page ++ "&pageSize="
                   ++ JS.stringOfNumber pageSize;
            headers := jsonHeaders token;
            body := None |} ;;
     if negb (ok response) then
       message <- parseApiErrorMessage env response ;;
       Normal (Failure message)
     else
       data <- json response ;;
       Normal (Success data))
    (fun error => Normal (Failure (requestFailed error))).

(** The body of a create or update request; create always carries a
    name. *)
Record TemplateInput : Type := mkTemplateInput
  { in_name : option string;
    in_description : option string;
    in_archiveFileId : option Z }.

Definition TemplateInput_json (i : TemplateInput) : Json.json :=
  Json.JObj (optField "name" Json.JStr (in_name i)
             ++ optField "description" Json.JStr (in_description i)
             ++ optField "archiveFileId" Json.num (in_archiveFileId i)).

Definition createSoftwareTemplate (env : Env SoftwareTemplate)
    (input : TemplateInput) : Exc (ApiResult SoftwareTemplate) :=
  tryCatch
    (token <- getAuthToken env ;;
     response <-
       fetch env
         {| method := "POST";
            url := API_BASE_URL env ++ "/api/v1/admin/software-templates";
            headers := jsonHeaders token;
            body := Some (JsonBody (TemplateInput_json input)) |} ;;
     if negb (ok response) then
       message <- parseApiErrorMessage env response ;;
       Normal (Failure message)
     else
       data <- json response ;;
       Normal (Success data))
    (fun error => Normal (Failure (requestFailed error))).

Definition updateSoftwareTemplate {T} (env : Env T)
    (id : Z) (input : TemplateInput) : Exc (ApiResult unit) :=
  tryCatch
    (token <- getAuthToken env ;;
     response <-
       fetch env
         {| method := "PUT";
            url := API_BASE_URL env ++ "/api/v1/admin/software-templates/"
                   ++ JS.stringOfNumber id;
            headers := jsonHeaders token;
            body := Some (JsonBody (TemplateInput_json input)) |} ;;
     if negb (ok response) then
       message <- parseApiErrorMessage env response ;;
       Normal (Failure message)
     else Normal (Success tt))
    (fun error => Normal (Failure (requestFailed error))).

Definition getFileExtension (filename : string) : string :=
  let parts := JS.split "." filename in
  if (1 <? List.length parts)%nat
  then JS.toLowerCase (last parts "")
  else "".

Definition imageExts : list string :=
  ["png"; "jpg"; "jpeg"; "gif"; "bmp"; "webp"; "svg"].
Definition videoExts : list string :=
  ["mp4"; "avi"; "mov"; "wmv"; "flv"; "mkv"].
Definition audioExts : list string :=
  ["mp3"; "wav"; "ogg"; "flac"; "aac"].
Definition textExts : list string :=
  ["txt"; "md"; "json"; "xml"; "html"; "css"; "js"; "ts"; "go"; "py";
   "java"; "c"; "cpp"; "h"].
Definition archiveExts : list string :=
  ["zip"; "rar"; "7z"; "tar"; "gz"; "bz2"].

Definition getFileCategory (ext : string) : string :=
  if JS.includes imageExts ext then "image"
  else if JS.includes videoExts ext then "video"
  else if JS.includes audioExts ext then "audio"
  else if JS.includes textExts ext then "text"
  else if JS.includes archiveExts ext then "archive"
  else "binary".

(** ** Component state and effects of the page *)

Inductive UploadMode : Type := new | existing.

Record FormData : Type := mkFormData
  { fd_name : string; fd_description : string; fd_archiveFileId : string }.

(** The [useState] cells of the component; [fileInput] is the value of
    the file input behind [fileInputRef] ([None] when the ref is
    empty). *)
Record ViewState : Type := mkViewState
  { templates : list SoftwareTemplate;
    pageInfo : PageInfo;
    loading : bool;
    message : option Message;
    selectedTemplateId : option Z;
    isCreateModalOpen : bool;
    isEditModalOpen : bool;
    editingTemplate : option SoftwareTemplate;
    formData : FormData;
    selectedFile : option File;
    uploadProgress : Z;
    isUploading : bool;
    uploadMode : UploadMode;
    fileInput : option string;
    versions : list FileVersionItem;
    versionsPageInfo : PageInfo;
    versionsLoading : bool }.

(** A call of a state setter. *)
Inductive SetState : Type :=
| setTemplates (v : list SoftwareTemplate)
| setPageInfo (v : PageInfo)
| setLoading (v : bool)
| setMessage (v : option Message)
| setSelectedTemplateId (v : option Z)
| setIsCreateModalOpen (v : bool)
| setIsEditModalOpen (v : bool)
| setEditingTemplate (v : option SoftwareTemplate)
| setFormData (v : FormData)
| setSelectedFile (v : option File)
| setUploadProgress (v : Z)
| setIsUploading (v : bool)
| setUploadMode (v : UploadMode)
| clearFileInput
| setVersions (v : list FileVersionItem)
| setVersionsPageInfo (f : PageInfo -> PageInfo)
| setVersionsLoading (v : bool).

Definition applySet (u : SetState) (st : ViewState) : ViewState :=
  let '(mkViewState ts pi ld msg sel co eo et fd sf up iu um fi vs vp vl) :=
    st in
  match u with
  | setTemplates v =>
      mkViewState v pi ld msg sel co eo et fd sf up iu um fi vs vp vl
  | setPageInfo v =>
      mkViewState ts v ld msg sel co eo et fd sf up iu um fi vs vp vl
  | setLoading v =>
      mkViewState ts pi v msg sel co eo et fd sf up iu um fi vs vp vl
  | setMessage v =>
      mkViewState ts pi ld v sel co eo et fd sf up iu um fi vs vp vl
  | setSelectedTemplateId v =>
      mkViewState ts pi ld msg v co eo et fd sf up iu um fi vs vp vl
  | setIsCreateModalOpen v =>
      mkViewState ts pi ld msg sel v eo et fd sf up iu um fi vs vp vl
  | setIsEditModalOpen v =>
      mkViewState ts pi ld msg sel co v et fd sf up iu um fi vs vp vl
  | setEditingTemplate v =>
      mkViewState ts pi ld msg sel co eo v fd sf up iu um fi vs vp vl
  | setFormData v =>
      mkViewState ts pi ld msg sel co eo et v sf up iu um fi vs vp vl
  | setSelectedFile v =>
      mkViewState ts pi ld msg sel co eo et fd v up iu um fi vs vp vl
  | setUploadProgress v =>
      mkViewState ts pi ld msg sel co eo et fd sf v iu um fi vs vp vl
  | setIsUploading v =>
      mkViewState ts pi ld msg sel co eo et fd sf up v um fi vs vp vl
  | setUploadMode v =>
      mkViewState ts pi ld msg sel co eo et fd sf up iu v fi vs vp vl
  | clearFileInput =>
      mkViewState ts pi ld msg sel co eo et fd sf up iu um
        (match fi with Some _ => Some "" | None => None end) vs vp vl
  | setVersions v =>
      mkViewState ts pi ld msg sel co eo et fd sf up iu um fi v vp vl
  | setVersionsPageInfo f =>
      mkViewState ts pi ld msg sel co eo et fd sf up iu um fi vs (f vp) vl
  | setVersionsLoading v =>
      mkViewState ts pi ld msg sel co eo et fd sf up iu um fi vs vp v
  end.

(** A call of one of the wrappers above.  The wrappers catch whatever is
    thrown inside them, so a call answers with an [ApiResult]. *)
Inductive ApiCall : Type :=
| call_preUploadFile (input : PreUploadInput)
| call_uploadFileToOSS (uploadUrl : string) (file : File)
    (contentType : string)
| call_createSoftwareTemplate (input : TemplateInput)
| call_updateSoftwareTemplate (id : Z) (input : TemplateInput)
| call_listSoftwareTemplates (page pageSize : Z)
| call_listFileVersions (fileId page pageSize : Z).

Definition Resp (c : ApiCall) : Type :=
  match c with
  | call_preUploadFile _ => ApiResult PreUploadResp
  | call_uploadFileToOSS _ _ _ => ApiResult unit
  | call_createSoftwareTemplate _ => ApiResult SoftwareTemplate
  | call_updateSoftwareTemplate _ _ => ApiResult unit
  | call_listSoftwareTemplates _ _ => ApiResult (Listing SoftwareTemplate)
  | call_listFileVersions _ _ _ => ApiResult (Listing FileVersionItem)
  end.

(** An event handler: the state updates and the awaited calls it
    issues, in program order. *)
Inductive Prog (A : Type) : Type :=
| Ret (a : A)
| Update (u : SetState) (k : Prog A)
| Call (c : ApiCall) (k : Resp c -> Prog A).

Arguments Ret {A} a.
Arguments Update {A} u k.
Arguments Call {A} c k.

Fixpoint pbind {A B} (p : Prog A) (f : A -> Prog B) : Prog B :=
  match p with
  | Ret a => f a
  | Update u k => Update u (pbind k f)
  | Call c k => Call c (fun r => pbind (k r) f)
  end.

Definition set (u : SetState) : Prog unit := Update u (Ret tt).
Definition await (c : ApiCall) : Prog (Resp c) := Call c (fun r => Ret r).

(** The backend and the object storage as seen by one run of a
    handler: the answer to every call. *)
Definition World : Type := forall c : ApiCall, Resp c.

Record Outcome (A : Type) : Type := mkOutcome
  { result : A;
    final : ViewState;
    calls : list ApiCall }.

Fixpoint run {A} (w : World) (p : Prog A) (st : ViewState) : Outcome A :=
  match p with
  | Ret a => mkOutcome a st []
  | Update u k => run w k (applySet u st)
  | Call c k =>
      let o := run w (k (w c)) st in
      mkOutcome (result o) (final o) (c :: calls o)
  end.

Notation "x <~ c ;; k" := (pbind c (fun x => k))
  (at level 61, c at next level, right associativity).
Notation "c ;;; k" := (pbind c (fun _ => k))
  (at level 61, right associativity).

(** ** Event handlers

    A handler reads the state of the render it was created in ([snap])
    and never sees its own updates. *)

Definition errorMessage (t : string) : option Message :=
  Some (mkMessage error t).

Definition clearVersions : Prog unit :=
  set (setVersions []) ;;;
  set (setVersionsPageInfo (fun _ => mkPageInfo 1 20 0)) ;;;
  set (setVersionsLoading false).

Definition loadVersionsForFile (fileId page pageSize : Z) : Prog unit :=
  set (setVersionsLoading true) ;;;
  result <~ await (call_listFileVersions fileId page pageSize) ;;
  set (setVersionsLoading false) ;;;
  match result with
  | Failure m => set (setMessage (errorMessage m))
  | Success data =>
      set (setVersions (list_ data)) ;;;
      set (setVersionsPageInfo (fun _ => page_ data))
  end.

Definition selectTemplate (snap : ViewState)
    (template : option SoftwareTemplate) : Prog unit :=
  set (setSelectedTemplateId (option_map id template)) ;;;
  match template with
  | Some t =>
      if JS.truthyNum (archiveFileId t) then
        set (setVersions []) ;;;
        set (setVersionsPageInfo
               (fun prev => mkPageInfo 1 (pageSize prev) 0)) ;;;
        loadVersionsForFile (archiveFileId t) 1
          (pageSize (versionsPageInfo snap))
      else clearVersions
  | None => clearVersions
  end.

(** [(selectedTemplateId ? list.find(...) : null) ?? list[0] ?? null] *)
Definition nextTemplate (selected : option Z) (l : list SoftwareTemplate)
  : option SoftwareTemplate :=
  let found :=
    match selected with
    | Some sel => if JS.truthyNum sel
                  then find (fun t => id t =? sel) l
                  else None
    | None => None
    end in
  match found with
  | Some t => Some t
  | None => hd_error l
  end.

Definition loadTemplates (snap : ViewState) : Prog unit :=
  set (setLoading true) ;;;
  result <~ await (call_listSoftwareTemplates (page (pageInfo snap))
                     (pageSize (pageInfo snap))) ;;
  set (setLoading false) ;;;
  match result with
  | Failure m => set (setMessage (errorMessage m))
  | Success data =>
      set (setTemplates (list_ data)) ;;;
      set (setPageInfo (page_ data)) ;;;
      selectTemplate snap
        (nextTemplate (selectedTemplateId snap) (list_ data))
  end.

Definition resetForm : Prog unit :=
  set (setFormData (mkFormData "" "" "")) ;;;
  set (setSelectedFile None) ;;;
  set (setUploadProgress 0) ;;;
  set (setUploadMode new) ;;;
  set clearFileInput.

Definition openCreateModal : Prog unit :=
  resetForm ;;; set (setIsCreateModalOpen true).

Definition closeCreateModal : Prog unit :=
  set (setIsCreateModalOpen false) ;;; resetForm.

Definition openEditModal (template : SoftwareTemplate) : Prog unit :=
  set (setEditingTemplate (Some template)) ;;;
  set (setFormData
         (mkFormData (name template) (description template)
            (if JS.truthyNum (archiveFileId template)
             then JS.stringOfNumber (archiveFileId template) else ""))) ;;;
  set (setUploadMode new) ;;;
  set (setSelectedFile None) ;;;
  set (setUploadProgress 0) ;;;
  set (setIsEditModalOpen true).

Definition closeEditModal : Prog unit :=
  set (setIsEditModalOpen false) ;;;
  set (setEditingTemplate None) ;;;
  resetForm.

(** [if (v) ...] for [let v: number | undefined]. *)
Definition truthyId (v : option Z) : bool :=
  match v with Some n => JS.truthyNum n | None => false end.

(** The first half of both handlers yields [None] when the handler has
    returned and [Some archiveFileId] when it goes on to step 4. *)
Definition handleUploadAndCreate (snap : ViewState) : Prog unit :=
  set (setMessage None) ;;;
  if negb (JS.truthy (JS.trim (fd_name (formData snap)))) then
    set (setMessage (errorMessage "模板名称不能为空"))
  else
    upload <~
      match uploadMode snap, selectedFile snap with
      | new, Some file =>
          set (setIsUploading true) ;;;
          set (setUploadProgress 10) ;;;
          set (setUploadProgress 20) ;;;
          match calculateFileHash file with
          | Throws _ =>
              set (setMessage (errorMessage "文件上传过程中发生错误")) ;;;
              set (setIsUploading false) ;;;
              set (setUploadProgress 0) ;;;
              Ret None
          | Normal fileHash =>
              set (setUploadProgress 40) ;;;
              let ext := getFileExtension (fileName file) in
              let category := getFileCategory ext in
              preUploadResult <~
                await (call_preUploadFile
                         {| pu_projectId := 0;
                            pu_name := fileName file;
                            pu_fileCategory := category;
                            pu_fileFormat := ext;
                            pu_sizeBytes := fileSize file;
                            pu_hash := fileHash;
                            pu_contentType :=
                              if JS.truthy (fileType file)
                              then Some (fileType file) else None |}) ;;
              match preUploadResult with
              | Failure m =>
                  set (setMessage (errorMessage ("预上传失败: " ++ m))) ;;;
                  set (setIsUploading false) ;;;
                  set (setUploadProgress 0) ;;;
                  Ret None
              | Success data =>
                  set (setUploadProgress 60) ;;;
                  uploadResult <~
                    await (call_uploadFileToOSS (uploadUrl data) file
                             (contentType data)) ;;
                  match uploadResult with
                  | Failure m =>
                      set (setMessage (errorMessage ("上传失败: " ++ m))) ;;;
                      set (setIsUploading false) ;;;
                      set (setUploadProgress 0) ;;;
                      Ret None
                  | Success _ =>
                      set (setUploadProgress 80) ;;;
                      Ret (Some (Some (fileId data)))
                  end
              end
          end
      | existing, _ =>
          if JS.truthy (JS.trim (fd_archiveFileId (formData snap))) then
            match JS.parseInt (JS.trim (fd_archiveFileId (formData snap)))
            with
            | Some fileId =>
                if 0 <? fileId then Ret (Some (Some fileId))
                else Ret (Some None)
            | None => Ret (Some None)
            end
          else Ret (Some None)
      | new, None => Ret (Some None)
      end ;;
    match upload with
    | None => Ret tt
    | Some archiveFileId =>
        set (setUploadProgress 90) ;;;
        let input :=
          {| in_name := Some (JS.trim (fd_name (formData snap)));
             in_description :=
               if JS.truthy (JS.trim (fd_description (formData snap)))
               then Some (JS.trim (fd_description (formData snap)))
               else None;
             in_archiveFileId :=
               if truthyId archiveFileId then archiveFileId else None |} in
        result <~ await (call_createSoftwareTemplate input) ;;
        set (setIsUploading false) ;;;
        set (setUploadProgress 0) ;;;
        match result with
        | Failure m => set (setMessage (errorMessage m))
        | Success _ =>
            set (setMessage (Some (mkMessage success "模板创建成功！"))) ;;;
            closeCreateModal ;;;
            loadTemplates snap
        end
    end.

Definition handleUploadAndUpdate (snap : ViewState) : Prog unit :=
  set (setMessage None) ;;;
  match editingTemplate snap with
  | None => Ret tt
  | Some editing =>
    upload <~
      match uploadMode snap, selectedFile snap with
      | new, Some file =>
          set (setIsUploading true) ;;;
          set (setUploadProgress 10) ;;;
          set (setUploadProgress 20) ;;;
          match calculateFileHash file with
          | Throws _ =>
              set (setMessage (errorMessage "文件上传过程中发生错误")) ;;;
              set (setIsUploading false) ;;;
              set (setUploadProgress 0) ;;;
              Ret None
          | Normal fileHash =>
              set (setUploadProgress 40) ;;;
              let ext := getFileExtension (fileName file) in
              let category := getFileCategory ext in
              preUploadResult <~
                await (call_preUploadFile
                         {| pu_projectId := 0;
                            pu_name := fileName file;
                            pu_fileCategory := category;
                            pu_fileFormat := ext;
                            pu_sizeBytes := fileSize file;
                            pu_hash := fileHash;
                            pu_contentType :=
                              if JS.truthy (fileType file)
                              then Some (fileType file) else None |}) ;;
              match preUploadResult with
              | Failure m =>
                  set (setMessage (errorMessage ("预上传失败: " ++ m))) ;;;
                  set (setIsUploading false) ;;;
                  set (setUploadProgress 0) ;;;
                  Ret None
              | Success data =>
                  set (setUploadProgress 60) ;;;
                  uploadResult <~
                    await (call_uploadFileToOSS (uploadUrl data) file
                             (contentType data)) ;;
                  match uploadResult with
                  | Failure m =>
                      set (setMessage (errorMessage ("上传失败: " ++ m))) ;;;
                      set (setIsUploading false) ;;;
                      set (setUploadProgress 0) ;;;
                      Ret None
                  | Success _ =>
                      set (setUploadProgress 80) ;;;
                      Ret (Some (Some (fileId data)))
                  end
              end
          end
      | existing, _ =>
          if JS.truthy (JS.trim (fd_archiveFileId (formData snap))) then
            match JS.parseInt (JS.trim (fd_archiveFileId (formData snap)))
            with
            | Some fileId =>
                if 0 <? fileId then Ret (Some (Some fileId))
                else Ret (Some None)
            | None => Ret (Some None)
            end
          else Ret (Some None)
      | new, None => Ret (Some None)
      end ;;
    match upload with
    | None => Ret tt
    | Some archiveFileId =>
        set (setUploadProgress 90) ;;;
        let input :=
          {| in_name :=
               if JS.truthy (JS.trim (fd_name (formData snap)))
               then Some (JS.trim (fd_name (formData snap)))
               else None;
             in_description :=
               if JS.truthy (JS.trim (fd_description (formData snap)))
               then Some (JS.trim (fd_description (formData snap)))
               else None;
             in_archiveFileId :=
               if truthyId archiveFileId then archiveFileId else None |} in
        result <~ await (call_updateSoftwareTemplate (id editing) input) ;;
        set (setIsUploading false) ;;;
        set (setUploadProgress 0) ;;;
        match result with
        | Failure m => set (setMessage (errorMessage m))
        | Success _ =>
            set (setMessage (Some (mkMessage success "模板更新成功！"))) ;;;
            closeEditModal ;;;
            loadTemplates snap
        end
    end
  end.

End SoftwareTemplatesPage.

(* ================================================================== *)
(** * src/pages/LlmManagementPage.tsx *)
(* ================================================================== *)

Module LlmManagementPage.

(** In this page a non-blank [msg] replaces a non-blank [message]: the
    second test is not an [else]. *)
Definition parseApiErrorMessage {T} (env : Env T) (response : Response T)
  : Exc string :=
  text <- Platform.text response ;;
  if negb (JS.truthy text) then Normal "Request failed"
  else
    extractedMessage <-
      tryCatch
        (parsed <- JSON_parse (parser env) text ;;
         message <- getProp parsed "message" ;;
         let extracted1 := nonBlankString message in
         msg <- getProp parsed "msg" ;;
         let extracted2 :=
           match nonBlankString msg with
           | Some m => Some m
           | None => extracted1
           end in
         Normal extracted2)
        (fun _ => Normal None) ;;
    match extractedMessage with
    | Some m =>
        if JS.truthy m then Normal m
        else Normal (JS.orElse (JS.trim text) "Request failed")
    | None =>
        let normalized := JS.trim text in
        Normal (JS.orElse normalized "Request failed")
    end.

Record LlmProvider : Type := mkLlmProvider
  { p_id : Z;
    p_name : string;
    p_baseUrl : string;
    p_hasApiKey : bool;
    p_description : string;
    p_createdAt : string;
    p_updatedAt : string }.

Record ProviderForm : Type := mkProviderForm
  { pf_name : string;
    pf_baseUrl : string;
    pf_description : string;
    pf_apiKey : string;
    pf_clearApiKey : bool }.

Inductive ModalMode : Type := create | edit.

Record ProviderCreate : Type := mkProviderCreate
  { pc_name : string;
    pc_baseUrl : string;
    pc_apiKey : option string;
    pc_description : option string }.

Record ProviderUpdate : Type := mkProviderUpdate
  { upd_name : option string;
    upd_baseUrl : option string;
    upd_apiKey : option string;
    upd_clearApiKey : option bool;
    upd_description : option string }.

(** What a submit handler does before it awaits the backend: it shows a
    validation error, returns silently, or issues one request. *)
Inductive Submit (C U : Type) : Type :=
| Rejected (text : string)
| Ignored
| Create (payload : C)
| UpdateOf (id : Z) (payload : U).

Arguments Rejected {C U} text.
Arguments Ignored {C U}.
Arguments Create {C U} payload.
Arguments UpdateOf {C U} id payload.

(** [submitProvider] up to its call of [createLlmProvider] or
    [updateLlmProvider]. *)
Definition submitProvider (providerModalMode : ModalMode)
    (editingProvider : option LlmProvider) (providerForm : ProviderForm)
  : Submit ProviderCreate ProviderUpdate :=
  if negb (JS.truthy (JS.trim (pf_name providerForm))) then
    Rejected "Provider 名称不能为空"
  else
    match providerModalMode with
    | create =>
        Create
          {| pc_name := JS.trim (pf_name providerForm);
             pc_baseUrl := JS.trim (pf_baseUrl providerForm);
             pc_description :=
               if JS.truthy (JS.trim (pf_description providerForm))
               then Some (JS.trim (pf_description providerForm)) else None;
             pc_apiKey :=
               if JS.truthy (JS.trim (pf_apiKey providerForm))
               then Some (JS.trim (pf_apiKey providerForm)) else None |}
    | edit =>
        match editingProvider with
        | None => Ignored
        | Some editing =>
            UpdateOf (p_id editing)
              {| upd_name :=
                   if (JS.truthy (JS.trim (pf_name providerForm))
                       && negb (JS.trim (pf_name providerForm)
                                =? p_name editing)%string)%bool
                   then Some (JS.trim (pf_name providerForm)) else None;
                 upd_baseUrl :=
                   if negb (JS.trim (pf_baseUrl providerForm)
                            =? p_baseUrl editing)%string
                   then Some (JS.trim (pf_baseUrl providerForm)) else None;
                 upd_description :=
                   if negb (JS.trim (pf_description providerForm)
                            =? JS.orElse (p_description editing) "")%string
                   then Some (JS.trim (pf_description providerForm))
                   else None;
                 upd_clearApiKey :=
                   if pf_clearApiKey providerForm then Some true else None;
                 upd_apiKey :=
                   if pf_clearApiKey providerForm then None
                   else if JS.truthy (JS.trim (pf_apiKey providerForm))
                        then Some (JS.trim (pf_apiKey providerForm))
                        else None |}
        end
    end.

(** Prices are JavaScript numbers that need not be integers.  Their
    type, [parseFloat] ([None] is NaN), [Math.max(0, _)] on them and
    their strict equality [===] are those of the platform. *)
Section Models.

Variable Num : Type.
Variable parseFloat : string -> option Num.
Variable zero : Num.
Variable max0 : Num -> Num.
Variable strictEq : Num -> Num -> bool.

Record LlmModel : Type := mkLlmModel
  { m_id : Z;
    m_providerId : Z;
    m_modelName : string;
    m_modelType : string;
    m_maxInputTokens : Z;
    m_maxOutputTokens : Z;
    m_supportStream : bool;
    m_supportJson : bool;
    m_priceInputPer1k : Num;
    m_priceOutputPer1k : Num;
    m_createdAt : string;
    m_updatedAt : string }.

Record ModelForm : Type := mkModelForm
  { mf_providerId : string;
    mf_modelName : string;
    mf_modelType : string;
    mf_maxInputTokens : string;
    mf_maxOutputTokens : string;
    mf_supportStream : bool;
    mf_supportJson : bool;
    mf_priceInputPer1k : string;
    mf_priceOutputPer1k : string }.

Record ModelCreate : Type := mkModelCreate
  { mc_providerId : Z;
    mc_modelName : string;
    mc_modelType : string;
    mc_maxInputTokens : Z;
    mc_maxOutputTokens : Z;
    mc_supportStream : bool;
    mc_supportJson : bool;
    mc_priceInputPer1k : Num;
    mc_priceOutputPer1k : Num }.

Record ModelUpdate : Type := mkModelUpdate
  { mu_providerId : option Z;
    mu_modelName : option string;
    mu_modelType : option string;
    mu_maxInputTokens : option Z;
    mu_maxOutputTokens : option Z;
    mu_supportStream : option bool;
    mu_supportJson : option bool;
    mu_priceInputPer1k : option Num;
    mu_priceOutputPer1k : option Num }.

(** [isNaN(n) ? 0 : Math.max(0, n)] *)
Definition clampInt (n : option Z) : Z :=
  match n with Some v => Z.max 0 v | None => 0 end.

Definition clampNum (n : option Num) : Num :=
  match n with Some v => max0 v | None => zero end.

(** [if (next !== old) payload.field = next] *)
Definition changed {A} (eqb : A -> A -> bool) (next old : A) : option A :=
  if negb (eqb next old) then Some next else None.

(** [submitModel] up to its call of [createLlmModel] or
    [updateLlmModel]. *)
Definition submitModel (modelModalMode : ModalMode)
    (editingModel : option LlmModel) (modelForm : ModelForm)
  : Submit ModelCreate ModelUpdate :=
  let providerId := JS.parseInt (mf_providerId modelForm) in
  match providerId with
  | None => Rejected "请选择 Provider"
  | Some providerId =>
    if providerId <=? 0 then Rejected "请选择 Provider"
    else if negb (JS.truthy (JS.trim (mf_modelName modelForm))) then
      Rejected "Model 名称不能为空"
    else
      let maxInputTokens := JS.parseInt (mf_maxInputTokens modelForm) in
      let maxOutputTokens := JS.parseInt (mf_maxOutputTokens modelForm) in
      let priceInputPer1k := parseFloat (mf_priceInputPer1k modelForm) in
      let priceOutputPer1k := parseFloat (mf_priceOutputPer1k modelForm) in
      match modelModalMode with
      | create =>
          Create
            {| mc_providerId := providerId;
               mc_modelName := JS.trim (mf_modelName modelForm);
               mc_modelType := mf_modelType modelForm;
               mc_maxInputTokens := clampInt maxInputTokens;
               mc_maxOutputTokens := clampInt maxOutputTokens;
               mc_supportStream := mf_supportStream modelForm;
               mc_supportJson := mf_supportJson modelForm;
               mc_priceInputPer1k := clampNum priceInputPer1k;
               mc_priceOutputPer1k := clampNum priceOutputPer1k |}
      | edit =>
          match editingModel with
          | None => Ignored
          | Some editing =>
              let nextMaxIn := clampInt maxInputTokens in
              let nextMaxOut := clampInt maxOutputTokens in
              let nextPriceIn := clampNum priceInputPer1k in
              let nextPriceOut := clampNum priceOutputPer1k in
              UpdateOf (m_id editing)
                {| mu_providerId :=
                     changed Z.eqb providerId (m_providerId editing);
                   mu_modelName :=
                     changed String.eqb (JS.trim (mf_modelName modelForm))
                       (m_modelName editing);
                   mu_modelType :=
                     changed String.eqb (mf_modelType modelForm)
                       (m_modelType editing);
                   mu_maxInputTokens :=
                     changed Z.eqb nextMaxIn (m_maxInputTokens editing);
                   mu_maxOutputTokens :=
                     changed Z.eqb nextMaxOut (m_maxOutputTokens editing);
                   mu_supportStream :=
                     changed Bool.eqb (mf_supportStream modelForm)
                       (m_supportStream editing);
                   mu_supportJson :=
                     changed Bool.eqb (mf_supportJson modelForm)
                       (m_supportJson editing);
                   mu_priceInputPer1k :=
                     changed strictEq nextPriceIn
                       (m_priceInputPer1k editing);
                   mu_priceOutputPer1k :=
                     changed strictEq nextPriceOut
                       (m_priceOutputPer1k editing) |}
          end
      end
  end.

End Models.

End LlmManagementPage.

(* ================================================================== *)
(** * src/pages/AgentManagementPage.tsx *)
(* ================================================================== *)

Module AgentManagementPage.

Definition parseApiErrorMessage {T} (env : Env T) (response : Response T)
  : Exc string :=
  text <- Platform.text response ;;
  if negb (JS.truthy text) then Normal "Request failed"
  else
    returned <-
      tryCatch
        (parsed <- JSON_parse (parser env) text ;;
         message <- getProp parsed "message" ;;
         match nonBlankString message with
         | Some m => Normal (Some m)
         | None =>
             msg <- getProp parsed "msg" ;;
             match nonBlankString msg with
             | Some m => Normal (Some m)
             | None => Normal None
             end
         end)
        (fun _ => Normal None) ;;
    match returned with
    | Some m => Normal m
    | None => Normal (JS.orElse (JS.trim text) "Request failed")
    end.

Record Agent : Type := mkAgent
  { a_id : Z;
    a_name : string;
    a_description : string;
    a_instruction : string;
    a_agentType : string;
    a_createdAt : string }.

Record AgentForm : Type := mkAgentForm
  { af_name : string;
    af_description : string;
    af_instruction : string;
    af_agentType : string }.

Record AgentCreate : Type := mkAgentCreate
  { ac_name : string;
    ac_description : option string;
    ac_instruction : option string;
    ac_agentType : string }.

Record AgentUpdate : Type := mkAgentUpdate
  { au_name : option string;
    au_description : option string;
    au_instruction : option string;
    au_agentType : option string }.

Import LlmManagementPage.

(** [submitAgent] up to its call of [createAgent] or [updateAgent]. *)
Definition submitAgent (agentModalMode : ModalMode)
    (editingAgent : option Agent) (agentForm : AgentForm)
  : Submit AgentCreate AgentUpdate :=
  if negb (JS.truthy (JS.trim (af_name agentForm))) then
    Rejected "Agent 名称不能为空"
  else if negb (JS.truthy (JS.trim (af_agentType agentForm))) then
    Rejected "Agent 类型不能为空"
  else
    match agentModalMode with
    | create =>
        Create
          {| ac_name := JS.trim (af_name agentForm);
             ac_agentType := JS.trim (af_agentType agentForm);
             ac_description :=
               if JS.truthy (JS.trim (af_description agentForm))
               then Some (JS.trim (af_description agentForm)) else None;
             ac_instruction :=
               if JS.truthy (JS.trim (af_instruction agentForm))
               then Some (JS.trim (af_instruction agentForm)) else None |}
    | edit =>
        match editingAgent with
        | None => Ignored
        | Some editing =>
            UpdateOf (a_id editing)
              {| au_name :=
                   if (JS.truthy (JS.trim (af_name agentForm))
                       && negb (JS.trim (af_name agentForm)
                                =? a_name editing)%string)%bool
                   then Some (JS.trim (af_name agentForm)) else None;
                 au_description :=
                   if negb (JS.orElse (af_description agentForm) ""
                            =? JS.orElse (a_description editing) "")%string
                   then Some (JS.trim (af_description agentForm)) else None;
                 au_instruction :=
                   if negb (JS.orElse (af_instruction agentForm) ""
                            =? JS.orElse (a_instruction editing) "")%string
                   then Some (JS.trim (af_instruction agentForm)) else None;
                 au_agentType :=
                   if (JS.truthy (JS.trim (af_agentType agentForm))
                       && negb (JS.trim (af_agentType agentForm)
                                =? a_agentType editing)%string)%bool
                   then Some (JS.trim (af_agentType agentForm)) else None |}
        end
    end.

End AgentManagementPage.

(* ================================================================== *)
(** * Specification-side definitions *)
(* ================================================================== *)

Module Spec.

Import SoftwareTemplatesPage.

(** The six coarse file categories. *)
Definition categories : list string :=
  ["image"; "video"; "audio"; "text"; "archive"; "binary"].

(** Lowercase hexadecimal: two digits a byte, high nibble first. *)
Definition hexLower (bs : list byte) : string :=
  JS.join
    (map (fun b =>
            String (JS.hexDigit (Byte.to_N b / 16))
              (String (JS.hexDigit (Byte.to_N b mod 16)) EmptyString))
       bs).

Definition isLowerHex (c : ascii) : bool :=
  let n := N_of_ascii c in
  ((N.leb 48 n && N.leb n 57) || (N.leb 97 n && N.leb n 102))%bool.

Fixpoint allChars (p : ascii -> bool) (s : string) : bool :=
  match s with
  | EmptyString => true
  | String c r => p c && allChars p r
  end.

(** *** Error decoding *)

(** The string value of a top-level field of a JSON body, when the body
    parses to an object and the field is a non-blank string. *)
Definition field (parser : string -> option Json.json)
    (body key : string) : option string :=
  match parser body with
  | Some (Json.JObj l) => nonBlankString (Json.lookup key l)
  | _ => None
  end.

(** The three-tier fallback: [message], else [msg], else the response
    text (without its surrounding white space), else the literal
    "Request failed". *)
Definition errorText (parser : string -> option Json.json)
    (body : string) : string :=
  match field parser body "message" with
  | Some m => m
  | None =>
      match field parser body "msg" with
      | Some m => m
      | None =>
          if JS.truthy (JS.trim body) then JS.trim body
          else "Request failed"
      end
  end.

(** The same fallback with the two fields in the other order. *)
Definition errorTextMsgFirst (parser : string -> option Json.json)
    (body : string) : string :=
  match field parser body "msg" with
  | Some m => m
  | None =>
      match field parser body "message" with
      | Some m => m
      | None =>
          if JS.truthy (JS.trim body) then JS.trim body
          else "Request failed"
      end
  end.

Definition q : string := String Json.quote EmptyString.

(** [{"message":"name required"}] *)
Definition body_name_required : string :=
  "{" ++ q ++ "message" ++ q ++ ":" ++ q ++ "name required" ++ q ++ "}".

(** [{"message":"name required","msg":"bad request"}] *)
Definition body_message_and_msg : string :=
  "{" ++ q ++ "message" ++ q ++ ":" ++ q ++ "name required" ++ q ++ ","
  ++ q ++ "msg" ++ q ++ ":" ++ q ++ "bad request" ++ q ++ "}".

(** A browser without stored token whose network answers every request
    with the same response. *)
Definition answering {T} (r : Response T) : Env T :=
  {| SPARKX_API_BASE_URL := None;
     parser := Json.parse;
     localStorage_getItem := fun _ => Normal None;
     sessionStorage_getItem := fun _ => Normal None;
     fetch := fun _ => Normal r |}.

(** A response with a text body and no usable JSON payload. *)
Definition errorResponse (status : Z) (statusText body : string)
  : Response unit :=
  mkResponse status statusText (Normal body)
    (Throws (ErrorObject "Unexpected end of JSON input")).

(** *** The API wrappers *)

Inductive Wrapper : Type :=
| adminLogin_
| preUploadFile_
| uploadFileToOSS_
| listFileVersions_
| getDownloadUrl_
| listSoftwareTemplates_
| createSoftwareTemplate_
| updateSoftwareTemplate_.

(** The data a wrapper hands back on success. *)
Definition Data (w : Wrapper) : Type :=
  match w with
  | adminLogin_ => LoginPage.LoginData
  | preUploadFile_ => PreUploadResp
  | uploadFileToOSS_ => unit
  | listFileVersions_ => Listing FileVersionItem
  | getDownloadUrl_ => DownloadFileResp
  | listSoftwareTemplates_ => Listing SoftwareTemplate
  | createSoftwareTemplate_ => SoftwareTemplate
  | updateSoftwareTemplate_ => unit
  end.

Definition Input (w : Wrapper) : Type :=
  match w with
  | adminLogin_ => LoginPage.LoginInput
  | preUploadFile_ => PreUploadInput
  | uploadFileToOSS_ => (string * File * string)%type
  | listFileVersions_ => (Z * Z * Z)%type
  | getDownloadUrl_ => DownloadInput
  | listSoftwareTemplates_ => (Z * Z)%type
  | createSoftwareTemplate_ => TemplateInput
  | updateSoftwareTemplate_ => (Z * TemplateInput)%type
  end.

Definition invoke (w : Wrapper)
  : Env (Data w) -> Input w -> Exc (ApiResult (Data w)) :=
  match w with
  | adminLogin_ => LoginPage.adminLogin
  | preUploadFile_ => preUploadFile
  | uploadFileToOSS_ =>
      fun env i => uploadFileToOSS env (fst (fst i)) (snd (fst i)) (snd i)
  | listFileVersions_ =>
      fun env i => listFileVersions env (fst (fst i)) (snd (fst i)) (snd i)
  | getDownloadUrl_ => getDownloadUrl
  | listSoftwareTemplates_ =>
      fun env i => listSoftwareTemplates env (fst i) (snd i)
  | createSoftwareTemplate_ => createSoftwareTemplate
  | updateSoftwareTemplate_ =>
      fun env i => updateSoftwareTemplate env (fst i) (snd i)
  end.

(** The message of a caught value that is not an [Error]. *)
Definition fallback (w : Wrapper) : string :=
  match w with
  | uploadFileToOSS_ => "Upload failed"
  | _ => "Request failed"
  end.

(** Which wrappers read the token, decode an error body, decode a
    payload. *)
Definition readsToken (w : Wrapper) : bool :=
  match w with adminLogin_ | uploadFileToOSS_ => false | _ => true end.

Definition decodesError (w : Wrapper) : bool :=
  match w with uploadFileToOSS_ => false | _ => true end.

Definition decodesData (w : Wrapper) : bool :=
  match w with
  | uploadFileToOSS_ | updateSoftwareTemplate_ => false
  | _ => true
  end.

(** Both storages answer every read. *)
Definition storageReadable {T} (env : Env T) : Prop :=
  forall k,
    (exists v, localStorage_getItem env k = Normal v)
    /\ (exists v, sessionStorage_getItem env k = Normal v).

(** A browser whose network is down: [fetch] rejects with a
    [TypeError]. *)
Definition offline (T : Type) : Env T :=
  {| SPARKX_API_BASE_URL := None;
     parser := Json.parse;
     localStorage_getItem := fun _ => Normal None;
     sessionStorage_getItem := fun _ => Normal (Some "token");
     fetch := fun _ => Throws (ErrorObject "Failed to fetch") |}.

(** *** The upload-and-register workflow *)

(** The kinds of calls of the page. *)
Definition isTransfer (c : ApiCall) : bool :=
  match c with call_uploadFileToOSS _ _ _ => true | _ => false end.

Definition isRegistrar (c : ApiCall) : bool :=
  match c with
  | call_createSoftwareTemplate _ | call_updateSoftwareTemplate _ _ => true
  | _ => false
  end.

Definition isRead (c : ApiCall) : bool :=
  match c with
  | call_listSoftwareTemplates _ _ | call_listFileVersions _ _ _ => true
  | _ => false
  end.

(** The [archiveFileId] of the request body of a registrar call. *)
Definition bodyArchiveFileId (request : Request) : option Json.json :=
  match body request with
  | Some (JsonBody (Json.JObj l)) => Json.lookup "archiveFileId" l
  | _ => None
  end.

(** A wrapper called with [input] hands [fetch] a request that satisfies
    [p], in every browser whose storages can be read, and what it
    returns is the answer to that request: a failure when [fetch]
    rejects it, a success when the response is 2xx (and its payload can
    be decoded, for the wrappers that decode one). *)
Definition transmits (w : Wrapper) (input : Input w)
    (p : Request -> Prop) : Prop :=
  forall env : Env (Data w),
    storageReadable env ->
    exists request,
      p request
      /\ (forall t,
             fetch env request = Throws t ->
             invoke w env input
             = Normal (Failure (errorMessageOr (fallback w) t)))
      /\ (forall response data,
             fetch env request = Normal response ->
             ok response = true ->
             (decodesData w = true -> json response = Normal data) ->
             invoke w env input = Normal (Success data)).

(** The same for the wrapper behind a create or update call of a
    handler. *)
Definition registrarTransmits (c : ApiCall) (p : Request -> Prop) : Prop :=
  match c with
  | call_createSoftwareTemplate input =>
      transmits createSoftwareTemplate_ input p
  | call_updateSoftwareTemplate id input =>
      transmits updateSoftwareTemplate_ (id, input) p
  | _ => False
  end.

(** The world accepts a create or update call. *)
Definition registered (w : World) (c : ApiCall) : bool :=
  match c with
  | call_createSoftwareTemplate input =>
      match w (call_createSoftwareTemplate input) with
      | Success _ => true
      | Failure _ => false
      end
  | call_updateSoftwareTemplate id input =>
      match w (call_updateSoftwareTemplate id input) with
      | Success _ => true
      | Failure _ => false
      end
  | _ => false
  end.

(** The world answers every listing of templates and of versions. *)
Definition readsSucceed (w : World) : Prop :=
  (forall page pageSize,
      exists listed,
        w (call_listSoftwareTemplates page pageSize) = Success listed)
  /\ (forall fileId page pageSize,
         exists listed,
           w (call_listFileVersions fileId page pageSize) = Success listed).

(** The input of a registrar call. *)
Definition registrarInput (c : ApiCall) : option TemplateInput :=
  match c with
  | call_createSoftwareTemplate input
  | call_updateSoftwareTemplate _ input => Some input
  | _ => None
  end.

(** The two handlers of the workflow. *)
Inductive Handler : Type := onCreate | onUpdate.

Definition handler (h : Handler) : ViewState -> Prog unit :=
  match h with
  | onCreate => handleUploadAndCreate
  | onUpdate => handleUploadAndUpdate
  end.

(** One click on the submit button: the handler runs on the state it was
    rendered with. *)
Definition attempt (h : Handler) (w : World) (snap : ViewState)
  : Outcome unit :=
  run w (handler h snap) snap.

(** The handler gets as far as its registrar when no upload stops it: a
    create needs a non-blank name, an update a template being edited. *)
Definition submittable (h : Handler) (snap : ViewState) : Prop :=
  match h with
  | onCreate => JS.truthy (JS.trim (fd_name (formData snap))) = true
  | onUpdate => editingTemplate snap <> None
  end.

(** The registrar of a handler. *)
Definition registrarOf (h : Handler) (c : ApiCall) : bool :=
  match h, c with
  | onCreate, call_createSoftwareTemplate _ => true
  | onUpdate, call_updateSoftwareTemplate _ _ => true
  | _, _ => false
  end.

(** The banner of a handler whose registrar has succeeded. *)
Definition done (h : Handler) : option Message :=
  Some (mkMessage success
          match h with
          | onCreate => "模板创建成功！"
          | onUpdate => "模板更新成功！"
          end).

(** *** Sample runs *)

(** The state of the page when it is mounted. *)
Definition initialState : ViewState :=
  {| templates := [];
     pageInfo := mkPageInfo 1 10 0;
     loading := false;
     message := None;
     selectedTemplateId := None;
     isCreateModalOpen := false;
     isEditModalOpen := false;
     editingTemplate := None;
     formData := mkFormData "" "" "";
     selectedFile := None;
     uploadProgress := 0;
     isUploading := false;
     uploadMode := new;
     fileInput := Some "";
     versions := [];
     versionsPageInfo := mkPageInfo 1 20 0;
     versionsLoading := false |}.

Definition after (updates : list SetState) (st : ViewState) : ViewState :=
  fold_left (fun s u => applySet u s) updates st.

Definition demoFile : File :=
  mkFile "demo.zip" "application/zip" 3 (Normal (list_byte_of_string "abc")).

(** What the negotiator is asked for [demoFile]. *)
Definition demoInput : PreUploadInput :=
  {| pu_projectId := 0;
     pu_name := "demo.zip";
     pu_fileCategory := "archive";
     pu_fileFormat := "zip";
     pu_sizeBytes := 3;
     pu_hash :=
       "ba7816bf8f01cfea414140de5dae2223b00361a396177a9cb410ff61f20015ad";
     pu_contentType := Some "application/zip" |}.

(** The create dialog with a name and a file chosen. *)
Definition createWithFile : ViewState :=
  after [setIsCreateModalOpen true;
         setFormData (mkFormData "demo" "" "");
         setSelectedFile (Some demoFile)] initialState.

(** The create dialog in 'existing' mode with a typed file id. *)
Definition createWithTypedId (typed : string) : ViewState :=
  after [setIsCreateModalOpen true;
         setFormData (mkFormData "demo" "" typed);
         setUploadMode existing] initialState.

Definition slot (fileId : Z) : PreUploadResp :=
  {| uploadUrl := "https://oss.example/slot";
     fileId := fileId;
     versionId := 7;
     versionNumber := 3;
     contentType := "application/zip" |}.

Definition template (id : Z) (name : string) (archive : Z)
  : SoftwareTemplate :=
  {| id := id;
     name := name;
     description := "";
     archiveFileId := archive;
     createdBy := 1;
     createdAt := "2025-01-01T00:00:00Z";
     updatedAt := "2025-01-01T00:00:00Z" |}.

(** A world that gives the same answer to every call of a kind. *)
Definition world
    (negotiated : ApiResult PreUploadResp) (transferred : ApiResult unit)
    (created : ApiResult SoftwareTemplate) (updated : ApiResult unit)
    (listed : ApiResult (Listing SoftwareTemplate))
    (versioned : ApiResult (Listing FileVersionItem)) : World :=
  fun c =>
    match c with
    | call_preUploadFile _ => negotiated
    | call_uploadFileToOSS _ _ _ => transferred
    | call_createSoftwareTemplate _ => created
    | call_updateSoftwareTemplate _ _ => updated
    | call_listSoftwareTemplates _ _ => listed
    | call_listFileVersions _ _ _ => versioned
    end.

(** The backend holds [rows] and answers every call with success. *)
Definition healthy (negotiated : PreUploadResp) (created : SoftwareTemplate)
    (rows : list SoftwareTemplate) : World :=
  world (Success negotiated) (Success tt) (Success created) (Success tt)
    (Success (mkListing rows (mkPageInfo 1 10 (Z.of_nat (List.length rows)))))
    (Success (mkListing [] (mkPageInfo 1 20 0))).

(** *** Diff before send *)

Import LlmManagementPage AgentManagementPage.

(** Every field of the update body differs from the loaded record. *)
Definition TemplateDiff (loaded : SoftwareTemplate)
    (payload : TemplateInput) : Prop :=
  (forall v, in_name payload = Some v -> v <> name loaded)
  /\ (forall v, in_description payload = Some v -> v <> description loaded)
  /\ (forall v, in_archiveFileId payload = Some v
                -> v <> archiveFileId loaded).

Definition ProviderDiff (loaded : LlmProvider) (payload : ProviderUpdate)
  : Prop :=
  (forall v, upd_name payload = Some v -> v <> p_name loaded)
  /\ (forall v, upd_baseUrl payload = Some v -> v <> p_baseUrl loaded)
  /\ (forall v, upd_description payload = Some v
                -> v <> p_description loaded).

(** Prices differ in the sense of [!==]. *)
Definition ModelDiff {Num : Type} (strictEq : Num -> Num -> bool)
    (loaded : LlmModel Num) (payload : ModelUpdate Num) : Prop :=
  (forall v, mu_providerId payload = Some v -> v <> m_providerId loaded)
  /\ (forall v, mu_modelName payload = Some v -> v <> m_modelName loaded)
  /\ (forall v, mu_modelType payload = Some v -> v <> m_modelType loaded)
  /\ (forall v, mu_maxInputTokens payload = Some v
                -> v <> m_maxInputTokens loaded)
  /\ (forall v, mu_maxOutputTokens payload = Some v
                -> v <> m_maxOutputTokens loaded)
  /\ (forall v, mu_supportStream payload = Some v
                -> v <> m_supportStream loaded)
  /\ (forall v, mu_supportJson payload = Some v
                -> v <> m_supportJson loaded)
  /\ (forall v, mu_priceInputPer1k payload = Some v
                -> strictEq v (m_priceInputPer1k loaded) = false)
  /\ (forall v, mu_priceOutputPer1k payload = Some v
                -> strictEq v (m_priceOutputPer1k loaded) = false).

Definition AgentNameTypeDiff (loaded : Agent) (payload : AgentUpdate)
  : Prop :=
  (forall v, au_name payload = Some v -> v <> a_name loaded)
  /\ (forall v, au_agentType payload = Some v -> v <> a_agentType loaded).

Definition AgentDiff (loaded : Agent) (payload : AgentUpdate) : Prop :=
  AgentNameTypeDiff loaded payload
  /\ (forall v, au_description payload = Some v -> v <> a_description loaded)
  /\ (forall v, au_instruction payload = Some v
                -> v <> a_instruction loaded).

(** The diff-before-send policy for the four edit forms. *)
Definition DiffBeforeSend : Prop :=
  (forall (w : World) snap loaded id payload,
      editingTemplate snap = Some loaded ->
      In (call_updateSoftwareTemplate id payload)
        (calls (attempt onUpdate w snap)) ->
      TemplateDiff loaded payload)
  /\ (forall form loaded id payload,
         submitProvider edit (Some loaded) form = UpdateOf id payload ->
         ProviderDiff loaded payload)
  /\ (forall (Num : Type) parseFloat (zero : Num) max0 strictEq
             form loaded id payload,
         submitModel parseFloat zero max0 strictEq edit (Some loaded) form
         = UpdateOf id payload ->
         ModelDiff strictEq loaded payload)
  /\ (forall form loaded id payload,
         submitAgent edit (Some loaded) form = UpdateOf id payload ->
         AgentDiff loaded payload).

(** The body of a template update is a function of the form alone. *)
Definition TemplateFromForm (snap : ViewState) (payload : TemplateInput)
  : Prop :=
  in_name payload
  = (if JS.truthy (JS.trim (fd_name (formData snap)))
     then Some (JS.trim (fd_name (formData snap))) else None)
  /\ in_description payload
     = (if JS.truthy (JS.trim (fd_description (formData snap)))
        then Some (JS.trim (fd_description (formData snap))) else None)
  /\ (forall v, in_archiveFileId payload = Some v -> v <> 0).

(** The edit dialog as it opens on [loaded], nothing typed yet. *)
Definition editing (loaded : SoftwareTemplate) : ViewState :=
  final (run (healthy (slot 42) loaded [loaded]) (openEditModal loaded)
           (after [setTemplates [loaded];
                   setSelectedTemplateId (Some (id loaded))] initialState)).

(** The page showing [shown] with [selected] selected and the create
    dialog filled with a name. *)
Definition creating (shown : list SoftwareTemplate) (selected : option Z)
    (typed : string) : ViewState :=
  after [setTemplates shown;
         setSelectedTemplateId selected;
         setIsCreateModalOpen true;
         setFormData (mkFormData typed "" "")] initialState.

End Spec.

(* ================================================================== *)
(** * Further specification-side definitions *)
(* ================================================================== *)

Module Cover.

Import SoftwareTemplatesPage.

(** *** Strings *)

(** A string that is not blank: something is left after [trim]. *)
Definition notBlank (s : string) : bool := JS.truthy (JS.trim s).

Fixpoint noChar (c : ascii) (s : string) : bool :=
  match s with
  | EmptyString => true
  | String x r => negb (Ascii.eqb x c) && noChar c r
  end.

Definition isUpper (c : ascii) : bool :=
  let n := N_of_ascii c in (N.leb 65 n && N.leb n 90)%bool.

Fixpoint noUpper (s : string) : bool :=
  match s with
  | EmptyString => true
  | String x r => negb (isUpper x) && noUpper r
  end.

(** *** Reading a digest back *)

Definition nibble (c : ascii) : option N :=
  let n := N_of_ascii c in
  if (N.leb 48 n && N.leb n 57)%bool then Some (n - 48)%N
  else if (N.leb 97 n && N.leb n 102)%bool then Some (n - 87)%N
  else None.

(** The bytes that a string of lowercase hexadecimal digit pairs
    denotes. *)
Fixpoint decodeHex (s : string) : option (list byte) :=
  match s with
  | EmptyString => Some []
  | String h (String l r) =>
      match nibble h, nibble l, decodeHex r with
      | Some a, Some b, Some bs =>
          match Byte.of_N (16 * a + b) with
          | Some x => Some (x :: bs)
          | None => None
          end
      | _, _, _ => None
      end
  | String _ EmptyString => None
  end.

(** *** Calls and their answers *)

(** The error message of the answer of the world to a call, if the call
    fails. *)
Definition failureOf (w : World) (c : ApiCall) : option string :=
  match c with
  | call_preUploadFile i =>
      match w (call_preUploadFile i) with Failure m => Some m | _ => None end
  | call_uploadFileToOSS u f t =>
      match w (call_uploadFileToOSS u f t) with
      | Failure m => Some m
      | _ => None
      end
  | call_createSoftwareTemplate i =>
      match w (call_createSoftwareTemplate i) with
      | Failure m => Some m
      | _ => None
      end
  | call_updateSoftwareTemplate n i =>
      match w (call_updateSoftwareTemplate n i) with
      | Failure m => Some m
      | _ => None
      end
  | call_listSoftwareTemplates p s =>
      match w (call_listSoftwareTemplates p s) with
      | Failure m => Some m
      | _ => None
      end
  | call_listFileVersions f p s =>
      match w (call_listFileVersions f p s) with
      | Failure m => Some m
      | _ => None
      end
  end.

(** The shapes a trace of the workflow can have: negotiation, transfer
    and registrar at most once and in this order, the transfer only after
    a negotiation, the registrar either first or right after the
    transfer, and reads only after the registrar. *)
Definition workflowShape (l : list ApiCall) : bool :=
  match l with
  | [] => true
  | [call_preUploadFile _] => true
  | [call_preUploadFile _; call_uploadFileToOSS _ _ _] => true
  | call_preUploadFile _ :: call_uploadFileToOSS _ _ _ :: r :: reads =>
      Spec.isRegistrar r && forallb Spec.isRead reads
  | r :: reads => Spec.isRegistrar r && forallb Spec.isRead reads
  end.

(** The method of the request of a wrapper. *)
Definition methodOf (w : Spec.Wrapper) : string :=
  match w with
  | Spec.adminLogin_ | Spec.preUploadFile_ | Spec.createSoftwareTemplate_ =>
      "POST"
  | Spec.uploadFileToOSS_ | Spec.updateSoftwareTemplate_ => "PUT"
  | _ => "GET"
  end.

(** What the negotiator is asked for a file with a given digest. *)
Definition negotiationFor (file : File) (hash : string) : PreUploadInput :=
  {| pu_projectId := 0;
     pu_name := fileName file;
     pu_fileCategory := getFileCategory (getFileExtension (fileName file));
     pu_fileFormat := getFileExtension (fileName file);
     pu_sizeBytes := fileSize file;
     pu_hash := hash;
     pu_contentType :=
       if JS.truthy (fileType file) then Some (fileType file) else None |}.

(** The part of the state that a reload of the list does not touch. *)
Definition dialogs (st : ViewState)
  : bool * bool * option SoftwareTemplate * FormData * option File
    * Z * bool * UploadMode * option string :=
  (isCreateModalOpen st, isEditModalOpen st, editingTemplate st,
   formData st, selectedFile st, uploadProgress st, isUploading st,
   uploadMode st, fileInput st).

(** The state in which a create or an update leaves the page when its
    registrar fails: the banner shows the message, the upload flag and the
    progress are reset, and the dialog, the form, the list and the
    selection are as they were. *)
Definition registrationFailed (snap final : ViewState) (m : string) : Prop :=
  message final = errorMessage m
  /\ isUploading final = false
  /\ uploadProgress final = 0
  /\ isCreateModalOpen final = isCreateModalOpen snap
  /\ isEditModalOpen final = isEditModalOpen snap
  /\ editingTemplate final = editingTemplate snap
  /\ formData final = formData snap
  /\ selectedFile final = selectedFile snap
  /\ uploadMode final = uploadMode snap
  /\ templates final = templates snap
  /\ selectedTemplateId final = selectedTemplateId snap.

(** The form as [resetForm] leaves it. *)
Definition formReset (final : ViewState) : Prop :=
  formData final = mkFormData "" "" ""
  /\ selectedFile final = None
  /\ uploadMode final = new
  /\ uploadProgress final = 0
  /\ isUploading final = false.

Definition isList (c : ApiCall) : bool :=
  match c with call_listSoftwareTemplates _ _ => true | _ => false end.

End Cover.

(* ================================================================== *)
(** * Decimal numerals *)
(* ================================================================== *)

Module Numeral.

(** The number that a run of decimal digits denotes after the digits
    that made [acc]. *)
Fixpoint value (d : Decimal.uint) (acc : Z) : Z :=
  match d with
  | Decimal.Nil => acc
  | Decimal.D0 l => value l (10 * acc + 0)
  | Decimal.D1 l => value l (10 * acc + 1)
  | Decimal.D2 l => value l (10 * acc + 2)
  | Decimal.D3 l => value l (10 * acc + 3)
  | Decimal.D4 l => value l (10 * acc + 4)
  | Decimal.D5 l => value l (10 * acc + 5)
  | Decimal.D6 l => value l (10 * acc + 6)
  | Decimal.D7 l => value l (10 * acc + 7)
  | Decimal.D8 l => value l (10 * acc + 8)
  | Decimal.D9 l => value l (10 * acc + 9)
  end.

End Numeral.

(* ================================================================== *)
(** * The stored session: src/pages/DashboardPage.tsx and the guards and
      logout handlers of every page *)
(* ================================================================== *)

Module Session.

(** [localStorage] and [sessionStorage]. *)
Inductive Store : Type := local | session.

Record Storages : Type := mkStorages
  { localStorage : string -> option string;
    sessionStorage : string -> option string }.

Definition getItem (s : Store) (st : Storages) (key : string)
  : option string :=
  match s with
  | local => localStorage st key
  | session => sessionStorage st key
  end.

Definition put (key : string) (v : option string)
    (f : string -> option string) : string -> option string :=
  fun k => if String.eqb k key then v else f k.

Definition setItem (s : Store) (key value : string) (st : Storages)
  : Storages :=
  match s with
  | local => mkStorages (put key (Some value) (localStorage st))
               (sessionStorage st)
  | session => mkStorages (localStorage st)
                 (put key (Some value) (sessionStorage st))
  end.

Definition removeItem (s : Store) (key : string) (st : Storages)
  : Storages :=
  match s with
  | local => mkStorages (put key None (localStorage st)) (sessionStorage st)
  | session => mkStorages (localStorage st)
                 (put key None (sessionStorage st))
  end.

(** [localStorage.getItem(key) || sessionStorage.getItem(key)] *)
Definition stored (st : Storages) (key : string) : option string :=
  if truthyItem (localStorage st key) then localStorage st key
  else sessionStorage st key.

(** [{ id, role }]; the id is NaN ([None]) when the stored text is not a
    number. *)
Record AdminInfo : Type := mkAdminInfo
  { id : option Z; role : string }.

Definition adminInfo (st : Storages) : option AdminInfo :=
  let adminId := stored st "sparkx_admin_id" in
  let role := stored st "sparkx_admin_role" in
  match adminId, role with
  | Some a, Some r =>
      if (JS.truthy a && JS.truthy r)%bool
      then Some (mkAdminInfo (JS.parseInt a) r)
      else None
  | _, _ => None
  end.

(** The effect that guards a page: where it navigates, if it does. *)
Definition authGuard (st : Storages) : option string :=
  let token := stored st "sparkx_admin_token" in
  if negb (truthyItem token) then Some "/login" else None.

(** [handleLogout]: the storages it leaves and where it navigates. *)
Definition handleLogout (st : Storages) : Storages * string :=
  let st := removeItem local "sparkx_admin_token" st in
  let st := removeItem local "sparkx_admin_id" st in
  let st := removeItem local "sparkx_admin_role" st in
  let st := removeItem session "sparkx_admin_token" st in
  let st := removeItem session "sparkx_admin_id" st in
  let st := removeItem session "sparkx_admin_role" st in
  (st, "/login").

Definition credentialKeys : list string :=
  ["sparkx_admin_token"; "sparkx_admin_id"; "sparkx_admin_role"].

Definition isCredential (key : string) : bool :=
  existsb (String.eqb key) credentialKeys.

(** Storages that hold nothing. *)
Definition empty : Storages :=
  mkStorages (fun _ => None) (fun _ => None).

(** The environment of the wrappers in a browser with these storages. *)
Definition browser {T} (st : Storages) (base : option string)
    (network : Request -> Exc (Response T)) : Env T :=
  {| SPARKX_API_BASE_URL := base;
     parser := Json.parse;
     localStorage_getItem := fun k => Normal (localStorage st k);
     sessionStorage_getItem := fun k => Normal (sessionStorage st k);
     fetch := network |}.

End Session.

(* ================================================================== *)
(** * src/pages/LoginPage.tsx: the submit handler *)
(* ================================================================== *)

Module LoginSubmit.

Import LoginPage.

Record LoginFormState : Type := mkLoginFormState
  { form_username : string; form_password : string; rememberMe : bool }.

Inductive MessageType : Type := error | success | info.

Record Message : Type := mkMessage
  { type : MessageType; text : string }.

(** What the handler does, in program order. *)
Inductive Effect : Type :=
| setMessage (m : option Message)
| setIsSubmitting (b : bool)
| await_adminLogin (input : LoginInput)
| storage_setItem (s : Session.Store) (key value : string)
| navigate_after (milliseconds : Z) (path : string).

(** [handleSubmit]; [adminLogin] is the answer of the wrapper. *)
Definition handleSubmit (loginForm : LoginFormState)
    (adminLogin : LoginInput -> ApiResult LoginData) : list Effect :=
  setMessage None ::
  if (negb (JS.truthy (form_username loginForm))
      || negb (JS.truthy (form_password loginForm)))%bool
  then [setMessage (Some (mkMessage error "请输入用户名和密码"))]
  else
    let input := mkLoginInput (form_username loginForm)
                   (form_password loginForm) in
    setIsSubmitting true ::
    await_adminLogin input ::
    setIsSubmitting false ::
    match adminLogin input with
    | Failure m => [setMessage (Some (mkMessage error m))]
    | Success data =>
        let s := if rememberMe loginForm then Session.local
                 else Session.session in
        [storage_setItem s "sparkx_admin_token" (token data);
         storage_setItem s "sparkx_admin_id"
           (JS.stringOfNumber (adminId data));
         storage_setItem s "sparkx_admin_role" (role data);
         setMessage (Some (mkMessage success "登录成功！"));
         navigate_after 500 "/dashboard"]
    end.

(** The storages after the writes of a list of effects. *)
Definition written (effects : list Effect) (st : Session.Storages)
  : Session.Storages :=
  fold_left
    (fun s e =>
       match e with
       | storage_setItem store key value => Session.setItem store key value s
       | _ => s
       end)
    effects st.

Definition isWrite (e : Effect) : bool :=
  match e with storage_setItem _ _ _ => true | _ => false end.

Definition isCall (e : Effect) : bool :=
  match e with await_adminLogin _ => true | _ => false end.

Definition isNavigation (e : Effect) : bool :=
  match e with navigate_after _ _ => true | _ => false end.

Definition isError (e : Effect) : bool :=
  match e with
  | setMessage (Some (mkMessage error _)) => true
  | _ => false
  end.

(** A filled form, and a backend that accepts it. *)
Definition demoForm (remember : bool) : LoginFormState :=
  mkLoginFormState "root" "secret" remember.

Definition demoData : LoginData := mkLoginData 7 "super_admin" "tok".

Definition accepting (_ : LoginInput) : ApiResult LoginData :=
  Success demoData.

Definition refusing (_ : LoginInput) : ApiResult LoginData :=
  Failure "invalid credentials".

End LoginSubmit.

(* ================================================================== *)
(** * src/pages/SoftwareTemplatesPage.tsx: choosing a file *)
(* ================================================================== *)

Module FileSelect.

Import SoftwareTemplatesPage.

(** A match of [[^/.]+$] at the start of [s]: one character or more up
    to the end, none of them a slash or a dot. *)
Definition plainTail (s : string) : bool :=
  (JS.truthy s && Cover.noChar "." s && Cover.noChar "/" s)%bool.

(** [name.replace(/\.[^/.]+$/, '')]: the leftmost place where the
    expression matches is searched from the left, and the match, which
    runs to the end, is removed. *)
Fixpoint removeExtension (name : string) : string :=
  match name with
  | EmptyString => EmptyString
  | String c rest =>
      if (Ascii.eqb c "." && plainTail rest)%bool then EmptyString
      else String c (removeExtension rest)
  end.

(** [handleFileSelect] for the first file of the input, if any.  The
    test reads the form of the render ([snap]); [setFormData] is given a
    function of the form it finds. *)
Definition handleFileSelect (snap : ViewState) (file : option File)
    (st : ViewState) : ViewState :=
  match file with
  | None => st
  | Some file =>
      let st := applySet (setSelectedFile (Some file)) st in
      if negb (JS.truthy (JS.trim (fd_name (formData snap)))) then
        let fileName := removeExtension (fileName file) in
        applySet
          (setFormData
             (mkFormData fileName (fd_description (formData st))
                (fd_archiveFileId (formData st))))
          st
      else st
  end.

End FileSelect.

(* ================================================================== *)
(** * src/pages/LlmManagementPage.tsx: opening the dialogs *)
(* ================================================================== *)

Module LlmForms.

Import LlmManagementPage.

(** What opening a dialog sets: the mode, the record being edited and
    the form. *)
Definition openCreateProvider
  : ModalMode * option LlmProvider * ProviderForm :=
  (create, None, mkProviderForm "" "" "" "" false).

Definition openEditProvider (provider : LlmProvider)
  : ModalMode * option LlmProvider * ProviderForm :=
  (edit, Some provider,
   mkProviderForm (p_name provider) (p_baseUrl provider)
     (p_description provider) "" false).

Section Models.

Variable Num : Type.
Variable parseFloat : string -> option Num.
Variable max0 : Num -> Num.
Variable strictEq : Num -> Num -> bool.
(** [String(x)] on a price. *)
Variable toString : Num -> string.

(** A price that the form shows and reads back unchanged: a number that
    is not negative and not NaN. *)
Definition faithfulPrice (x : Num) : Prop :=
  parseFloat (toString x) = Some x /\ max0 x = x /\ strictEq x x = true.

Definition openCreateModel (selectedProvider : option LlmProvider)
  : ModalMode * option (LlmModel Num) * ModelForm :=
  (create, None,
   mkModelForm
     (match selectedProvider with
      | Some p => JS.stringOfNumber (p_id p)
      | None => ""
      end)
     "" "llm" "0" "0" false false "0" "0").

Definition openEditModel (m : LlmModel Num)
  : ModalMode * option (LlmModel Num) * ModelForm :=
  (edit, Some m,
   mkModelForm (JS.stringOfNumber (m_providerId m)) (m_modelName m)
     (m_modelType m) (JS.stringOfNumber (m_maxInputTokens m))
     (JS.stringOfNumber (m_maxOutputTokens m)) (m_supportStream m)
     (m_supportJson m) (toString (m_priceInputPer1k m))
     (toString (m_priceOutputPer1k m))).

End Models.

(** The payload of an update that changes nothing. *)
Definition noProviderUpdate : ProviderUpdate :=
  mkProviderUpdate None None None None None.

Definition noModelUpdate (Num : Type) : ModelUpdate Num :=
  mkModelUpdate None None None None None None None None None.

(** The texts of a payload, as a list. *)
Definition textsOfCreate (p : ProviderCreate) : list string :=
  ([pc_name p; pc_baseUrl p]
   ++ match pc_apiKey p with Some s => [s] | None => [] end
   ++ match pc_description p with Some s => [s] | None => [] end)%list.

Definition textsOfUpdate (p : ProviderUpdate) : list string :=
  (match upd_name p with Some s => [s] | None => [] end
   ++ match upd_baseUrl p with Some s => [s] | None => [] end
   ++ match upd_apiKey p with Some s => [s] | None => [] end
   ++ match upd_description p with Some s => [s] | None => [] end)%list.

Definition trimmed (s : string) : bool := String.eqb (JS.trim s) s.

End LlmForms.

(* ================================================================== *)
(** * src/pages/AgentManagementPage.tsx: labels, dialogs and bindings *)
(* ================================================================== *)

Module AgentForms.

Import LlmManagementPage AgentManagementPage.

Definition agentTypeLabel (t : string) : string :=
  let value := JS.trim t in
  if (value =? "code")%string then "代码"
  else if (value =? "asset")%string then "资源"
  else if (value =? "design")%string then "设计"
  else if (value =? "test")%string then "测试"
  else if (value =? "build")%string then "构建"
  else if (value =? "ops")%string then "运维"
  else JS.orElse value "--".

Definition agentTypeColor (t : string) : string :=
  let value := JS.trim t in
  if (value =? "code")%string then "#3b82f6"
  else if (value =? "asset")%string then "#8b5cf6"
  else if (value =? "design")%string then "#ec4899"
  else if (value =? "test")%string then "#f59e0b"
  else if (value =? "build")%string then "#10b981"
  else if (value =? "ops")%string then "#6366f1"
  else "#6b7280".

Definition knownTypes : list string :=
  ["code"; "asset"; "design"; "test"; "build"; "ops"].

Definition openCreateAgent : ModalMode * option Agent * AgentForm :=
  (create, None, mkAgentForm "" "" "" "code").

Definition openEditAgent (agent : Agent)
  : ModalMode * option Agent * AgentForm :=
  (edit, Some agent,
   mkAgentForm (a_name agent) (JS.orElse (a_description agent) "")
     (JS.orElse (a_instruction agent) "")
     (JS.orElse (a_agentType agent) "code")).

Definition noAgentUpdate : AgentUpdate :=
  mkAgentUpdate None None None None.

(** The texts of a payload, as a list. *)
Definition agentTextsOfCreate (p : AgentCreate) : list string :=
  ([ac_name p; ac_agentType p]
   ++ match ac_description p with Some s => [s] | None => [] end
   ++ match ac_instruction p with Some s => [s] | None => [] end)%list.

Definition agentTextsOfUpdate (p : AgentUpdate) : list string :=
  (match au_name p with Some s => [s] | None => [] end
   ++ match au_description p with Some s => [s] | None => [] end
   ++ match au_instruction p with Some s => [s] | None => [] end
   ++ match au_agentType p with Some s => [s] | None => [] end)%list.

Record AgentBinding : Type := mkAgentBinding
  { b_id : Z;
    b_agentId : Z;
    b_llmModelId : Z;
    b_priority : Z;
    b_isActive : bool;
    b_createdAt : string;
    b_providerId : Z;
    b_providerName : string;
    b_modelName : string;
    b_modelType : string }.

Record BindingForm : Type := mkBindingForm
  { bf_llmModelId : string; bf_priority : string; bf_isActive : bool }.

(** The form that [loadBindings] sets after a listing that succeeded. *)
Definition bindingFormAfterLoad (next : list AgentBinding) : BindingForm :=
  match next with
  | first :: _ =>
      mkBindingForm (JS.stringOfNumber (b_llmModelId first))
        (JS.stringOfNumber (b_priority first)) (b_isActive first)
  | [] => mkBindingForm "" "0" true
  end.

Record BindingCreate : Type := mkBindingCreate
  { bc_llmModelId : Z;
    bc_priority : option Z;
    bc_isActive : option bool }.

(** [submitSaveBinding] up to its call of [createAgentBinding]: the
    request is [Create (agent id, payload)]. *)
Definition submitSaveBinding (selectedAgent : option Agent)
    (bindingCreateForm : BindingForm)
  : Submit (Z * BindingCreate) Empty_set :=
  match selectedAgent with
  | None => Ignored
  | Some selectedAgent =>
      let llmModelId := JS.parseInt (bf_llmModelId bindingCreateForm) in
      match llmModelId with
      | None => Rejected "请选择 LLM Model"
      | Some llmModelId =>
          if llmModelId <=? 0 then Rejected "请选择 LLM Model"
          else
            let priority := JS.parseInt (bf_priority bindingCreateForm) in
            Create
              (a_id selectedAgent,
               {| bc_llmModelId := llmModelId;
                  bc_priority := priority;
                  bc_isActive := Some (bf_isActive bindingCreateForm) |})
      end
  end.

End AgentForms.

(* ================================================================== *)
(** * Properties *)
(* ================================================================== *)

Import SoftwareTemplatesPage.

(** ** File categories *)

Lemma includes_In (l : list string) (x : string) :
  JS.includes l x = true <-> In x l.
Proof.
  unfold JS.includes. rewrite existsb_exists. split.
  - intros [y [Hy He]]. apply String.eqb_eq in He. now subst.
  - intros H. exists x. split; [assumption | apply String.eqb_refl].
Qed.

Lemma includes_not_In (l : list string) (x : string) :
  JS.includes l x = false <-> ~ In x l.
Proof.
  rewrite <- includes_In. destruct (JS.includes l x); split; intros H;
    try discriminate; try reflexivity; try congruence.
Qed.

Lemma getFileCategory_in_categories (ext : string) :
  In (getFileCategory ext) Spec.categories.
Proof.
  unfold getFileCategory, Spec.categories.
  repeat match goal with
         | |- context [if ?b then _ else _] => destruct b
         end; simpl; tauto.
Qed.

(** C8. For every extension, [getFileCategory] answers one of the six
    categories image, video, audio, text, archive, binary; an extension of
    one of the five fixed lists gets the category of its list, and the
    answer is binary exactly when the extension is in none of the five
    lists. *)
Theorem getFileCategory_lookup_table (ext : string) :
  In (getFileCategory ext) Spec.categories
  /\ (In ext imageExts -> getFileCategory ext = "image")
  /\ (In ext videoExts -> getFileCategory ext = "video")
  /\ (In ext audioExts -> getFileCategory ext = "audio")
  /\ (In ext textExts -> getFileCategory ext = "text")
  /\ (In ext archiveExts -> getFileCategory ext = "archive")
  /\ (getFileCategory ext = "binary" <->
      ~ In ext imageExts /\ ~ In ext videoExts /\ ~ In ext audioExts
      /\ ~ In ext textExts /\ ~ In ext archiveExts).
Proof.
  repeat split.
  - apply getFileCategory_in_categories.
  - intros H. repeat (destruct H as [<- | H]; [reflexivity |]). destruct H.
  - intros H. repeat (destruct H as [<- | H]; [reflexivity |]). destruct H.
  - intros H. repeat (destruct H as [<- | H]; [reflexivity |]). destruct H.
  - intros H. repeat (destruct H as [<- | H]; [reflexivity |]). destruct H.
  - intros H. repeat (destruct H as [<- | H]; [reflexivity |]). destruct H.
  - apply includes_not_In. unfold getFileCategory in H.
    destruct (JS.includes imageExts ext); [discriminate | reflexivity].
  - apply includes_not_In. unfold getFileCategory in H.
    destruct (JS.includes imageExts ext); [discriminate |].
    destruct (JS.includes videoExts ext); [discriminate | reflexivity].
  - apply includes_not_In. unfold getFileCategory in H.
    destruct (JS.includes imageExts ext); [discriminate |].
    destruct (JS.includes videoExts ext); [discriminate |].
    destruct (JS.includes audioExts ext); [discriminate | reflexivity].
  - apply includes_not_In. unfold getFileCategory in H.
    destruct (JS.includes imageExts ext); [discriminate |].
    destruct (JS.includes videoExts ext); [discriminate |].
    destruct (JS.includes audioExts ext); [discriminate |].
    destruct (JS.includes textExts ext); [discriminate | reflexivity].
  - apply includes_not_In. unfold getFileCategory in H.
    destruct (JS.includes imageExts ext); [discriminate |].
    destruct (JS.includes videoExts ext); [discriminate |].
    destruct (JS.includes audioExts ext); [discriminate |].
    destruct (JS.includes textExts ext); [discriminate |].
    destruct (JS.includes archiveExts ext); [discriminate | reflexivity].
  - intros (H1 & H2 & H3 & H4 & H5).
    apply includes_not_In in H1, H2, H3, H4, H5.
    unfold getFileCategory. now rewrite H1, H2, H3, H4, H5.
Qed.

Lemma getFileCategory_lookup_table_witness :
  getFileCategory "zip" = "archive" /\ getFileCategory "exe" = "binary".
Proof.
  split.
  - apply (getFileCategory_lookup_table "zip"). simpl. tauto.
  - apply (getFileCategory_lookup_table "exe").
    repeat split; intros H; simpl in H;
      repeat (destruct H as [H | H]; [discriminate H |]); exact H.
Defined.

(** ** Content hasher *)

Lemma byte_two_hex_digits (b : byte) :
  JS.padStart 2 "0" (JS.toString16 (Byte.to_N b))
  = String (JS.hexDigit (Byte.to_N b / 16))
      (String (JS.hexDigit (Byte.to_N b mod 16)) EmptyString).
Proof. destruct b; reflexivity. Qed.

Lemma byte_hex_digits_lower (b : byte) :
  Spec.isLowerHex (JS.hexDigit (Byte.to_N b / 16)) = true
  /\ Spec.isLowerHex (JS.hexDigit (Byte.to_N b mod 16)) = true.
Proof. destruct b; split; reflexivity. Qed.

Lemma hash_encoding_is_hexLower (bs : list byte) :
  JS.join (map (fun b => JS.padStart 2 "0" (JS.toString16 b))
             (map Byte.to_N bs))
  = Spec.hexLower bs.
Proof.
  unfold Spec.hexLower. rewrite map_map. f_equal.
  apply map_ext. intros b. apply byte_two_hex_digits.
Qed.

Lemma hexLower_length (bs : list byte) :
  String.length (Spec.hexLower bs) = (2 * List.length bs)%nat.
Proof.
  unfold Spec.hexLower.
  induction bs as [| b bs IH]; simpl in *; [reflexivity | lia].
Qed.

Lemma hexLower_chars (bs : list byte) :
  Spec.allChars Spec.isLowerHex (Spec.hexLower bs) = true.
Proof.
  unfold Spec.hexLower.
  induction bs as [| b bs IH]; simpl; [reflexivity |].
  destruct (byte_hex_digits_lower b) as [H1 H2].
  now rewrite H1, H2, IH.
Qed.

Lemma bigEndian_length (n : nat) (x : Z) :
  List.length (SHA256.bigEndian n x) = n.
Proof.
  revert x. induction n as [| n IH]; intros x; simpl; [reflexivity |].
  rewrite length_app, IH. simpl. lia.
Qed.

Lemma digest_length (msg : list byte) :
  List.length (SHA256.digest msg) = 32%nat.
Proof.
  unfold SHA256.digest. repeat rewrite length_app.
  repeat rewrite bigEndian_length. reflexivity.
Qed.

(** C7. The content hasher is deterministic: two files with the same
    bytes get the same digest, and that digest is the SHA-256 of the bytes
    written as 64 lowercase hexadecimal digits. *)
Theorem calculateFileHash_deterministic
    (file1 file2 : File) (content : list byte) :
  arrayBuffer file1 = Normal content ->
  arrayBuffer file2 = Normal content ->
  calculateFileHash file1 = calculateFileHash file2
  /\ calculateFileHash file1
     = Normal (Spec.hexLower (SHA256.digest content))
  /\ String.length (Spec.hexLower (SHA256.digest content)) = 64%nat
  /\ Spec.allChars Spec.isLowerHex (Spec.hexLower (SHA256.digest content))
     = true.
Proof.
  intros H1 H2. unfold calculateFileHash. rewrite H1, H2.
  cbn [Platform.bind]. rewrite hash_encoding_is_hexLower.
  split; [reflexivity |]. split; [reflexivity |]. split.
  - rewrite hexLower_length, digest_length. reflexivity.
  - apply hexLower_chars.
Qed.

Lemma calculateFileHash_deterministic_witness :
  calculateFileHash
    (mkFile "a.txt" "text/plain" 3 (Normal (list_byte_of_string "abc")))
  = calculateFileHash
      (mkFile "b.bin" "" 3 (Normal (list_byte_of_string "abc")))
  /\ calculateFileHash
       (mkFile "a.txt" "text/plain" 3 (Normal (list_byte_of_string "abc")))
     = Normal
         "ba7816bf8f01cfea414140de5dae2223b00361a396177a9cb410ff61f20015ad".
Proof.
  pose proof
    (calculateFileHash_deterministic
       (mkFile "a.txt" "text/plain" 3 (Normal (list_byte_of_string "abc")))
       (mkFile "b.bin" "" 3 (Normal (list_byte_of_string "abc")))
       (content := list_byte_of_string "abc") eq_refl eq_refl)
    as (Hsame & Hsha & _).
  split; [exact Hsame |].
  rewrite Hsha. vm_compute. reflexivity.
Defined.

(** The digests of the FIPS 180-4 sample messages. *)
Example sha256_empty :
  Spec.hexLower (SHA256.digest [])
  = "e3b0c44298fc1c149afbf4c8996fb92427ae41e4649b934ca495991b7852b855".
Proof. vm_compute. reflexivity. Qed.

Example sha256_two_blocks :
  Spec.hexLower
    (SHA256.digest
       (list_byte_of_string
          "abcdbcdecdefdefgefghfghighijhijkijkljklmklmnlmnomnopnopq"))
  = "248d6a61d20638b8e5c026930c3e6039a33ce45964ff2167f6ecedd419db06c1".
Proof. vm_compute. reflexivity. Qed.

(** An unreadable file makes the hasher reject. *)
Lemma calculateFileHash_unreadable (file : File) (t : Thrown) :
  arrayBuffer file = Throws t -> calculateFileHash file = Throws t.
Proof. intros H. unfold calculateFileHash. now rewrite H. Qed.

(** ** Error decoding *)

Lemma truthy_orElse (s d : string) :
  JS.orElse s d = if JS.truthy s then s else d.
Proof. reflexivity. Qed.

Lemma nonBlankString_truthy (v : option Json.json) (m : string) :
  nonBlankString v = Some m -> JS.truthy m = true.
Proof.
  destruct v as [[| | | s | |] |]; simpl; try discriminate.
  destruct (JS.truthy (JS.trim s)) eqn:E; [| discriminate].
  intros [= <-]. destruct s; [discriminate E | reflexivity].
Qed.

(** X2. The decoder of the login, software-template and agent pages is
    the three-tier fallback, for any JSON parser that rejects the empty
    text. *)
Theorem parseApiErrorMessage_three_tier
    {T} (env : Env T) (response : Response T) (body : string) :
  parser env "" = None ->
  Platform.text response = Normal body ->
  LoginPage.parseApiErrorMessage env response
  = Normal (Spec.errorText (parser env) body)
  /\ SoftwareTemplatesPage.parseApiErrorMessage env response
     = Normal (Spec.errorText (parser env) body)
  /\ AgentManagementPage.parseApiErrorMessage env response
     = Normal (Spec.errorText (parser env) body).
Proof.
  intros He Hb.
  unfold LoginPage.parseApiErrorMessage,
    SoftwareTemplatesPage.parseApiErrorMessage,
    AgentManagementPage.parseApiErrorMessage, Spec.errorText, Spec.field,
    JSON_parse.
  rewrite Hb. cbn [Platform.bind].
  destruct body as [| c body']; [rewrite He; repeat split |].
  set (body := String c body') in *.
  cbn [JS.truthy negb].
  destruct (parser env body) as [[| b | m e | s | l | l] |];
    cbn [Platform.bind tryCatch getProp nonBlankString];
    try (repeat split; reflexivity).
  destruct (nonBlankString (Json.lookup "message" l)) as [m |];
    cbn [Platform.bind tryCatch]; [repeat split; reflexivity |].
  destruct (nonBlankString (Json.lookup "msg" l)) as [m |];
    cbn [Platform.bind tryCatch]; repeat split; reflexivity.
Qed.

(** The decoder of the LLM page tries [msg] before [message]. *)
Theorem llm_parseApiErrorMessage_msg_first
    {T} (env : Env T) (response : Response T) (body : string) :
  parser env "" = None ->
  Platform.text response = Normal body ->
  LlmManagementPage.parseApiErrorMessage env response
  = Normal (Spec.errorTextMsgFirst (parser env) body).
Proof.
  intros He Hb.
  unfold LlmManagementPage.parseApiErrorMessage, Spec.errorTextMsgFirst,
    Spec.field, JSON_parse.
  rewrite Hb. cbn [Platform.bind].
  destruct body as [| c body']; [rewrite He; reflexivity |].
  set (body := String c body') in *.
  cbn [JS.truthy negb].
  destruct (parser env body) as [[| b | m e | s | l | l] |];
    cbn [Platform.bind tryCatch getProp nonBlankString];
    try reflexivity.
  destruct (nonBlankString (Json.lookup "msg" l)) as [m |] eqn:Emsg;
    cbn [Platform.bind tryCatch].
  - now rewrite (nonBlankString_truthy _ Emsg).
  - destruct (nonBlankString (Json.lookup "message" l)) as [m |] eqn:Em;
      cbn [Platform.bind tryCatch]; [| reflexivity].
    now rewrite (nonBlankString_truthy _ Em).
Qed.

(** The two sample responses of the specification, in the four pages. *)
Theorem sample_error_messages :
  let bad := Spec.errorResponse 400 "Bad Request" Spec.body_name_required in
  let broken := Spec.errorResponse 500 "Internal Server Error" "" in
  (LoginPage.parseApiErrorMessage (Spec.answering bad) bad
   = Normal "name required"
   /\ SoftwareTemplatesPage.parseApiErrorMessage (Spec.answering bad) bad
      = Normal "name required"
   /\ LlmManagementPage.parseApiErrorMessage (Spec.answering bad) bad
      = Normal "name required"
   /\ AgentManagementPage.parseApiErrorMessage (Spec.answering bad) bad
      = Normal "name required")
  /\ (LoginPage.parseApiErrorMessage (Spec.answering broken) broken
      = Normal "Request failed"
      /\ SoftwareTemplatesPage.parseApiErrorMessage (Spec.answering broken)
           broken
         = Normal "Request failed"
      /\ LlmManagementPage.parseApiErrorMessage (Spec.answering broken) broken
         = Normal "Request failed"
      /\ AgentManagementPage.parseApiErrorMessage (Spec.answering broken)
           broken
         = Normal "Request failed").
Proof. vm_compute. repeat split. Qed.

(** C3. On the body [{"message":"name required","msg":"bad request"}] of
    a 400 response the LLM page shows "bad request", where the three-tier
    fallback (and the login, software-template and agent pages) give
    "name required": in that page [msg] overrides [message]. *)
Theorem llm_page_msg_overrides_message :
  let r := Spec.errorResponse 400 "Bad Request" Spec.body_message_and_msg in
  Spec.errorText Json.parse Spec.body_message_and_msg = "name required"
  /\ LlmManagementPage.parseApiErrorMessage (Spec.answering r) r
     = Normal "bad request"
  /\ LoginPage.parseApiErrorMessage (Spec.answering r) r
     = Normal "name required"
  /\ SoftwareTemplatesPage.parseApiErrorMessage (Spec.answering r) r
     = Normal "name required"
  /\ AgentManagementPage.parseApiErrorMessage (Spec.answering r) r
     = Normal "name required".
Proof. vm_compute. repeat split. Qed.

(** ** The API wrappers *)

Lemma tryCatch_returns {A} (body : Exc A) (handler : Thrown -> A) :
  exists r, tryCatch body (fun error => Normal (handler error)) = Normal r.
Proof. destruct body as [a | t]; simpl; eauto. Qed.

Lemma getAuthToken_readable {T} (env : Env T) :
  Spec.storageReadable env -> exists token, getAuthToken env = Normal token.
Proof.
  intros H. unfold getAuthToken.
  destruct (H "sparkx_admin_token") as [[l Hl] [s Hs]].
  rewrite Hl. cbn [Platform.bind].
  destruct (truthyItem l); eauto.
Qed.

Ltac unfold_wrappers :=
  cbn [Spec.Data Spec.Input] in *;
  unfold Spec.invoke, LoginPage.adminLogin, preUploadFile, uploadFileToOSS,
    listFileVersions, getDownloadUrl, listSoftwareTemplates,
    createSoftwareTemplate, updateSoftwareTemplate, requestFailed;
  cbn [Spec.Data Spec.Input Spec.fallback] in *.

Ltac with_token env Hs :=
  try (let token := fresh "token" in
       let Htoken := fresh "Htoken" in
       destruct (getAuthToken_readable (env := env) Hs) as [token Htoken];
       rewrite Htoken).

(** C9. Each of the eight API wrappers always returns a result and never
    throws.  Whatever is thrown inside it comes back as
    [{ ok: false, message }]: the rejection of [fetch] (transport
    failure), a failing read of the stored token from localStorage or,
    when localStorage holds none, from sessionStorage, a failing read of
    the error body or of the payload.  The message is the message of the
    thrown [Error], and "Request failed" ("Upload failed" for the PUT)
    when the thrown value is not an [Error]. *)
Theorem api_wrappers_never_throw
    (w : Spec.Wrapper) (env : Env (Spec.Data w)) (input : Spec.Input w) :
  (exists r, Spec.invoke w env input = Normal r)
  /\ (forall t,
        Spec.storageReadable env ->
        (forall request, fetch env request = Throws t) ->
        Spec.invoke w env input
        = Normal (Failure (errorMessageOr (Spec.fallback w) t)))
  /\ (forall t,
        Spec.readsToken w = true ->
        localStorage_getItem env "sparkx_admin_token" = Throws t ->
        Spec.invoke w env input
        = Normal (Failure (errorMessageOr (Spec.fallback w) t)))
  /\ (forall t response,
        Spec.decodesError w = true ->
        Spec.storageReadable env ->
        (forall request, fetch env request = Normal response) ->
        ok response = false ->
        Platform.text response = Throws t ->
        Spec.invoke w env input
        = Normal (Failure (errorMessageOr (Spec.fallback w) t)))
  /\ (forall t response,
        Spec.decodesData w = true ->
        Spec.storageReadable env ->
        (forall request, fetch env request = Normal response) ->
        ok response = true ->
        json response = Throws t ->
        Spec.invoke w env input
        = Normal (Failure (errorMessageOr (Spec.fallback w) t)))
  /\ (forall t l,
        Spec.readsToken w = true ->
        localStorage_getItem env "sparkx_admin_token" = Normal l ->
        truthyItem l = false ->
        sessionStorage_getItem env "sparkx_admin_token" = Throws t ->
        Spec.invoke w env input
        = Normal (Failure (errorMessageOr (Spec.fallback w) t))).
Proof.
  split; [| split; [| split; [| split; [| split]]]].
  - destruct w; unfold_wrappers; apply tryCatch_returns.
  - intros t Hs Hf.
    destruct w; unfold_wrappers; with_token env Hs;
      cbn [Platform.bind]; rewrite Hf; reflexivity.
  - intros t Hr Hl.
    destruct w; try discriminate Hr; unfold_wrappers; unfold getAuthToken;
      rewrite Hl; reflexivity.
  - intros t response Hd Hs Hf Hok Ht.
    destruct w; try discriminate Hd; unfold_wrappers; with_token env Hs;
      cbn [Platform.bind]; rewrite Hf; cbn [Platform.bind]; rewrite Hok;
      cbn [negb];
      unfold LoginPage.parseApiErrorMessage, parseApiErrorMessage;
      rewrite Ht; reflexivity.
  - intros t response Hd Hs Hf Hok Hj.
    destruct w; try discriminate Hd; unfold_wrappers; with_token env Hs;
      cbn [Platform.bind]; rewrite Hf; cbn [Platform.bind]; rewrite Hok;
      cbn [negb]; rewrite Hj; reflexivity.
  - intros t l Hr Hl Hfalsy Hsession.
    destruct w; try discriminate Hr; unfold_wrappers; unfold getAuthToken;
      rewrite Hl; cbn [Platform.bind]; rewrite Hfalsy, Hsession;
      reflexivity.
Qed.

Lemma offline_storageReadable (T : Type) :
  Spec.storageReadable (Spec.offline T).
Proof. intros k. split; eexists; reflexivity. Qed.

Lemma api_wrappers_never_throw_witness :
  preUploadFile (Spec.offline PreUploadResp)
    (mkPreUploadInput 0 "a.zip" "archive" "zip" 3 "ba78" None)
  = Normal (Failure "Failed to fetch")
  /\ uploadFileToOSS
       {| SPARKX_API_BASE_URL := None;
          parser := Json.parse;
          localStorage_getItem := fun _ => Normal None;
          sessionStorage_getItem := fun _ => Normal None;
          fetch := fun _ => @Throws (Response unit) OtherValue |}
       "https://oss.example/slot"
       (mkFile "a.zip" "" 3 (Normal (list_byte_of_string "abc")))
       "application/zip"
     = Normal (Failure "Upload failed")
  /\ listSoftwareTemplates
       {| SPARKX_API_BASE_URL := None;
          parser := Json.parse;
          localStorage_getItem := fun _ => Normal None;
          sessionStorage_getItem :=
            fun _ => Throws (ErrorObject "The operation is insecure.");
          fetch :=
            fun _ =>
              Normal
                (mkResponse 200 "OK" (Normal "")
                   (Normal (mkListing [] (mkPageInfo 1 10 0)))) |}
       1 10
     = Normal (Failure "The operation is insecure.").
Proof.
  split; [| split].
  - apply (proj1 (proj2 (api_wrappers_never_throw Spec.preUploadFile_
             (Spec.offline PreUploadResp)
             (mkPreUploadInput 0 "a.zip" "archive" "zip" 3 "ba78" None)))
             (ErrorObject "Failed to fetch")).
    + apply offline_storageReadable.
    + intros request. reflexivity.
  - apply (proj1 (proj2 (api_wrappers_never_throw Spec.uploadFileToOSS_
             {| SPARKX_API_BASE_URL := None;
                parser := Json.parse;
                localStorage_getItem := fun _ => Normal None;
                sessionStorage_getItem := fun _ => Normal None;
                fetch := fun _ => @Throws (Response unit) OtherValue |}
             ("https://oss.example/slot",
              mkFile "a.zip" "" 3 (Normal (list_byte_of_string "abc")),
              "application/zip"))) OtherValue).
    + intros k. split; eexists; reflexivity.
    + intros request. reflexivity.
  - apply (proj2 (proj2 (proj2 (proj2 (proj2
             (api_wrappers_never_throw Spec.listSoftwareTemplates_
                {| SPARKX_API_BASE_URL := None;
                   parser := Json.parse;
                   localStorage_getItem := fun _ => Normal None;
                   sessionStorage_getItem :=
                     fun _ =>
                       Throws (ErrorObject "The operation is insecure.");
                   fetch :=
                     fun _ =>
                       Normal
                         (mkResponse 200 "OK" (Normal "")
                            (Normal (mkListing [] (mkPageInfo 1 10 0)))) |}
                (1, 10))))))
             (ErrorObject "The operation is insecure.") None);
      reflexivity.
Defined.

(** The blob transfer fails in exactly two ways: a status outside
    200..299, reported with the status and its text, and a rejected
    [fetch]. *)
Lemma uploadFileToOSS_outcomes {T} (env : Env T)
    (uploadUrl : string) (file : File) (contentType : string) :
  let request :=
    {| method := "PUT";
       url := uploadUrl;
       headers := [("Content-Type", contentType)];
       body := Some (FileBody file) |} in
  (forall response,
      fetch env request = Normal response ->
      uploadFileToOSS env uploadUrl file contentType
      = Normal
          (if ok response then Success tt
           else Failure ("上传失败: " ++ JS.stringOfNumber (status response)
                         ++ " " ++ statusText response)))
  /\ (forall t,
         fetch env request = Throws t ->
         uploadFileToOSS env uploadUrl file contentType
         = Normal (Failure (errorMessageOr "Upload failed" t))).
Proof.
  cbv zeta. unfold uploadFileToOSS. split.
  - intros response Hf. rewrite Hf. cbn [Platform.bind].
    destruct (ok response); reflexivity.
  - intros t Hf. rewrite Hf. reflexivity.
Qed.

(** ** The upload-and-register workflow *)

Lemma run_pbind {A B} (w : World) (p : Prog A) (f : A -> Prog B)
    (st : ViewState) :
  run w (pbind p f) st
  = let o1 := run w p st in
    let o2 := run w (f (result o1)) (final o1) in
    mkOutcome (result o2) (final o2) (calls o1 ++ calls o2).
Proof.
  revert st. induction p as [a | u k IH | c k IH]; intros st.
  - cbn. now destruct (run w (f a) st).
  - cbn. apply IH.
  - cbn. rewrite IH. reflexivity.
Qed.

(** Reloading the list only reads. *)
Lemma loadTemplates_only_reads (w : World) (snap st : ViewState) :
  forallb Spec.isRead (calls (run w (loadTemplates snap) st)) = true.
Proof.
  unfold loadTemplates. cbn.
  destruct (w (call_listSoftwareTemplates _ _)) as [data | m]; cbn;
    [| reflexivity].
  destruct (nextTemplate (selectedTemplateId snap) (list_ data)) as [t |];
    cbn; [| reflexivity].
  destruct (JS.truthyNum (archiveFileId t)); cbn; [| reflexivity].
  destruct (w (call_listFileVersions _ _ _)); reflexivity.
Qed.

Lemma In_loadTemplates_isRead (w : World) (snap st : ViewState)
    (c : ApiCall) :
  In c (calls (run w (loadTemplates snap) st)) -> Spec.isRead c = true.
Proof.
  intros H. pose proof (loadTemplates_only_reads w snap st) as Hall.
  rewrite forallb_forall in Hall. now apply Hall.
Qed.

(** Symbolic execution of a handler: every test on the state and every
    answer of the world is split; the reload at the end stays folded. *)
Ltac exec :=
  repeat first
    [ progress cbn -[loadTemplates] in *
    | match goal with
      | |- context [match ?x with _ => _ end] => destruct x eqn:?
      | H : context [match ?x with _ => _ end] |- _ => destruct x eqn:?
      end ].

(** Membership in a trace that has been computed. *)
Ltac membership :=
  repeat match goal with
    | H : False |- _ => destruct H
    | H : _ \/ _ |- _ => destruct H as [H | H]
    | H : In _ (_ :: _) |- _ => destruct H as [H | H]
    | H : In _ [] |- _ => destruct H
    | H : In ?c (calls (run _ (loadTemplates _) _)) |- _ =>
        apply In_loadTemplates_isRead in H; discriminate H
    | H : call_preUploadFile _ = call_preUploadFile _ |- _ =>
        injection H as H; subst
    | H : call_uploadFileToOSS _ _ _ = call_uploadFileToOSS _ _ _ |- _ =>
        injection H as ? ? ?; subst
    | H : call_createSoftwareTemplate _ = call_createSoftwareTemplate _
      |- _ => injection H as H; subst
    | H : call_updateSoftwareTemplate _ _ = call_updateSoftwareTemplate _ _
      |- _ => injection H as ? ?; subst
    | H : _ = _ |- _ => discriminate H
    end.

Ltac run_handler h snap :=
  unfold Spec.attempt, Spec.handler, handleUploadAndCreate,
    handleUploadAndUpdate;
  destruct snap as [ts pi ld msg sel co eo et fd sf up iu um fi vs vp vl];
  destruct h; exec.

(** C5. When the negotiation of an upload attempt fails, the attempt
    makes no other call (no PUT, no create or update), and it ends in the
    failed state: the error banner carries the message of the negotiator
    and the upload flag and the progress are reset. *)
Theorem negotiation_failure_aborts
    (h : Spec.Handler) (w : World) (snap : ViewState)
    (input : PreUploadInput) (m : string) :
  In (call_preUploadFile input) (calls (Spec.attempt h w snap)) ->
  w (call_preUploadFile input) = Failure m ->
  calls (Spec.attempt h w snap) = [call_preUploadFile input]
  /\ existsb Spec.isTransfer (calls (Spec.attempt h w snap)) = false
  /\ existsb Spec.isRegistrar (calls (Spec.attempt h w snap)) = false
  /\ message (final (Spec.attempt h w snap))
     = errorMessage ("预上传失败: " ++ m)
  /\ isUploading (final (Spec.attempt h w snap)) = false
  /\ uploadProgress (final (Spec.attempt h w snap)) = 0.
Proof.
  run_handler h snap; intros Hin Hw; membership;
    try congruence;
    match goal with
    | H1 : ?f ?c = Failure ?m1, H2 : ?f ?c = Failure ?m2 |- _ =>
        rewrite H1 in H2; injection H2 as <-
    end;
    repeat split; reflexivity.
Qed.

(** What the negotiator is asked: the unscoped collection 0, and the
    category that the lookup table gives for the extension. *)
Lemma negotiator_gets_category
    (h : Spec.Handler) (w : World) (snap : ViewState)
    (input : PreUploadInput) :
  In (call_preUploadFile input) (calls (Spec.attempt h w snap)) ->
  pu_projectId input = 0
  /\ pu_fileCategory input = getFileCategory (pu_fileFormat input)
  /\ In (pu_fileCategory input) Spec.categories.
Proof.
  run_handler h snap; intros Hin; membership;
    (split; [reflexivity |]); (split; [reflexivity |]);
    apply getFileCategory_in_categories.
Qed.

(** Two answers of the world to the same call are the same answer. *)
Ltac same_answer :=
  repeat match goal with
    | H1 : ?f ?c = ?r1, H2 : ?f ?c = ?r2 |- _ =>
        rewrite H1 in H2;
        first [ discriminate H2
              | injection H2 as <-
              | injection H2 as -> ]
    end.

(** C6. When the PUT of an upload attempt fails, the attempt makes no
    create or update call: its calls are the negotiation and the PUT, and
    it ends in the failed state with the message of the transfer. *)
Theorem transfer_failure_skips_registration
    (h : Spec.Handler) (w : World) (snap : ViewState)
    (url : string) (file : File) (ct : string) (m : string) :
  In (call_uploadFileToOSS url file ct) (calls (Spec.attempt h w snap)) ->
  w (call_uploadFileToOSS url file ct) = Failure m ->
  existsb Spec.isRegistrar (calls (Spec.attempt h w snap)) = false
  /\ (exists input,
        calls (Spec.attempt h w snap)
        = [call_preUploadFile input; call_uploadFileToOSS url file ct])
  /\ message (final (Spec.attempt h w snap))
     = errorMessage ("上传失败: " ++ m)
  /\ isUploading (final (Spec.attempt h w snap)) = false
  /\ uploadProgress (final (Spec.attempt h w snap)) = 0.
Proof.
  run_handler h snap; intros Hin Hw; membership; same_answer;
    (split; [reflexivity |]);
    (split; [eexists; reflexivity |]);
    repeat split; reflexivity.
Qed.

(** The request of the create and of the update wrapper carries, as
    [archiveFileId], the one of the input it was called with, and none
    when the input has none. *)
Lemma registrar_transmits (c : ApiCall) (input : TemplateInput) :
  Spec.registrarInput c = Some input ->
  Spec.registrarTransmits c
    (fun request =>
       Spec.bodyArchiveFileId request
       = option_map Json.num (in_archiveFileId input)).
Proof.
  destruct c; cbn [Spec.registrarInput Spec.registrarTransmits];
    try discriminate; intros [= ->]; intros env Hs;
    unfold_wrappers; with_token env Hs; cbn [Platform.bind];
    match goal with
    | |- context [fetch env ?r] => exists r
    end;
    (split; [| split]).
  - destruct input as [[n |] [d |] [a |]]; reflexivity.
  - intros t Hf. rewrite Hf. reflexivity.
  - intros response data Hf Hok Hj. rewrite Hf. cbn [Platform.bind].
    rewrite Hok. cbn [negb]. rewrite (Hj eq_refl). reflexivity.
  - destruct input as [[n |] [d |] [a |]]; reflexivity.
  - intros t Hf. rewrite Hf. reflexivity.
  - intros response data Hf Hok _. rewrite Hf. cbn [Platform.bind].
    rewrite Hok. cbn [negb]. destruct data. reflexivity.
Qed.

(** A reload whose reads succeed leaves the banner as it is. *)
Lemma loadTemplates_quiet (w : World) (snap st : ViewState) :
  Spec.readsSucceed w ->
  message (final (run w (loadTemplates snap) st)) = message st.
Proof.
  intros [Hl Hv]. unfold loadTemplates.
  destruct st as [ts pi ld msg sel co eo et fd sf up iu um fi vs vp vl].
  cbn.
  destruct (Hl (page (pageInfo snap)) (pageSize (pageInfo snap)))
    as [listed El].
  rewrite El. cbn.
  destruct (nextTemplate (selectedTemplateId snap) (list_ listed)) as [t |];
    cbn; [| reflexivity].
  destruct (JS.truthyNum (archiveFileId t)); cbn; [| reflexivity].
  destruct (Hv (archiveFileId t) 1 (pageSize (versionsPageInfo snap)))
    as [versioned Ev].
  rewrite Ev. reflexivity.
Qed.

(** The upload of a handler whose file is read, negotiated and
    transferred: the run of the handler up to its registrar. *)
Ltac upload_succeeds Hhash Hneg Hput :=
  cbn -[loadTemplates calculateFileHash];
  rewrite Hhash;
  cbn -[loadTemplates calculateFileHash];
  match goal with
  | |- context [?w (call_preUploadFile ?i)] =>
      match type of Hneg with
      | w (call_preUploadFile ?j) = _ => change i with j
      end
  end;
  rewrite Hneg;
  cbn -[loadTemplates calculateFileHash];
  rewrite Hput;
  cbn -[loadTemplates calculateFileHash].

(** The request of the registrar that the run has reached. *)
Ltac registrar_request :=
  match goal with
  | |- Spec.registrarTransmits (call_createSoftwareTemplate ?i) _ =>
      exact (@registrar_transmits (call_createSoftwareTemplate i) i eq_refl)
  | |- Spec.registrarTransmits (call_updateSoftwareTemplate ?n ?i) _ =>
      exact (@registrar_transmits (call_updateSoftwareTemplate n i) i
               eq_refl)
  end.

(** The banner once the registrar has answered: its own error, or the
    success banner, which a reload whose reads succeed leaves in place. *)
Ltac registrar_banner :=
  split;
  [ cbn -[loadTemplates];
    match goal with
    | |- context [match ?w ?c with _ => _ end] => destruct (w c) eqn:?
    end;
    cbn -[loadTemplates]; intros Hok Hreads;
    [rewrite (@loadTemplates_quiet _ _ _ Hreads); reflexivity
    | discriminate Hok]
  | cbn -[loadTemplates]; intros m;
    match goal with
    | |- context [match ?w ?c with _ => _ end] => destruct (w c) eqn:?
    end;
    cbn -[loadTemplates]; intros Hm;
    [discriminate Hm | injection Hm as <-; reflexivity] ].

(** C4. In an upload attempt whose negotiation succeeds with fileId 42
    (whatever the version number) and whose PUT succeeds, the registrar of
    the handler (create or update) is called with archiveFileId = 42 in
    its request body.  Such an attempt is one of a handler that can
    submit (a create with a name, an update of a template being edited),
    in mode 'new', with a selected file that can be read; the world
    answers the negotiation for this file with fileId 42 and the PUT to
    the negotiated URL with success.  Then the calls of the attempt are
    the negotiation, the PUT and the registrar of the handler, followed by
    reads only; the input of the registrar has archiveFileId 42; and the
    wrapper of the registrar hands [fetch] a request whose JSON body has
    archiveFileId 42. *)
Theorem registrar_gets_negotiated_fileId
    (h : Spec.Handler) (w : World) (snap : ViewState)
    (file : File) (hash : string) (data : PreUploadResp) :
  Spec.submittable h snap ->
  uploadMode snap = new ->
  selectedFile snap = Some file ->
  calculateFileHash file = Normal hash ->
  w (call_preUploadFile (Cover.negotiationFor file hash)) = Success data ->
  fileId data = 42 ->
  w (call_uploadFileToOSS (uploadUrl data) file (contentType data))
  = Success tt ->
  exists c registered reads,
    calls (Spec.attempt h w snap)
    = call_preUploadFile (Cover.negotiationFor file hash)
      :: call_uploadFileToOSS (uploadUrl data) file (contentType data)
      :: c :: reads
    /\ forallb Spec.isRead reads = true
    /\ Spec.registrarOf h c = true
    /\ Spec.registrarInput c = Some registered
    /\ in_archiveFileId registered = Some 42
    /\ Spec.registrarTransmits c
         (fun request =>
            Spec.bodyArchiveFileId request = Some (Json.num 42)).
Proof.
  intros Hsub Hmode Hfile Hhash Hneg Hid Hput.
  destruct snap as [ts pi ld msg sel co eo et fd sf up iu um fi vs vp vl].
  cbn in Hmode, Hfile. subst um sf.
  unfold Spec.attempt, Spec.handler.
  destruct h; cbn in Hsub.
  - unfold handleUploadAndCreate. cbn -[loadTemplates calculateFileHash].
    rewrite Hsub. upload_succeeds Hhash Hneg Hput. rewrite Hid.
    cbn -[loadTemplates].
    eexists. eexists. eexists.
    split; [reflexivity |].
    split.
    { destruct (w (call_createSoftwareTemplate _)); cbn -[loadTemplates];
        [apply loadTemplates_only_reads | reflexivity]. }
    split; [reflexivity |]. split; [reflexivity |].
    split; [reflexivity |].
    registrar_request.
  - destruct et as [editing |]; [| congruence].
    unfold handleUploadAndUpdate. cbn -[loadTemplates calculateFileHash].
    upload_succeeds Hhash Hneg Hput. rewrite Hid.
    cbn -[loadTemplates].
    eexists. eexists. eexists.
    split; [reflexivity |].
    split.
    { destruct (w (call_updateSoftwareTemplate _ _)); cbn -[loadTemplates];
        [apply loadTemplates_only_reads | reflexivity]. }
    split; [reflexivity |]. split; [reflexivity |].
    split; [reflexivity |].
    registrar_request.
Qed.

(** C10. In both flows the archive link is left out of the request
    silently.  For a handler that can submit (a create with a name, an
    update of a template being edited): when the negotiation for the
    selected file answers fileId 0 and the PUT succeeds, and when in
    'existing' mode the file id typed by the user does not parse to a
    strictly positive integer, the registrar is still called (after the
    negotiation and the PUT in the first case, as the first call of the
    attempt in the second), its input has no archiveFileId and the
    request that its wrapper hands to [fetch] has none in its JSON body.
    No error is raised for it: when the registrar succeeds and the reload
    can read, the attempt ends with the success banner of the handler,
    and the only error that a failing registrar leaves is its own
    message. *)
Theorem archive_link_silently_omitted
    (h : Spec.Handler) (w : World) (snap : ViewState) :
  Spec.submittable h snap ->
  (forall file hash data,
      uploadMode snap = new ->
      selectedFile snap = Some file ->
      calculateFileHash file = Normal hash ->
      w (call_preUploadFile (Cover.negotiationFor file hash))
      = Success data ->
      fileId data = 0 ->
      w (call_uploadFileToOSS (uploadUrl data) file (contentType data))
      = Success tt ->
      exists c registered reads,
        calls (Spec.attempt h w snap)
        = call_preUploadFile (Cover.negotiationFor file hash)
          :: call_uploadFileToOSS (uploadUrl data) file (contentType data)
          :: c :: reads
        /\ Spec.registrarOf h c = true
        /\ Spec.registrarInput c = Some registered
        /\ in_archiveFileId registered = None
        /\ Spec.registrarTransmits c
             (fun request => Spec.bodyArchiveFileId request = None)
        /\ (Spec.registered w c = true ->
            Spec.readsSucceed w ->
            message (final (Spec.attempt h w snap)) = Spec.done h)
        /\ (forall m,
               Cover.failureOf w c = Some m ->
               message (final (Spec.attempt h w snap)) = errorMessage m))
  /\ (uploadMode snap = existing ->
      (forall n,
          JS.parseInt (JS.trim (fd_archiveFileId (formData snap))) = Some n ->
          n <= 0) ->
      exists c registered reads,
        calls (Spec.attempt h w snap) = c :: reads
        /\ Spec.registrarOf h c = true
        /\ Spec.registrarInput c = Some registered
        /\ in_archiveFileId registered = None
        /\ Spec.registrarTransmits c
             (fun request => Spec.bodyArchiveFileId request = None)
        /\ (Spec.registered w c = true ->
            Spec.readsSucceed w ->
            message (final (Spec.attempt h w snap)) = Spec.done h)
        /\ (forall m,
               Cover.failureOf w c = Some m ->
               message (final (Spec.attempt h w snap)) = errorMessage m)).
Proof.
  intros Hsub.
  destruct snap as [ts pi ld msg sel co eo et fd sf up iu um fi vs vp vl].
  unfold Spec.attempt, Spec.handler.
  split.
  - intros file hash data Hmode Hfile Hhash Hneg Hid Hput.
    cbn in Hmode, Hfile. subst um sf.
    destruct h; cbn in Hsub.
    + unfold handleUploadAndCreate.
      cbn -[loadTemplates calculateFileHash].
      rewrite Hsub. upload_succeeds Hhash Hneg Hput. rewrite Hid.
      cbn -[loadTemplates].
      eexists. eexists. eexists.
      split; [reflexivity |]. split; [reflexivity |].
      split; [reflexivity |]. split; [reflexivity |].
      split; [registrar_request |].
      registrar_banner.
    + destruct et as [editing |]; [| congruence].
      unfold handleUploadAndUpdate.
      cbn -[loadTemplates calculateFileHash].
      upload_succeeds Hhash Hneg Hput. rewrite Hid.
      cbn -[loadTemplates].
      eexists. eexists. eexists.
      split; [reflexivity |]. split; [reflexivity |].
      split; [reflexivity |]. split; [reflexivity |].
      split; [registrar_request |].
      registrar_banner.
  - intros Hmode Hparse. cbn in Hmode, Hparse. subst um.
    assert (Hnone :
              (if JS.truthy (JS.trim (fd_archiveFileId fd))
               then
                 match JS.parseInt (JS.trim (fd_archiveFileId fd)) with
                 | Some fileId =>
                     if 0 <? fileId then Ret (Some (Some fileId))
                     else Ret (Some None)
                 | None => Ret (Some None)
                 end
               else Ret (Some None))
              = (Ret (Some None) : Prog (option (option Z)))).
    { destruct (JS.truthy (JS.trim (fd_archiveFileId fd)));
        [| reflexivity].
      destruct (JS.parseInt (JS.trim (fd_archiveFileId fd))) as [n |];
        [| reflexivity].
      specialize (Hparse n eq_refl).
      destruct (Z.ltb_spec 0 n); [lia | reflexivity]. }
    destruct h; cbn in Hsub.
    + unfold handleUploadAndCreate.
      cbn -[loadTemplates JS.parseInt JS.trim]. rewrite Hsub.
      cbn -[loadTemplates JS.parseInt JS.trim]. rewrite Hnone.
      cbn -[loadTemplates].
      eexists. eexists. eexists.
      split; [reflexivity |]. split; [reflexivity |].
      split; [reflexivity |]. split; [reflexivity |].
      split; [registrar_request |].
      registrar_banner.
    + destruct et as [editing |]; [| congruence].
      unfold handleUploadAndUpdate.
      cbn -[loadTemplates JS.parseInt JS.trim]. rewrite Hnone.
      cbn -[loadTemplates].
      eexists. eexists. eexists.
      split; [reflexivity |]. split; [reflexivity |].
      split; [reflexivity |]. split; [reflexivity |].
      split; [registrar_request |].
      registrar_banner.
Qed.

(** *** Sample runs of the workflow *)

Lemma negotiation_failure_aborts_witness :
  let w := Spec.world (Failure "quota exceeded") (Success tt)
             (Success (Spec.template 2 "demo" 42)) (Success tt)
             (Failure "unreachable") (Failure "unreachable") in
  calls (Spec.attempt Spec.onCreate w Spec.createWithFile)
  = [call_preUploadFile Spec.demoInput]
  /\ message (final (Spec.attempt Spec.onCreate w Spec.createWithFile))
     = errorMessage "预上传失败: quota exceeded".
Proof.
  intros w.
  destruct (@negotiation_failure_aborts Spec.onCreate w Spec.createWithFile
              Spec.demoInput "quota exceeded")
    as (Hcalls & _ & _ & Hmsg & _).
  - vm_compute. left. reflexivity.
  - reflexivity.
  - split; [exact Hcalls | exact Hmsg].
Defined.

Lemma transfer_failure_skips_registration_witness :
  let w := Spec.world (Success (Spec.slot 42))
             (Failure "上传失败: 403 Forbidden")
             (Success (Spec.template 2 "demo" 42)) (Success tt)
             (Failure "unreachable") (Failure "unreachable") in
  existsb Spec.isRegistrar
    (calls (Spec.attempt Spec.onCreate w Spec.createWithFile)) = false
  /\ message (final (Spec.attempt Spec.onCreate w Spec.createWithFile))
     = errorMessage "上传失败: 上传失败: 403 Forbidden".
Proof.
  intros w.
  destruct (@transfer_failure_skips_registration Spec.onCreate w
              Spec.createWithFile "https://oss.example/slot" Spec.demoFile
              "application/zip" "上传失败: 403 Forbidden")
    as (Hreg & _ & Hmsg & _).
  - vm_compute. right. left. reflexivity.
  - reflexivity.
  - split; [exact Hreg | exact Hmsg].
Defined.

Lemma registrar_gets_negotiated_fileId_witness :
  let loaded := Spec.template 1 "demo" 7 in
  let w := Spec.healthy (Spec.slot 42) loaded [loaded] in
  let snap :=
    Spec.after [setSelectedFile (Some Spec.demoFile)] (Spec.editing loaded) in
  exists c registered reads,
    calls (Spec.attempt Spec.onUpdate w snap)
    = call_preUploadFile
        (Cover.negotiationFor Spec.demoFile (pu_hash Spec.demoInput))
      :: call_uploadFileToOSS (uploadUrl (Spec.slot 42)) Spec.demoFile
           (contentType (Spec.slot 42))
      :: c :: reads
    /\ forallb Spec.isRead reads = true
    /\ Spec.registrarOf Spec.onUpdate c = true
    /\ Spec.registrarInput c = Some registered
    /\ in_archiveFileId registered = Some 42
    /\ Spec.registrarTransmits c
         (fun request =>
            Spec.bodyArchiveFileId request = Some (Json.num 42)).
Proof.
  intros loaded w snap.
  apply (@registrar_gets_negotiated_fileId Spec.onUpdate w snap
           Spec.demoFile (pu_hash Spec.demoInput) (Spec.slot 42)).
  - vm_compute. discriminate.
  - reflexivity.
  - reflexivity.
  - vm_compute. reflexivity.
  - reflexivity.
  - reflexivity.
  - reflexivity.
Defined.

Lemma archive_link_silently_omitted_witness :
  (let w := Spec.healthy (Spec.slot 0) (Spec.template 2 "demo" 0)
              [Spec.template 2 "demo" 0] in
   exists c registered reads,
     calls (Spec.attempt Spec.onCreate w Spec.createWithFile)
     = call_preUploadFile
         (Cover.negotiationFor Spec.demoFile (pu_hash Spec.demoInput))
       :: call_uploadFileToOSS (uploadUrl (Spec.slot 0)) Spec.demoFile
            (contentType (Spec.slot 0))
       :: c :: reads
     /\ Spec.registrarOf Spec.onCreate c = true
     /\ Spec.registrarInput c = Some registered
     /\ in_archiveFileId registered = None
     /\ Spec.registrarTransmits c
          (fun request => Spec.bodyArchiveFileId request = None)
     /\ (Spec.registered w c = true ->
         Spec.readsSucceed w ->
         message (final (Spec.attempt Spec.onCreate w Spec.createWithFile))
         = Spec.done Spec.onCreate)
     /\ (forall m,
            Cover.failureOf w c = Some m ->
            message (final (Spec.attempt Spec.onCreate w Spec.createWithFile))
            = errorMessage m))
  /\ (let loaded := Spec.template 1 "demo" 7 in
      let w := Spec.healthy (Spec.slot 42) loaded [loaded] in
      let snap :=
        Spec.after [setUploadMode existing;
                    setFormData (mkFormData "demo" "" "-3")]
          (Spec.editing loaded) in
      exists c registered reads,
        calls (Spec.attempt Spec.onUpdate w snap) = c :: reads
        /\ Spec.registrarOf Spec.onUpdate c = true
        /\ Spec.registrarInput c = Some registered
        /\ in_archiveFileId registered = None
        /\ Spec.registrarTransmits c
             (fun request => Spec.bodyArchiveFileId request = None)
        /\ (Spec.registered w c = true ->
            Spec.readsSucceed w ->
            message (final (Spec.attempt Spec.onUpdate w snap))
            = Spec.done Spec.onUpdate)
        /\ (forall m,
               Cover.failureOf w c = Some m ->
               message (final (Spec.attempt Spec.onUpdate w snap))
               = errorMessage m)).
Proof.
  split.
  - intros w.
    apply (proj1 (@archive_link_silently_omitted Spec.onCreate w
                    Spec.createWithFile eq_refl)
             Spec.demoFile (pu_hash Spec.demoInput) (Spec.slot 0)).
    + reflexivity.
    + reflexivity.
    + vm_compute. reflexivity.
    + reflexivity.
    + reflexivity.
    + reflexivity.
  - intros loaded w snap.
    assert (Hsub : Spec.submittable Spec.onUpdate snap)
      by (vm_compute; discriminate).
    apply (proj2 (@archive_link_silently_omitted Spec.onUpdate w snap Hsub)).
    + reflexivity.
    + intros n H. vm_compute in H. injection H as <-. lia.
Defined.

(** ** Selection after a create *)

Lemma loadTemplates_selection (w : World) (snap st : ViewState)
    (listed : Listing SoftwareTemplate) :
  w (call_listSoftwareTemplates (page (pageInfo snap))
       (pageSize (pageInfo snap))) = Success listed ->
  selectedTemplateId (final (run w (loadTemplates snap) st))
  = option_map id (nextTemplate (selectedTemplateId snap) (list_ listed)).
Proof.
  intros Hl. unfold loadTemplates.
  destruct st as [ts pi ld msg sel co eo et fd sf up iu um fi vs vp vl].
  cbn. rewrite Hl. cbn.
  destruct (nextTemplate (selectedTemplateId snap) (list_ listed)) as [t |];
    cbn; [| reflexivity].
  destruct (JS.truthyNum (archiveFileId t)); cbn; [| reflexivity].
  destruct (w (call_listFileVersions _ _ _)); reflexivity.
Qed.

(** After a successful create the selection is the one of the reload:
    the template that was selected if it is still listed, else the first
    row.  The id of the created template plays no part. *)
Theorem selection_after_create
    (w : World) (snap : ViewState) (input : TemplateInput)
    (created : SoftwareTemplate) (listed : Listing SoftwareTemplate) :
  In (call_createSoftwareTemplate input)
    (calls (Spec.attempt Spec.onCreate w snap)) ->
  w (call_createSoftwareTemplate input) = Success created ->
  w (call_listSoftwareTemplates (page (pageInfo snap))
       (pageSize (pageInfo snap))) = Success listed ->
  selectedTemplateId (final (Spec.attempt Spec.onCreate w snap))
  = option_map id (nextTemplate (selectedTemplateId snap) (list_ listed)).
Proof.
  unfold Spec.attempt, Spec.handler, handleUploadAndCreate.
  destruct snap as [ts pi ld msg sel co eo et fd sf up iu um fi vs vp vl].
  exec; intros Hin Hw Hl; membership; same_answer;
    match goal with
    | |- context [run ?w0 (loadTemplates ?s) ?st] =>
        apply (@loadTemplates_selection w0 s st listed Hl)
    end.
Qed.

(** C2. With template 1 selected, a create that succeeds with the new id
    2 leaves template 1 selected, even when the reloaded list shows the
    new template first: the handler reloads the list and never looks at
    the id the backend returned. *)
Theorem created_template_is_not_selected :
  let first := Spec.template 1 "first" 0 in
  let second := Spec.template 2 "second" 0 in
  let snap := Spec.creating [first] (Some 1) "second" in
  let w := Spec.healthy (Spec.slot 42) second [second; first] in
  calls (Spec.attempt Spec.onCreate w snap)
  = [call_createSoftwareTemplate (mkTemplateInput (Some "second") None None);
     call_listSoftwareTemplates 1 10]
  /\ w (call_createSoftwareTemplate
          (mkTemplateInput (Some "second") None None))
     = Success second
  /\ selectedTemplateId (final (Spec.attempt Spec.onCreate w snap)) = Some 1
  /\ selectedTemplateId (final (Spec.attempt Spec.onCreate w snap))
     <> Some (id second).
Proof. vm_compute. repeat split. discriminate. Qed.

(** ** Diff before send *)

Import LlmManagementPage AgentManagementPage.

Lemma orElse_empty (s : string) : JS.orElse s "" = s.
Proof. destruct s; reflexivity. Qed.

Lemma sent_string_differs (guard : bool) (next old v : string) :
  (if (guard && negb (next =? old)%string)%bool then Some next else None)
  = Some v ->
  v <> old.
Proof.
  destruct guard; [| discriminate].
  destruct (next =? old)%string eqn:E; [discriminate |].
  intros [= <-]. now apply String.eqb_neq.
Qed.

Lemma changed_string (next old v : string) :
  changed String.eqb next old = Some v -> v <> old.
Proof. apply (@sent_string_differs true). Qed.

Lemma changed_Z (next old v : Z) :
  changed Z.eqb next old = Some v -> v <> old.
Proof.
  unfold changed. destruct (next =? old) eqn:E; [discriminate |].
  intros [= <-]. now apply Z.eqb_neq.
Qed.

Lemma changed_bool (next old v : bool) :
  changed Bool.eqb next old = Some v -> v <> old.
Proof.
  unfold changed. destruct (Bool.eqb next old) eqn:E; [discriminate |].
  intros [= <-]. now apply Bool.eqb_false_iff.
Qed.

Lemma changed_strictly {Num : Type} (strictEq : Num -> Num -> bool)
    (next old v : Num) :
  changed strictEq next old = Some v -> strictEq v old = false.
Proof.
  unfold changed. destruct (strictEq next old) eqn:E; [discriminate |].
  now intros [= <-].
Qed.

(** The update of an LLM provider sends a field only if it differs. *)
Lemma submitProvider_diff (form : ProviderForm) (loaded : LlmProvider)
    (id : Z) (payload : ProviderUpdate) :
  submitProvider edit (Some loaded) form = UpdateOf id payload ->
  Spec.ProviderDiff loaded payload.
Proof.
  unfold submitProvider.
  destruct (negb (JS.truthy (JS.trim (pf_name form)))); [discriminate |].
  intros [= _ <-]. unfold Spec.ProviderDiff. cbn.
  rewrite orElse_empty. repeat split; intros v.
  - apply sent_string_differs.
  - apply (@sent_string_differs true).
  - apply (@sent_string_differs true).
Qed.

(** The update of an LLM model sends a field only if it differs. *)
Lemma submitModel_diff (Num : Type) (parseFloat : string -> option Num)
    (zero : Num) (max0 : Num -> Num) (strictEq : Num -> Num -> bool)
    (form : ModelForm) (loaded : LlmModel Num) (id : Z)
    (payload : ModelUpdate Num) :
  submitModel parseFloat zero max0 strictEq edit (Some loaded) form
  = UpdateOf id payload ->
  Spec.ModelDiff strictEq loaded payload.
Proof.
  unfold submitModel.
  destruct (JS.parseInt (mf_providerId form)) as [providerId |];
    [| discriminate].
  destruct (providerId <=? 0); [discriminate |].
  destruct (negb (JS.truthy (JS.trim (mf_modelName form))));
    [discriminate |].
  intros [= _ <-]. unfold Spec.ModelDiff. cbn.
  repeat split; intros v;
    first [ apply changed_Z | apply changed_string | apply changed_bool
          | apply changed_strictly ].
Qed.

(** The update of an agent sends its name and its type only if they
    differ. *)
Lemma submitAgent_diff (form : AgentForm) (loaded : Agent)
    (id : Z) (payload : AgentUpdate) :
  submitAgent edit (Some loaded) form = UpdateOf id payload ->
  Spec.AgentNameTypeDiff loaded payload.
Proof.
  unfold submitAgent.
  destruct (negb (JS.truthy (JS.trim (af_name form)))); [discriminate |].
  destruct (negb (JS.truthy (JS.trim (af_agentType form))));
    [discriminate |].
  intros [= _ <-]. unfold Spec.AgentNameTypeDiff. cbn.
  split; intros v; apply sent_string_differs.
Qed.

(** The update of a software template is built from the form alone. *)
Lemma handleUploadAndUpdate_from_form (w : World) (snap : ViewState)
    (loaded : SoftwareTemplate) (id : Z) (payload : TemplateInput) :
  editingTemplate snap = Some loaded ->
  In (call_updateSoftwareTemplate id payload)
    (calls (Spec.attempt Spec.onUpdate w snap)) ->
  id = SoftwareTemplatesPage.id loaded /\ Spec.TemplateFromForm snap payload.
Proof.
  unfold Spec.attempt, Spec.handler, handleUploadAndUpdate,
    Spec.TemplateFromForm.
  destruct snap as [ts pi ld msg sel co eo et fd sf up iu um fi vs vp vl].
  exec; intros He Hin; membership;
    injection He as ->;
    repeat split; try reflexivity;
    cbn; intros v Hv; try discriminate Hv;
    injection Hv as <-;
    unfold JS.truthyNum in *;
    repeat match goal with
      | H : (_ =? 0) = false |- _ => apply Z.eqb_neq in H
      | H : (0 <? _) = true |- _ => apply Z.ltb_lt in H
      | H : negb _ = true |- _ => apply negb_true_iff in H
      end;
    first [assumption | lia].
Qed.

(** What the four edit forms send.  The updates of an LLM provider
    (name, baseUrl, description) and of an LLM model (its nine fields)
    send a field only if it differs from the loaded record, and so does
    the update of an agent for its name and its type.  The update of a
    software template does not look at the loaded record: its body holds
    the name and the description of the form whenever they are not blank,
    and an archiveFileId whenever a file id other than 0 was obtained. *)
Theorem update_payloads_by_form :
  (forall form loaded id payload,
      submitProvider edit (Some loaded) form = UpdateOf id payload ->
      Spec.ProviderDiff loaded payload)
  /\ (forall (Num : Type) parseFloat (zero : Num) max0 strictEq
             form loaded id payload,
         submitModel parseFloat zero max0 strictEq edit (Some loaded) form
         = UpdateOf id payload ->
         Spec.ModelDiff strictEq loaded payload)
  /\ (forall form loaded id payload,
         submitAgent edit (Some loaded) form = UpdateOf id payload ->
         Spec.AgentNameTypeDiff loaded payload)
  /\ (forall (w : World) snap loaded id payload,
         editingTemplate snap = Some loaded ->
         In (call_updateSoftwareTemplate id payload)
           (calls (Spec.attempt Spec.onUpdate w snap)) ->
         id = SoftwareTemplatesPage.id loaded
         /\ Spec.TemplateFromForm snap payload).
Proof.
  split; [| split; [| split]].
  - intros form loaded id payload. apply submitProvider_diff.
  - intros Num parseFloat zero max0 strictEq form loaded id payload.
    apply submitModel_diff.
  - intros form loaded id payload. apply submitAgent_diff.
  - intros w snap loaded id payload. apply handleUploadAndUpdate_from_form.
Qed.

Lemma update_payloads_by_form_witness :
  Spec.ProviderDiff
    (mkLlmProvider 1 "openai" "https://api.openai.com/v1" true "main"
       "2025-01-01T00:00:00Z" "2025-01-01T00:00:00Z")
    (mkProviderUpdate None (Some "https://eu.api.openai.com/v1") None None
       None)
  /\ Spec.TemplateFromForm (Spec.editing (Spec.template 1 "demo" 42))
       (mkTemplateInput (Some "demo") None None).
Proof.
  split.
  - apply (proj1 update_payloads_by_form
             (mkProviderForm "openai" " https://eu.api.openai.com/v1 "
                "main" "" false)
             (mkLlmProvider 1 "openai" "https://api.openai.com/v1" true
                "main" "2025-01-01T00:00:00Z" "2025-01-01T00:00:00Z") 1).
    reflexivity.
  - apply (proj2 (proj2 (proj2 update_payloads_by_form))
             (Spec.healthy (Spec.slot 42) (Spec.template 1 "demo" 42)
                [Spec.template 1 "demo" 42])
             (Spec.editing (Spec.template 1 "demo" 42))
             (Spec.template 1 "demo" 42) 1).
    + reflexivity.
    + vm_compute. left. reflexivity.
Defined.

(** C1. An edit dialog that is opened on the template "demo" and
    submitted with nothing changed sends an update whose body carries the
    name "demo" again: the body of a template update has a field that
    equals the field of the loaded record, which the provider and model
    forms never send. *)
Theorem template_update_resends_unchanged_name :
  let loaded := Spec.template 1 "demo" 42 in
  let w := Spec.healthy (Spec.slot 42) loaded [loaded] in
  let payload := mkTemplateInput (Some "demo") None None in
  editingTemplate (Spec.editing loaded) = Some loaded
  /\ calls (Spec.attempt Spec.onUpdate w (Spec.editing loaded))
     = [call_updateSoftwareTemplate 1 payload;
        call_listSoftwareTemplates 1 10;
        call_listFileVersions 42 1 20]
  /\ in_name payload = Some (name loaded)
  /\ ~ Spec.TemplateDiff loaded payload.
Proof.
  cbv zeta. split; [reflexivity |]. split; [vm_compute; reflexivity |].
  split; [reflexivity |].
  intros [Hname _]. apply (Hname "demo"); reflexivity.
Qed.

(** The policy does not hold of the four forms together. *)
Lemma diff_before_send_fails : ~ Spec.DiffBeforeSend.
Proof.
  intros [Htemplate _].
  destruct (Htemplate
              (Spec.healthy (Spec.slot 42) (Spec.template 1 "demo" 42)
                 [Spec.template 1 "demo" 42])
              (Spec.editing (Spec.template 1 "demo" 42))
              (Spec.template 1 "demo" 42) 1
              (mkTemplateInput (Some "demo") None None))
    as [Hname _].
  - reflexivity.
  - vm_compute. left. reflexivity.
  - apply (Hname "demo"); reflexivity.
Qed.

(** The agent form compares the description as typed and sends it
    trimmed: a trailing blank makes it send the loaded value again. *)
Example agent_update_resends_trimmed_description :
  submitAgent edit
    (Some (mkAgent 1 "coder" "helper" "" "code" "2025-01-01T00:00:00Z"))
    (mkAgentForm "coder" "helper " "" "code")
  = UpdateOf 1 (mkAgentUpdate None (Some "helper") None None).
Proof. reflexivity. Qed.

(* ================================================================== *)
(** * Further properties of the pages *)
(* ================================================================== *)

(** *** Error messages are never blank *)

Lemma trimEnd_head (c : ascii) (r : string) :
  JS.isWhiteSpace c = false ->
  exists r', JS.trimEnd (String c r) = String c r'.
Proof.
  intros Hc. cbn. destruct (JS.trimEnd r); [rewrite Hc |]; eauto.
Qed.

Lemma trimStart_head (s : string) :
  match JS.trimStart s with
  | EmptyString => True
  | String c _ => JS.isWhiteSpace c = false
  end.
Proof.
  induction s as [| c r IH]; cbn; [exact I |].
  destruct (JS.isWhiteSpace c) eqn:E; [exact IH | exact E].
Qed.

Lemma trimEnd_idempotent (s : string) :
  JS.trimEnd (JS.trimEnd s) = JS.trimEnd s.
Proof.
  induction s as [| c r IH]; [reflexivity |].
  cbn. destruct (JS.trimEnd r) as [| c' r'] eqn:E.
  - destruct (JS.isWhiteSpace c) eqn:Ec; [reflexivity |].
    cbn. now rewrite Ec.
  - cbn [JS.trimEnd] in *. rewrite IH. reflexivity.
Qed.

Lemma trim_idempotent (s : string) : JS.trim (JS.trim s) = JS.trim s.
Proof.
  unfold JS.trim. pose proof (trimStart_head s) as H.
  destruct (JS.trimStart s) as [| c r]; [reflexivity |].
  destruct (@trimEnd_head c r H) as [r' Hr]. rewrite Hr at 1.
  cbn [JS.trimStart]. rewrite H. rewrite <- Hr. apply trimEnd_idempotent.
Qed.

Lemma nonBlankString_notBlank (v : option Json.json) (m : string) :
  nonBlankString v = Some m -> Cover.notBlank m = true.
Proof.
  destruct v as [[| | | s | |] |]; simpl; try discriminate.
  destruct (JS.truthy (JS.trim s)) eqn:E; [| discriminate].
  now intros [= <-].
Qed.

Lemma fallback_notBlank (body : string) :
  Cover.notBlank (JS.orElse (JS.trim body) "Request failed") = true.
Proof.
  unfold JS.orElse, Cover.notBlank.
  destruct (JS.truthy (JS.trim body)) eqn:E; [| reflexivity].
  now rewrite trim_idempotent.
Qed.

(** X1. Whatever body a failed response carries, the message that the
    four pages decode from it is never blank: it is a non-blank [message]
    or [msg] of the body, the non-blank trimmed text, or the literal
    "Request failed". *)
Theorem parseApiErrorMessage_never_blank
    {T} (env : Env T) (response : Response T) (body : string) :
  Platform.text response = Normal body ->
  (exists m, LoginPage.parseApiErrorMessage env response = Normal m
             /\ Cover.notBlank m = true)
  /\ (exists m, SoftwareTemplatesPage.parseApiErrorMessage env response
                = Normal m
                /\ Cover.notBlank m = true)
  /\ (exists m, LlmManagementPage.parseApiErrorMessage env response
                = Normal m
                /\ Cover.notBlank m = true)
  /\ (exists m, AgentManagementPage.parseApiErrorMessage env response
                = Normal m
                /\ Cover.notBlank m = true).
Proof.
  intros Hb.
  unfold LoginPage.parseApiErrorMessage,
    SoftwareTemplatesPage.parseApiErrorMessage,
    LlmManagementPage.parseApiErrorMessage,
    AgentManagementPage.parseApiErrorMessage, JSON_parse.
  rewrite Hb. cbn [Platform.bind].
  destruct (JS.truthy body) eqn:Eb; cbn [negb];
    [| repeat split; eexists; split; reflexivity].
  pose proof (fallback_notBlank body) as Hf.
  destruct (parser env body) as [[| b | m e | s | l | l] |];
    cbn [Platform.bind tryCatch getProp nonBlankString];
    try (repeat split; eexists; (split; [reflexivity | exact Hf])).
  destruct (nonBlankString (Json.lookup "message" l)) as [m |] eqn:Em;
    destruct (nonBlankString (Json.lookup "msg" l)) as [m' |] eqn:Em';
    cbn [Platform.bind tryCatch];
    try rewrite (nonBlankString_truthy _ Em);
    try rewrite (nonBlankString_truthy _ Em');
    repeat split; eexists;
    (split; [reflexivity
            | first [ exact Hf
                    | exact (nonBlankString_notBlank _ Em)
                    | exact (nonBlankString_notBlank _ Em') ]]).
Qed.

Lemma parseApiErrorMessage_never_blank_witness :
  exists m,
    LlmManagementPage.parseApiErrorMessage
      (Spec.answering (Spec.errorResponse 502 "Bad Gateway" "  upstream  "))
      (Spec.errorResponse 502 "Bad Gateway" "  upstream  ")
    = Normal m
    /\ Cover.notBlank m = true.
Proof.
  apply (@parseApiErrorMessage_never_blank unit
           (Spec.answering
              (Spec.errorResponse 502 "Bad Gateway" "  upstream  "))
           (Spec.errorResponse 502 "Bad Gateway" "  upstream  ")
           "  upstream  ").
  reflexivity.
Defined.

(** *** A wrapper reports success only for a 2xx response *)

(** X3. When one of the eight wrappers returns [{ ok: true, data }], then
    [fetch] was given a request with the method of the wrapper and
    answered it with a response whose status is in 200..299; the data is
    the decoded payload of that response for the wrappers that decode
    one, and the request carries [Authorization: Bearer <token>] with the
    stored token for the wrappers that read it. *)
Theorem wrapper_success_needs_2xx
    (w : Spec.Wrapper) (env : Env (Spec.Data w)) (input : Spec.Input w)
    (data : Spec.Data w) :
  Spec.invoke w env input = Normal (Success data) ->
  exists request response,
    fetch env request = Normal response
    /\ ok response = true
    /\ method request = Cover.methodOf w
    /\ (Spec.decodesData w = true -> json response = Normal data)
    /\ (Spec.readsToken w = true ->
        exists token,
          getAuthToken env = Normal token
          /\ In ("Authorization", bearer token) (headers request)).
Proof.
  destruct w; unfold_wrappers;
    try (destruct (getAuthToken env) as [token | t] eqn:Htoken;
         cbn [Platform.bind tryCatch]; [| discriminate]);
    match goal with
    | |- context [fetch env ?r] =>
        destruct (fetch env r) as [response | t] eqn:Hfetch
    end;
    cbn [Platform.bind tryCatch]; try discriminate;
    destruct (ok response) eqn:Hok; cbn [negb Platform.bind tryCatch];
    try (destruct (LoginPage.parseApiErrorMessage env response);
         discriminate);
    try (destruct (SoftwareTemplatesPage.parseApiErrorMessage env response);
         discriminate);
    try discriminate;
    try (destruct (json response) as [d | t] eqn:Hjson;
         cbn [Platform.bind tryCatch]; [| discriminate]);
    intros Heq; inversion Heq; subst;
    (eexists; eexists; split; [exact Hfetch |]);
    (split; [exact Hok |]); (split; [reflexivity |]);
    (split; [intros Hd; first [exact Hjson | discriminate Hd] |]);
    intros Hr; try discriminate Hr;
    (eexists; split; [reflexivity | cbn; tauto]).
Qed.

Lemma wrapper_success_needs_2xx_witness :
  let created := Spec.template 2 "demo" 42 in
  let env :=
    Spec.answering
      (mkResponse 201 "Created" (Normal "") (Normal created)) in
  exists request response,
    fetch env request = Normal response
    /\ ok response = true
    /\ method request = "POST"
    /\ (true = true -> json response = Normal created)
    /\ (true = true ->
        exists token,
          getAuthToken env = Normal token
          /\ In ("Authorization", bearer token) (headers request)).
Proof.
  intros created env.
  apply (@wrapper_success_needs_2xx Spec.createSoftwareTemplate_ env
           (mkTemplateInput (Some "demo") None (Some 42)) created).
  reflexivity.
Defined.

(** *** The digest can be read back from its text *)

Lemma decode_byte (b : byte) (r : string) :
  Cover.decodeHex
    (String (JS.hexDigit (Byte.to_N b / 16))
       (String (JS.hexDigit (Byte.to_N b mod 16)) r))
  = match Cover.decodeHex r with
    | Some bs => Some (b :: bs)
    | None => None
    end.
Proof. destruct b; cbn; destruct (Cover.decodeHex r); reflexivity. Qed.

Lemma decodeHex_hexLower (bs : list byte) :
  Cover.decodeHex (Spec.hexLower bs) = Some bs.
Proof.
  unfold Spec.hexLower. induction bs as [| b bs IH]; [reflexivity |].
  cbn [map JS.join fold_right String.append].
  change (Cover.decodeHex
            (String (JS.hexDigit (Byte.to_N b / 16))
               (String (JS.hexDigit (Byte.to_N b mod 16))
                  (JS.join
                     (map (fun b0 =>
                             String (JS.hexDigit (Byte.to_N b0 / 16))
                               (String (JS.hexDigit (Byte.to_N b0 mod 16))
                                  EmptyString)) bs))))
          = Some (b :: bs)).
  rewrite decode_byte. unfold JS.join in IH |- *. now rewrite IH.
Qed.

(** X4. The text that [calculateFileHash] returns is a faithful encoding
    of the digest: it has 64 characters and reading its pairs of
    hexadecimal digits back gives the bytes of the SHA-256 of the content
    of the file; the hasher returns only if the file could be read. *)
Theorem calculateFileHash_round_trip (file : File) (hash : string) :
  calculateFileHash file = Normal hash ->
  exists content,
    arrayBuffer file = Normal content
    /\ Cover.decodeHex hash = Some (SHA256.digest content)
    /\ String.length hash = 64%nat.
Proof.
  unfold calculateFileHash.
  destruct (arrayBuffer file) as [content | t]; cbn [Platform.bind];
    [| discriminate].
  rewrite hash_encoding_is_hexLower. intros [= <-].
  exists content. split; [reflexivity |]. split.
  - apply decodeHex_hexLower.
  - rewrite hexLower_length, digest_length. reflexivity.
Qed.

Lemma calculateFileHash_round_trip_witness :
  exists content,
    arrayBuffer Spec.demoFile = Normal content
    /\ Cover.decodeHex (pu_hash Spec.demoInput)
       = Some (SHA256.digest content)
    /\ String.length (pu_hash Spec.demoInput) = 64%nat.
Proof.
  apply (@calculateFileHash_round_trip Spec.demoFile
           (pu_hash Spec.demoInput)).
  vm_compute. reflexivity.
Defined.

(** *** File extensions *)

Lemma split_not_nil (sep : ascii) (s : string) : JS.split sep s <> [].
Proof.
  destruct s as [| c r]; cbn; [discriminate |].
  destruct (Ascii.eqb c sep); [discriminate |].
  destruct (JS.split sep r); discriminate.
Qed.

Lemma split_no_separator (sep : ascii) (s : string) :
  Cover.noChar sep s = true -> JS.split sep s = [s].
Proof.
  induction s as [| c r IH]; cbn; [reflexivity |].
  destruct (Ascii.eqb c sep); cbn; [discriminate |].
  intros H. now rewrite (IH H).
Qed.

Lemma split_pieces (sep : ascii) (s : string) :
  forallb (Cover.noChar sep) (JS.split sep s) = true.
Proof.
  induction s as [| c r IH]; cbn; [reflexivity |].
  destruct (Ascii.eqb c sep) eqn:E; cbn; [exact IH |].
  destruct (JS.split sep r) as [| p ps]; cbn in *; [now rewrite E |].
  now rewrite E.
Qed.

Lemma last_cons {A} (x : A) (l : list A) (d : A) :
  l <> [] -> last (x :: l) d = last l d.
Proof. destruct l; [congruence | reflexivity]. Qed.

Lemma split_after_separator (sep : ascii) (a b : string) :
  (1 < List.length (JS.split sep (a ++ String sep b)))%nat
  /\ last (JS.split sep (a ++ String sep b)) ""
     = last (JS.split sep b) "".
Proof.
  induction a as [| c a IH]; cbn [String.append JS.split].
  - rewrite Ascii.eqb_refl. pose proof (split_not_nil sep b) as Hn.
    split.
    + destruct (JS.split sep b); [congruence | cbn; lia].
    + now apply last_cons.
  - destruct IH as [Hlen Hlast].
    destruct (Ascii.eqb c sep).
    + split; [cbn; lia |].
      rewrite last_cons; [exact Hlast | apply split_not_nil].
    + destruct (JS.split sep (a ++ String sep b)) as [| p [| p' ps]];
        cbn in Hlen; try lia.
      split; [cbn; lia | exact Hlast].
Qed.

Lemma toLowerChar_dot (c : ascii) :
  Ascii.eqb (JS.toLowerChar c) "." = Ascii.eqb c ".".
Proof. destruct c as [[] [] [] [] [] [] [] []]; reflexivity. Qed.

Lemma toLowerChar_lower (c : ascii) :
  Cover.isUpper (JS.toLowerChar c) = false.
Proof. destruct c as [[] [] [] [] [] [] [] []]; reflexivity. Qed.

Lemma toLowerCase_noDot (s : string) :
  Cover.noChar "." (JS.toLowerCase s) = Cover.noChar "." s.
Proof.
  induction s as [| c r IH]; cbn; [reflexivity |].
  now rewrite toLowerChar_dot, IH.
Qed.

Lemma toLowerCase_noUpper (s : string) :
  Cover.noUpper (JS.toLowerCase s) = true.
Proof.
  induction s as [| c r IH]; cbn; [reflexivity |].
  now rewrite toLowerChar_lower, IH.
Qed.

Lemma last_forallb {A} (p : A -> bool) (l : list A) (d : A) :
  forallb p l = true -> p d = true -> p (last l d) = true.
Proof.
  induction l as [| x [| y l] IH]; cbn in *; intros H Hd; try assumption.
  - now apply andb_true_iff in H.
  - apply andb_true_iff in H as [_ H]. now apply IH.
Qed.

(** X5. The extension of a file name is what follows its last dot, in
    lower case: a name without a dot has the extension "", a name
    [base.ext] where [ext] has no dot has the extension [ext] lowered,
    whatever dots [base] has; the extension never contains a dot or an
    upper-case ASCII letter. *)
Theorem getFileExtension_last_dot (name base ext : string) :
  (Cover.noChar "." name = true -> getFileExtension name = "")
  /\ (Cover.noChar "." ext = true ->
      getFileExtension (base ++ "." ++ ext) = JS.toLowerCase ext)
  /\ Cover.noChar "." (getFileExtension name) = true
  /\ Cover.noUpper (getFileExtension name) = true.
Proof.
  unfold getFileExtension. repeat split.
  - intros H. now rewrite (split_no_separator _ _ H).
  - intros H. cbn [String.append].
    destruct (split_after_separator "." base ext) as [Hlen Hlast].
    apply Nat.ltb_lt in Hlen. rewrite Hlen, Hlast.
    now rewrite (split_no_separator _ _ H).
  - destruct (1 <? List.length (JS.split "." name))%nat; [| reflexivity].
    rewrite toLowerCase_noDot.
    apply last_forallb; [apply split_pieces | reflexivity].
  - destruct (1 <? List.length (JS.split "." name))%nat; [| reflexivity].
    apply toLowerCase_noUpper.
Qed.

Lemma getFileExtension_last_dot_witness :
  getFileExtension "README" = ""
  /\ getFileExtension "backup.tar.GZ" = "gz".
Proof.
  split.
  - apply (proj1 (@getFileExtension_last_dot "README" "" "")).
    reflexivity.
  - apply (proj1 (proj2 (@getFileExtension_last_dot "" "backup.tar" "GZ"))).
    reflexivity.
Defined.

(** *** The upload-and-register workflow, further *)

Lemma loadTemplates_frame (w : World) (snap st : ViewState) :
  Cover.dialogs (final (run w (loadTemplates snap) st)) = Cover.dialogs st.
Proof.
  unfold loadTemplates.
  destruct st as [ts pi ld msg sel co eo et fd sf up iu um fi vs vp vl].
  cbn.
  destruct (w (call_listSoftwareTemplates _ _)) as [data | m]; cbn;
    [| reflexivity].
  destruct (nextTemplate (selectedTemplateId snap) (list_ data)) as [t |];
    cbn; [| reflexivity].
  destruct (JS.truthyNum (archiveFileId t)); cbn; [| reflexivity].
  destruct (w (call_listFileVersions _ _ _)); reflexivity.
Qed.

Lemma loadTemplates_one_list (w : World) (snap st : ViewState) :
  filter Cover.isList (calls (run w (loadTemplates snap) st))
  = [call_listSoftwareTemplates (page (pageInfo snap))
       (pageSize (pageInfo snap))].
Proof.
  unfold loadTemplates. cbn.
  destruct (w (call_listSoftwareTemplates _ _)) as [data | m]; cbn;
    [| reflexivity].
  destruct (nextTemplate (selectedTemplateId snap) (list_ data)) as [t |];
    cbn; [| reflexivity].
  destruct (JS.truthyNum (archiveFileId t)); cbn; [| reflexivity].
  destruct (w (call_listFileVersions _ _ _)); reflexivity.
Qed.

Lemma loadTemplates_fields (w : World) (snap st : ViewState) :
  let st' := final (run w (loadTemplates snap) st) in
  isCreateModalOpen st' = isCreateModalOpen st
  /\ isEditModalOpen st' = isEditModalOpen st
  /\ editingTemplate st' = editingTemplate st
  /\ formData st' = formData st
  /\ selectedFile st' = selectedFile st
  /\ uploadProgress st' = uploadProgress st
  /\ isUploading st' = isUploading st
  /\ uploadMode st' = uploadMode st.
Proof.
  cbv zeta. pose proof (loadTemplates_frame w snap st) as H.
  unfold Cover.dialogs in H. injection H as H1 H2 H3 H4 H5 H6 H7 H8 H9.
  repeat split; assumption.
Qed.

(** The fields that a reload does not touch, after a reload. *)
Ltac reload_frame :=
  repeat match goal with
    | |- context [final (run ?w0 (loadTemplates ?s) ?st)] =>
        let H1 := fresh in let H2 := fresh in let H3 := fresh in
        let H4 := fresh in let H5 := fresh in let H6 := fresh in
        let H7 := fresh in let H8 := fresh in
        destruct (loadTemplates_fields w0 s st)
          as (H1 & H2 & H3 & H4 & H5 & H6 & H7 & H8);
        progress rewrite ?H1, ?H2, ?H3, ?H4, ?H5, ?H6, ?H7, ?H8;
        clear H1 H2 H3 H4 H5 H6 H7 H8
    end.

(** X6. Every negotiation describes the selected file: it is made only
    in 'new' mode with a file selected and read, for the unscoped
    collection 0, with the name and the size of the file, the extension of
    its name and the category of that extension, the SHA-256 text of its
    content, and its MIME type, which is left out when the browser gives
    none. *)
Theorem negotiation_describes_selected_file
    (h : Spec.Handler) (w : World) (snap : ViewState)
    (input : PreUploadInput) :
  In (call_preUploadFile input) (calls (Spec.attempt h w snap)) ->
  uploadMode snap = new
  /\ exists file hash,
       selectedFile snap = Some file
       /\ calculateFileHash file = Normal hash
       /\ input = Cover.negotiationFor file hash.
Proof.
  run_handler h snap; intros Hin; membership;
    (split; [reflexivity |]);
    eexists; eexists; (split; [reflexivity |]);
    (split; [eassumption |]);
    unfold Cover.negotiationFor;
    match goal with
    | H : JS.truthy (fileType _) = _ |- _ => rewrite H
    end;
    reflexivity.
Qed.

Lemma negotiation_describes_selected_file_witness :
  let w := Spec.healthy (Spec.slot 42) (Spec.template 2 "demo" 42) [] in
  uploadMode Spec.createWithFile = new
  /\ exists file hash,
       selectedFile Spec.createWithFile = Some file
       /\ calculateFileHash file = Normal hash
       /\ Spec.demoInput = Cover.negotiationFor file hash.
Proof.
  intros w.
  apply (@negotiation_describes_selected_file Spec.onCreate w
           Spec.createWithFile Spec.demoInput).
  vm_compute. left. reflexivity.
Defined.

(** X7. A create with a blank name and an update without a template being
    edited call nothing: the create only shows the validation error, the
    update only clears the banner, and the rest of the state is as it
    was.  The update has no check of the name: with a blank name it still
    calls the registrar, and leaves the name out of the body. *)
Theorem invalid_submit_calls_nothing (w : World) (snap : ViewState) :
  (JS.truthy (JS.trim (fd_name (formData snap))) = false ->
   calls (Spec.attempt Spec.onCreate w snap) = []
   /\ final (Spec.attempt Spec.onCreate w snap)
      = applySet (setMessage (errorMessage "模板名称不能为空")) snap)
  /\ (editingTemplate snap = None ->
      calls (Spec.attempt Spec.onUpdate w snap) = []
      /\ final (Spec.attempt Spec.onUpdate w snap)
         = applySet (setMessage None) snap)
  /\ (forall loaded,
         editingTemplate snap = Some loaded ->
         JS.truthy (JS.trim (fd_name (formData snap))) = false ->
         uploadMode snap = new ->
         selectedFile snap = None ->
         exists payload reads,
           calls (Spec.attempt Spec.onUpdate w snap)
           = call_updateSoftwareTemplate (id loaded) payload :: reads
           /\ in_name payload = None).
Proof.
  unfold Spec.attempt, Spec.handler, handleUploadAndCreate,
    handleUploadAndUpdate.
  destruct snap as [ts pi ld msg sel co eo et fd sf up iu um fi vs vp vl].
  cbn [formData editingTemplate uploadMode selectedFile].
  split; [| split].
  - intros H. cbn. rewrite H. cbn. split; reflexivity.
  - intros ->. cbn. split; reflexivity.
  - intros loaded -> Hname -> ->. cbn -[loadTemplates]. rewrite Hname.
    eexists; eexists. split; reflexivity.
Qed.

Lemma invalid_submit_calls_nothing_witness :
  let w := Spec.healthy (Spec.slot 42) (Spec.template 2 "demo" 42) [] in
  calls (Spec.attempt Spec.onCreate w Spec.initialState) = []
  /\ message (final (Spec.attempt Spec.onCreate w Spec.initialState))
     = errorMessage "模板名称不能为空".
Proof.
  intros w.
  destruct (proj1 (@invalid_submit_calls_nothing w Spec.initialState))
    as [Hcalls Hfinal].
  - reflexivity.
  - split; [exact Hcalls | rewrite Hfinal; reflexivity].
Defined.

(** X8. When the selected file cannot be read, the attempt calls nothing,
    neither the negotiator nor the registrar: it shows the upload error,
    resets the upload flag and the progress and leaves the dialog and the
    form as they were. *)
Theorem unreadable_file_aborts
    (h : Spec.Handler) (w : World) (snap : ViewState)
    (file : File) (t : Thrown) :
  uploadMode snap = new ->
  selectedFile snap = Some file ->
  arrayBuffer file = Throws t ->
  Spec.submittable h snap ->
  calls (Spec.attempt h w snap) = []
  /\ message (final (Spec.attempt h w snap))
     = errorMessage "文件上传过程中发生错误"
  /\ isUploading (final (Spec.attempt h w snap)) = false
  /\ uploadProgress (final (Spec.attempt h w snap)) = 0
  /\ isCreateModalOpen (final (Spec.attempt h w snap))
     = isCreateModalOpen snap
  /\ isEditModalOpen (final (Spec.attempt h w snap)) = isEditModalOpen snap
  /\ formData (final (Spec.attempt h w snap)) = formData snap.
Proof.
  intros Hmode Hfile Hread Hsub.
  pose proof (calculateFileHash_unreadable file Hread) as Hhash.
  unfold Spec.attempt, Spec.handler, handleUploadAndCreate,
    handleUploadAndUpdate, Spec.submittable in *.
  destruct snap as [ts pi ld msg sel co eo et fd sf up iu um fi vs vp vl].
  cbn [formData editingTemplate uploadMode selectedFile] in *. subst.
  destruct h.
  - cbn -[calculateFileHash]. rewrite Hsub. cbn -[calculateFileHash].
    rewrite Hhash. cbn. repeat split.
  - destruct et as [loaded |]; [| congruence].
    cbn -[calculateFileHash]. rewrite Hhash. cbn. repeat split.
Qed.

Lemma unreadable_file_aborts_witness :
  let gone := mkFile "demo.zip" "application/zip" 3
                (Throws (ErrorObject "NotReadableError")) in
  let snap := Spec.after [setSelectedFile (Some gone)] Spec.createWithFile in
  let w := Spec.healthy (Spec.slot 42) (Spec.template 2 "demo" 42) [] in
  calls (Spec.attempt Spec.onCreate w snap) = []
  /\ message (final (Spec.attempt Spec.onCreate w snap))
     = errorMessage "文件上传过程中发生错误".
Proof.
  intros gone snap w.
  destruct (@unreadable_file_aborts Spec.onCreate w snap gone
              (ErrorObject "NotReadableError"))
    as (Hcalls & Hmsg & _); try reflexivity.
  split; [exact Hcalls | exact Hmsg].
Defined.

(** X9. When the registrar fails, whether or not a file has just been
    uploaded, nothing is undone and nothing else is done: the failed
    create or update is the last call (the list is not reloaded), the
    banner shows the message of the backend, the upload flag and the
    progress are reset, and the dialog stays open with the form, the list
    and the selection as they were. *)
Theorem registrar_failure_keeps_dialog
    (w : World) (snap : ViewState) (m : string) :
  (forall input,
      In (call_createSoftwareTemplate input)
        (calls (Spec.attempt Spec.onCreate w snap)) ->
      w (call_createSoftwareTemplate input) = Failure m ->
      existsb Spec.isRead (calls (Spec.attempt Spec.onCreate w snap)) = false
      /\ (exists before,
            calls (Spec.attempt Spec.onCreate w snap)
            = (before ++ [call_createSoftwareTemplate input])%list)
      /\ Cover.registrationFailed snap
           (final (Spec.attempt Spec.onCreate w snap)) m)
  /\ (forall id input,
         In (call_updateSoftwareTemplate id input)
           (calls (Spec.attempt Spec.onUpdate w snap)) ->
         w (call_updateSoftwareTemplate id input) = Failure m ->
         existsb Spec.isRead (calls (Spec.attempt Spec.onUpdate w snap))
         = false
         /\ (exists before,
               calls (Spec.attempt Spec.onUpdate w snap)
               = (before ++ [call_updateSoftwareTemplate id input])%list)
         /\ Cover.registrationFailed snap
              (final (Spec.attempt Spec.onUpdate w snap)) m).
Proof.
  unfold Cover.registrationFailed, Spec.attempt, Spec.handler,
    handleUploadAndCreate, handleUploadAndUpdate.
  destruct snap as [ts pi ld msg sel co eo et fd sf up iu um fi vs vp vl].
  split; [intros input | intros id input];
    exec; intros Hin Hw; membership; same_answer;
    (split; [reflexivity |]);
    (split;
     [first [ exists []; reflexivity
            | eexists [_; _]; reflexivity ] |]);
    repeat split; reflexivity.
Qed.

Lemma registrar_failure_keeps_dialog_witness :
  let w := Spec.world (Success (Spec.slot 42)) (Success tt)
             (Failure "name already exists") (Success tt)
             (Failure "unreachable") (Failure "unreachable") in
  let sent := mkTemplateInput (Some "demo") None (Some 42) in
  existsb Spec.isRead (calls (Spec.attempt Spec.onCreate w Spec.createWithFile))
  = false
  /\ (exists before,
        calls (Spec.attempt Spec.onCreate w Spec.createWithFile)
        = (before ++ [call_createSoftwareTemplate sent])%list)
  /\ Cover.registrationFailed Spec.createWithFile
       (final (Spec.attempt Spec.onCreate w Spec.createWithFile))
       "name already exists".
Proof.
  intros w sent.
  apply (proj1 (@registrar_failure_keeps_dialog w Spec.createWithFile
                  "name already exists") sent).
  - vm_compute. right. right. left. reflexivity.
  - reflexivity.
Defined.

(** X10. When the registrar succeeds, the dialog of the handler is
    closed (and the edited template forgotten), the form is reset to its
    blank state with no file and mode 'new', the upload flag and the
    progress are reset, and the handler itself requests the list exactly
    once, for the page and the page size of the render it ran in.  This
    counts the calls of the handler alone: a reload that the page starts
    on its own afterwards, when the selection or the page has changed, is
    not a call of the attempt. *)
Theorem registrar_success_resets_and_reloads
    (w : World) (snap : ViewState) :
  (forall input created,
      In (call_createSoftwareTemplate input)
        (calls (Spec.attempt Spec.onCreate w snap)) ->
      w (call_createSoftwareTemplate input) = Success created ->
      isCreateModalOpen (final (Spec.attempt Spec.onCreate w snap)) = false
      /\ Cover.formReset (final (Spec.attempt Spec.onCreate w snap))
      /\ filter Cover.isList (calls (Spec.attempt Spec.onCreate w snap))
         = [call_listSoftwareTemplates (page (pageInfo snap))
              (pageSize (pageInfo snap))])
  /\ (forall id input,
         In (call_updateSoftwareTemplate id input)
           (calls (Spec.attempt Spec.onUpdate w snap)) ->
         w (call_updateSoftwareTemplate id input) = Success tt ->
         isEditModalOpen (final (Spec.attempt Spec.onUpdate w snap)) = false
         /\ editingTemplate (final (Spec.attempt Spec.onUpdate w snap))
            = None
         /\ Cover.formReset (final (Spec.attempt Spec.onUpdate w snap))
         /\ filter Cover.isList (calls (Spec.attempt Spec.onUpdate w snap))
            = [call_listSoftwareTemplates (page (pageInfo snap))
                 (pageSize (pageInfo snap))]).
Proof.
  unfold Cover.formReset, Spec.attempt, Spec.handler,
    handleUploadAndCreate, handleUploadAndUpdate.
  destruct snap as [ts pi ld msg sel co eo et fd sf up iu um fi vs vp vl].
  split; [intros input created | intros id input];
    exec; intros Hin Hw; membership; same_answer;
    rewrite ?loadTemplates_one_list;
    reload_frame; repeat split; reflexivity.
Qed.

Lemma registrar_success_resets_and_reloads_witness :
  let w := Spec.healthy (Spec.slot 42) (Spec.template 2 "demo" 42)
             [Spec.template 2 "demo" 42] in
  isCreateModalOpen (final (Spec.attempt Spec.onCreate w Spec.createWithFile))
  = false
  /\ Cover.formReset (final (Spec.attempt Spec.onCreate w Spec.createWithFile))
  /\ filter Cover.isList
       (calls (Spec.attempt Spec.onCreate w Spec.createWithFile))
     = [call_listSoftwareTemplates 1 10].
Proof.
  intros w.
  apply (proj1 (@registrar_success_resets_and_reloads w Spec.createWithFile)
           (mkTemplateInput (Some "demo") None (Some 42))
           (Spec.template 2 "demo" 42)).
  - vm_compute. right. right. left. reflexivity.
  - reflexivity.
Defined.

(** X11. The calls of an attempt are strictly sequential, whatever the
    backend answers: at most one negotiation, one PUT and one create or
    update, in this order; a PUT only right after a negotiation; the
    registrar either as the first call or right after the PUT; and reads
    (the reload of the list and of the versions) only after the
    registrar. *)
Theorem attempt_is_sequential
    (h : Spec.Handler) (w : World) (snap : ViewState) :
  Cover.workflowShape (calls (Spec.attempt h w snap)) = true.
Proof.
  enough (forall l, calls (Spec.attempt h w snap) = l ->
                    Cover.workflowShape l = true) as H by (now apply H).
  unfold Spec.attempt, Spec.handler, handleUploadAndCreate,
    handleUploadAndUpdate.
  destruct snap as [ts pi ld msg sel co eo et fd sf up iu um fi vs vp vl].
  destruct h;
    repeat first
      [ progress cbn -[loadTemplates Cover.workflowShape] in *
      | match goal with
        | |- context [match ?x with _ => _ end] => destruct x eqn:?
        end ];
    intros l <-; cbn -[loadTemplates];
    rewrite ?loadTemplates_only_reads; reflexivity.
Qed.

(** X12. No attempt leaves the page busy: if the upload flag was clear
    and the progress 0 when the button was pressed, they are so again when
    the attempt has ended, on every path and whatever the backend
    answers. *)
Theorem attempt_releases_upload_flag
    (h : Spec.Handler) (w : World) (snap : ViewState) :
  isUploading snap = false ->
  uploadProgress snap = 0 ->
  isUploading (final (Spec.attempt h w snap)) = false
  /\ uploadProgress (final (Spec.attempt h w snap)) = 0.
Proof.
  run_handler h snap; intros Hu Hp; subst; reload_frame; split; reflexivity.
Qed.

Lemma attempt_releases_upload_flag_witness :
  let w := Spec.healthy (Spec.slot 42) (Spec.template 2 "demo" 42)
             [Spec.template 2 "demo" 42] in
  isUploading (final (Spec.attempt Spec.onCreate w Spec.createWithFile))
  = false
  /\ uploadProgress (final (Spec.attempt Spec.onCreate w Spec.createWithFile))
     = 0.
Proof.
  intros w.
  apply (@attempt_releases_upload_flag Spec.onCreate w Spec.createWithFile);
    reflexivity.
Defined.

(** *** Reloading the list and selecting a template *)

Lemma nextTemplate_listed (selected : option Z) (l : list SoftwareTemplate)
    (t : SoftwareTemplate) :
  nextTemplate selected l = Some t -> In t l.
Proof.
  unfold nextTemplate.
  destruct selected as [sel |]; [destruct (JS.truthyNum sel) |];
    try (destruct l; cbn; [discriminate | intros [= <-]; now left]).
  destruct (find (fun t0 => id t0 =? sel) l) as [t0 |] eqn:E.
  - intros [= <-]. now apply find_some in E.
  - destruct l; cbn; [discriminate | intros [= <-]; now left].
Qed.

Lemma nextTemplate_keeps (sel : Z) (l : list SoftwareTemplate)
    (t : SoftwareTemplate) :
  sel <> 0 -> In t l -> id t = sel ->
  option_map id (nextTemplate (Some sel) l) = Some sel.
Proof.
  intros Hs Hin Hid. unfold nextTemplate, JS.truthyNum.
  apply Z.eqb_neq in Hs. rewrite Hs. cbn [negb].
  destruct (find (fun t0 => id t0 =? sel) l) as [t0 |] eqn:E.
  - apply find_some in E as [_ E]. apply Z.eqb_eq in E. cbn. now rewrite E.
  - exfalso. apply (find_none _ _ E) in Hin. apply Z.eqb_neq in Hin.
    contradiction.
Qed.

(** X13. A reload that succeeds shows the rows and the page information
    of the answer and always ends with a listed template selected: the
    template that was selected in the render of the reload if its id is
    not 0 and it is still among the rows; otherwise (nothing selected, id
    0, or an id that is no longer listed) the first row; and none only
    when the answer has no row.  A reload that fails changes neither the
    rows, the page information nor the selection and shows the message of
    the backend.  In both cases the loading flag ends cleared. *)
Theorem loadTemplates_reload (w : World) (snap st : ViewState) :
  let st' := final (run w (loadTemplates snap) st) in
  (forall listed,
      w (call_listSoftwareTemplates (page (pageInfo snap))
           (pageSize (pageInfo snap))) = Success listed ->
      templates st' = list_ listed
      /\ pageInfo st' = page_ listed
      /\ loading st' = false
      /\ (forall i, selectedTemplateId st' = Some i ->
                    exists t, In t (list_ listed) /\ id t = i)
      /\ (selectedTemplateId st' = None <-> list_ listed = [])
      /\ (forall sel t,
             selectedTemplateId snap = Some sel -> sel <> 0 ->
             In t (list_ listed) -> id t = sel ->
             selectedTemplateId st' = Some sel)
      /\ (selectedTemplateId snap = None
          \/ selectedTemplateId snap = Some 0
          \/ (exists sel,
                 selectedTemplateId snap = Some sel
                 /\ forall t, In t (list_ listed) -> id t <> sel) ->
          selectedTemplateId st' = option_map id (hd_error (list_ listed))))
  /\ (forall m,
         w (call_listSoftwareTemplates (page (pageInfo snap))
              (pageSize (pageInfo snap))) = Failure m ->
         templates st' = templates st
         /\ pageInfo st' = pageInfo st
         /\ selectedTemplateId st' = selectedTemplateId st
         /\ loading st' = false
         /\ message st' = errorMessage m
         /\ calls (run w (loadTemplates snap) st)
            = [call_listSoftwareTemplates (page (pageInfo snap))
                 (pageSize (pageInfo snap))]).
Proof.
  cbv zeta. split.
  - intros listed Hl.
    pose proof (@loadTemplates_selection w snap st listed Hl) as Hsel.
    assert (templates (final (run w (loadTemplates snap) st)) = list_ listed
            /\ pageInfo (final (run w (loadTemplates snap) st)) = page_ listed
            /\ loading (final (run w (loadTemplates snap) st)) = false)
      as (Ht & Hp & Hld).
    { unfold loadTemplates.
      destruct st as [ts pi ld msg sel co eo et fd sf up iu um fi vs vp vl].
      cbn. rewrite Hl. cbn.
      destruct (nextTemplate (selectedTemplateId snap) (list_ listed))
        as [t |]; cbn; [| repeat split].
      destruct (JS.truthyNum (archiveFileId t)); cbn; [| repeat split].
      destruct (w (call_listFileVersions _ _ _)); repeat split. }
    rewrite Hsel. repeat split; try assumption.
    + intros i Hi.
      destruct (nextTemplate (selectedTemplateId snap) (list_ listed))
        as [t |] eqn:E; [| discriminate].
      injection Hi as <-. exists t. split; [| reflexivity].
      now apply nextTemplate_listed in E.
    + intros Hn. unfold nextTemplate in Hn.
      destruct (list_ listed) as [| t l]; [reflexivity |].
      destruct (match selectedTemplateId snap with
                | Some sel =>
                    if JS.truthyNum sel
                    then find (fun t0 => id t0 =? sel) (t :: l) else None
                | None => None
                end); discriminate.
    + intros Hn. unfold nextTemplate. rewrite Hn.
      destruct (selectedTemplateId snap) as [sel |];
        [destruct (JS.truthyNum sel) |]; reflexivity.
    + intros sel t Hs Hnz Hin Hid. rewrite Hs.
      now apply nextTemplate_keeps with (t := t).
    + unfold nextTemplate.
      intros [Hn | [Hz | (sel & Hs & Hnot)]].
      * rewrite Hn. reflexivity.
      * rewrite Hz. reflexivity.
      * rewrite Hs. destruct (JS.truthyNum sel); [| reflexivity].
        destruct (find (fun t0 => id t0 =? sel) (list_ listed)) as [t0 |]
          eqn:E; [| reflexivity].
        apply find_some in E as [Hin Heq]. apply Z.eqb_eq in Heq.
        exfalso. exact (Hnot t0 Hin Heq).
  - intros m Hl. unfold loadTemplates.
    destruct st as [ts pi ld msg sel co eo et fd sf up iu um fi vs vp vl].
    cbn. rewrite Hl. cbn. repeat split.
Qed.

Lemma loadTemplates_reload_witness :
  let first := Spec.template 1 "first" 0 in
  let second := Spec.template 2 "second" 0 in
  let snap := Spec.creating [first; second] (Some 2) "" in
  let w := Spec.healthy (Spec.slot 42) second [first; second] in
  let gone := Spec.creating [first; second] (Some 9) "" in
  templates (final (run w (loadTemplates snap) snap)) = [first; second]
  /\ selectedTemplateId (final (run w (loadTemplates snap) snap)) = Some 2
  /\ selectedTemplateId (final (run w (loadTemplates gone) gone)) = Some 1.
Proof.
  intros first second snap w gone.
  destruct (proj1 (@loadTemplates_reload w snap snap)
              (mkListing [first; second] (mkPageInfo 1 10 2)) eq_refl)
    as (Ht & _ & _ & _ & _ & Hkeep & _).
  destruct (proj1 (@loadTemplates_reload w gone gone)
              (mkListing [first; second] (mkPageInfo 1 10 2)) eq_refl)
    as (_ & _ & _ & _ & _ & _ & Hfirst).
  split; [exact Ht |]. split.
  - apply (Hkeep 2 second); [reflexivity | lia | | reflexivity].
    right. left. reflexivity.
  - apply Hfirst. right. right. exists 9. split; [reflexivity |].
    intros t [<- | [<- | []]]; discriminate.
Defined.

(** X14. Selecting a template sets the selection to its id, and the
    versions shown afterwards are never those of another file: for no
    template or a template without archive nothing is called and the
    table is emptied and reset to page 1 of 20 rows; for a template with
    an archive exactly one listing is requested, page 1 of that archive
    with the page size in use, and the table ends with the rows of the
    answer, or empty with the error of the backend in the banner.  The
    loading flag always ends cleared. *)
Theorem selectTemplate_versions
    (w : World) (snap st : ViewState) (template : option SoftwareTemplate) :
  let o := run w (selectTemplate snap template) st in
  selectedTemplateId (final o) = option_map id template
  /\ versionsLoading (final o) = false
  /\ (match template with
      | Some t => archiveFileId t = 0
      | None => True
      end ->
      calls o = []
      /\ versions (final o) = []
      /\ versionsPageInfo (final o) = mkPageInfo 1 20 0)
  /\ (forall t,
         template = Some t -> archiveFileId t <> 0 ->
         let request :=
           call_listFileVersions (archiveFileId t) 1
             (pageSize (versionsPageInfo snap)) in
         calls o = [request]
         /\ (forall data,
                w request = Success data ->
                versions (final o) = list_ data
                /\ versionsPageInfo (final o) = page_ data)
         /\ (forall m,
                w request = Failure m ->
                versions (final o) = []
                /\ message (final o) = errorMessage m
                /\ versionsPageInfo (final o)
                   = mkPageInfo 1 (pageSize (versionsPageInfo st)) 0)).
Proof.
  cbv zeta. unfold selectTemplate, JS.truthyNum.
  destruct st as [ts pi ld msg sel co eo et fd sf up iu um fi vs vp vl].
  destruct template as [t |]; cbn.
  - destruct (archiveFileId t =? 0) eqn:E; cbn.
    + apply Z.eqb_eq in E. repeat split; intros; congruence.
    + apply Z.eqb_neq in E.
      destruct (w (call_listFileVersions _ _ _)) as [data | m] eqn:Ew;
        cbn; repeat split; intros; try congruence;
        match goal with
        | H : Some _ = Some _ |- _ => injection H as <-
        end;
        rewrite Ew in *; congruence.
  - repeat split; intros; congruence.
Qed.

Lemma selectTemplate_versions_witness :
  let t := Spec.template 1 "first" 42 in
  let w := Spec.healthy (Spec.slot 42) t [t] in
  let o :=
    run w (selectTemplate Spec.initialState (Some t)) Spec.initialState in
  calls o = [call_listFileVersions 42 1 20]
  /\ versions (final o) = [].
Proof.
  intros t w o.
  assert (Hne : archiveFileId t <> 0) by (vm_compute; discriminate).
  destruct (proj2 (proj2 (proj2
              (@selectTemplate_versions w Spec.initialState
                 Spec.initialState (Some t)))) t eq_refl Hne)
    as (Hc & Hs & _).
  split; [exact Hc |].
  exact (proj1 (Hs (mkListing [] (mkPageInfo 1 20 0)) eq_refl)).
Defined.

(** *** Numbers written and read back *)

Lemma parseDigits_numeral (d : Decimal.uint) (acc : Z) :
  JS.parseDigits (NilEmpty.string_of_uint d) (Some acc)
  = Some (Numeral.value d acc).
Proof.
  revert acc. induction d; intros acc; cbn [NilEmpty.string_of_uint];
    [reflexivity | ..];
    cbn [JS.parseDigits]; change (JS.isDigit _) with true; cbv iota;
    rewrite IHd; reflexivity.
Qed.

Lemma of_uint_acc_value (d : Decimal.uint) (acc : positive) :
  Z.pos (Pos.of_uint_acc d acc) = Numeral.value d (Z.pos acc).
Proof.
  revert acc. induction d; intros acc; cbn [Pos.of_uint_acc Numeral.value];
    [reflexivity | ..]; rewrite IHd; f_equal; lia.
Qed.

Lemma of_uint_value (d : Decimal.uint) :
  Z.of_N (Pos.of_uint d) = Numeral.value d 0.
Proof.
  induction d; cbn [Pos.of_uint Numeral.value]; [reflexivity | exact IHd | ..];
    cbn [Z.of_N]; rewrite of_uint_acc_value; reflexivity.
Qed.

Lemma parseInt_numeral (d : Decimal.uint) :
  d <> Decimal.Nil ->
  JS.parseInt (NilEmpty.string_of_uint d) = Some (Numeral.value d 0)
  /\ JS.parseInt (String "-" (NilEmpty.string_of_uint d))
     = Some (- Numeral.value d 0).
Proof.
  intros Hd. unfold JS.parseInt.
  destruct d; [congruence | ..];
    cbn [NilEmpty.string_of_uint JS.trimStart];
    change (JS.isWhiteSpace _) with false; cbv iota;
    cbn [JS.parseDigits]; change (JS.isDigit _) with true; cbv iota;
    rewrite parseDigits_numeral; split; reflexivity.
Qed.

(** [parseInt(String(n), 10)] is [n] for every integer. *)
Lemma parseInt_stringOfNumber (n : Z) :
  JS.parseInt (JS.stringOfNumber n) = Some n.
Proof.
  unfold JS.stringOfNumber.
  destruct n as [| p | p]; [reflexivity | |];
    cbn [Z.to_int NilZero.string_of_int];
    pose proof (Unsigned.to_uint_nonnil p) as Hn;
    pose proof (DecimalPos.Unsigned.of_to p) as Hp;
    apply (f_equal Z.of_N) in Hp; rewrite of_uint_value in Hp;
    destruct (parseInt_numeral Hn) as [Hpos Hneg];
    unfold NilZero.string_of_uint;
    destruct (Pos.to_uint p) eqn:E; try congruence;
    rewrite ?Hpos, ?Hneg, Hp; reflexivity.
Qed.

(* ------------------------------------------------------------------ *)
(** ** The stored session *)
(* ------------------------------------------------------------------ *)

Lemma stringOfNumber_truthy (n : Z) :
  JS.truthy (JS.stringOfNumber n) = true.
Proof.
  pose proof (parseInt_stringOfNumber n) as H.
  destruct (JS.stringOfNumber n); [discriminate H | reflexivity].
Qed.

Lemma stored_local (st : Session.Storages) (key : string) :
  truthyItem (Session.localStorage st key) = true ->
  Session.stored st key = Session.localStorage st key.
Proof. unfold Session.stored. intros ->. reflexivity. Qed.

Lemma stored_session (st : Session.Storages) (key : string) :
  truthyItem (Session.localStorage st key) = false ->
  Session.stored st key = Session.sessionStorage st key.
Proof. unfold Session.stored. intros ->. reflexivity. Qed.

(** The storages after an accepted login. *)
Lemma written_accepted (f : LoginSubmit.LoginFormState)
    (login : LoginPage.LoginInput -> ApiResult LoginPage.LoginData)
    (data : LoginPage.LoginData) (st : Session.Storages) :
  JS.truthy (LoginSubmit.form_username f) = true ->
  JS.truthy (LoginSubmit.form_password f) = true ->
  login (LoginPage.mkLoginInput (LoginSubmit.form_username f)
           (LoginSubmit.form_password f)) = Success data ->
  let s := if LoginSubmit.rememberMe f then Session.local
           else Session.session in
  LoginSubmit.written (LoginSubmit.handleSubmit f login) st
  = Session.setItem s "sparkx_admin_role" (LoginPage.role data)
      (Session.setItem s "sparkx_admin_id"
         (JS.stringOfNumber (LoginPage.adminId data))
         (Session.setItem s "sparkx_admin_token" (LoginPage.token data)
            st)).
Proof.
  intros Hu Hp Hl. unfold LoginSubmit.handleSubmit.
  rewrite Hu, Hp, Hl. reflexivity.
Qed.

(** X15. A page opened after an accepted login is not sent back to the
    login form and its wrappers send the token of that login, provided
    the token is not empty and either the login was remembered or
    localStorage holds no token of an earlier login. *)
Theorem login_then_guard_passes
    (f : LoginSubmit.LoginFormState)
    (login : LoginPage.LoginInput -> ApiResult LoginPage.LoginData)
    (data : LoginPage.LoginData) (st : Session.Storages) :
  JS.truthy (LoginSubmit.form_username f) = true ->
  JS.truthy (LoginSubmit.form_password f) = true ->
  login (LoginPage.mkLoginInput (LoginSubmit.form_username f)
           (LoginSubmit.form_password f)) = Success data ->
  JS.truthy (LoginPage.token data) = true ->
  (LoginSubmit.rememberMe f = true
   \/ truthyItem (Session.localStorage st "sparkx_admin_token") = false) ->
  let st' := LoginSubmit.written (LoginSubmit.handleSubmit f login) st in
  Session.authGuard st' = None
  /\ forall T base network,
       SoftwareTemplatesPage.getAuthToken
         (Session.browser (T:=T) st' base network)
       = Normal (Some (LoginPage.token data)).
Proof.
  intros Hu Hp Hl Ht Hs st'. subst st'.
  rewrite (written_accepted f login st Hu Hp Hl).
  unfold Session.authGuard, Session.stored, SoftwareTemplatesPage.getAuthToken.
  destruct (LoginSubmit.rememberMe f).
  - cbn. rewrite Ht. cbn. rewrite Ht. split; reflexivity.
  - destruct Hs as [Hs | Hs]; [discriminate |].
    revert Hs. unfold truthyItem. cbn.
    destruct (Session.localStorage st "sparkx_admin_token") as [t |];
      [intros -> |]; cbn; rewrite Ht; split; reflexivity.
Qed.

Lemma login_then_guard_passes_witness :
  let st' :=
    LoginSubmit.written
      (LoginSubmit.handleSubmit (LoginSubmit.demoForm false)
         LoginSubmit.accepting) Session.empty in
  Session.authGuard st' = None
  /\ forall T base network,
       SoftwareTemplatesPage.getAuthToken
         (Session.browser (T:=T) st' base network)
       = Normal (Some "tok").
Proof.
  apply (@login_then_guard_passes (LoginSubmit.demoForm false)
           LoginSubmit.accepting LoginSubmit.demoData Session.empty);
    [reflexivity | reflexivity | reflexivity | reflexivity
    | right; reflexivity].
Defined.

(** X16. The admin id written by an accepted login (adminId.toString())
    is read back as the same number by the pages (parseInt(adminId, 10)),
    with the role: for an integer id below 1e21, where toString() prints
    plain digits, a role that is not empty, and a login that was
    remembered or a localStorage without id and role of an earlier
    login. *)
Theorem login_then_adminInfo
    (f : LoginSubmit.LoginFormState)
    (login : LoginPage.LoginInput -> ApiResult LoginPage.LoginData)
    (data : LoginPage.LoginData) (st : Session.Storages) :
  JS.truthy (LoginSubmit.form_username f) = true ->
  JS.truthy (LoginSubmit.form_password f) = true ->
  login (LoginPage.mkLoginInput (LoginSubmit.form_username f)
           (LoginSubmit.form_password f)) = Success data ->
  JS.truthy (LoginPage.role data) = true ->
  Z.abs (LoginPage.adminId data) < 10 ^ 21 ->
  (LoginSubmit.rememberMe f = true
   \/ (truthyItem (Session.localStorage st "sparkx_admin_id") = false
       /\ truthyItem (Session.localStorage st "sparkx_admin_role") = false))
  ->
  Session.adminInfo
    (LoginSubmit.written (LoginSubmit.handleSubmit f login) st)
  = Some (Session.mkAdminInfo (Some (LoginPage.adminId data))
            (LoginPage.role data)).
Proof.
  intros Hu Hp Hl Hr _ Hs.
  rewrite (written_accepted f login st Hu Hp Hl).
  pose proof (stringOfNumber_truthy (LoginPage.adminId data)) as Hn.
  pose proof (parseInt_stringOfNumber (LoginPage.adminId data)) as Hi.
  unfold Session.adminInfo, Session.stored.
  destruct (LoginSubmit.rememberMe f).
  - cbn. rewrite Hn, Hr. cbn. rewrite Hn, Hr, Hi. reflexivity.
  - destruct Hs as [Hs | [Hid Hrole]]; [discriminate |].
    revert Hid Hrole. unfold truthyItem. cbn.
    destruct (Session.localStorage st "sparkx_admin_id") as [i |];
      destruct (Session.localStorage st "sparkx_admin_role") as [r |];
      intros; subst; cbn; rewrite ?Hid, ?Hrole; cbn;
      rewrite Hn, Hr, Hi; reflexivity.
Qed.

Lemma login_then_adminInfo_witness :
  Session.adminInfo
    (LoginSubmit.written
       (LoginSubmit.handleSubmit (LoginSubmit.demoForm true)
          LoginSubmit.accepting) Session.empty)
  = Some (Session.mkAdminInfo (Some 7) "super_admin").
Proof.
  apply (@login_then_adminInfo (LoginSubmit.demoForm true)
           LoginSubmit.accepting LoginSubmit.demoData Session.empty);
    [reflexivity | reflexivity | reflexivity | reflexivity
    | vm_compute; reflexivity | left; reflexivity].
Defined.

Lemma written_session_only (f : LoginSubmit.LoginFormState)
    (login : LoginPage.LoginInput -> ApiResult LoginPage.LoginData)
    (st : Session.Storages) :
  LoginSubmit.rememberMe f = false ->
  Session.localStorage
    (LoginSubmit.written (LoginSubmit.handleSubmit f login) st)
  = Session.localStorage st.
Proof.
  intros Hr. unfold LoginSubmit.handleSubmit. rewrite Hr.
  destruct (negb (JS.truthy (LoginSubmit.form_username f))
            || negb (JS.truthy (LoginSubmit.form_password f)))%bool;
    [reflexivity |].
  destruct (login _); reflexivity.
Qed.

(** X17. A login that is not remembered writes to sessionStorage only,
    and every reader takes localStorage first: a token, id or role left
    in localStorage by an earlier remembered login is what the pages keep
    reading after the new login, whatever the backend answered. *)
Theorem session_login_shadowed
    (f : LoginSubmit.LoginFormState)
    (login : LoginPage.LoginInput -> ApiResult LoginPage.LoginData)
    (st : Session.Storages) (key : string) :
  LoginSubmit.rememberMe f = false ->
  truthyItem (Session.localStorage st key) = true ->
  let st' := LoginSubmit.written (LoginSubmit.handleSubmit f login) st in
  Session.stored st' key = Session.localStorage st key
  /\ (key = "sparkx_admin_token" ->
      forall T base network,
        SoftwareTemplatesPage.getAuthToken
          (Session.browser (T:=T) st' base network)
        = Normal (Session.localStorage st key)).
Proof.
  intros Hr Hk st'. subst st'.
  pose proof (written_session_only f login st Hr) as Hw.
  split.
  - unfold Session.stored. rewrite Hw, Hk. reflexivity.
  - intros -> T base network.
    unfold SoftwareTemplatesPage.getAuthToken, bind.
    cbn [Session.browser localStorage_getItem].
    rewrite Hw, Hk. reflexivity.
Qed.

Lemma session_login_shadowed_witness :
  let st :=
    Session.setItem Session.local "sparkx_admin_token" "old"
      Session.empty in
  let st' :=
    LoginSubmit.written
      (LoginSubmit.handleSubmit (LoginSubmit.demoForm false)
         LoginSubmit.accepting) st in
  Session.stored st' "sparkx_admin_token" = Some "old"
  /\ Session.sessionStorage st' "sparkx_admin_token" = Some "tok".
Proof.
  split; [| reflexivity].
  apply (proj1
           (@session_login_shadowed (LoginSubmit.demoForm false)
              LoginSubmit.accepting
              (Session.setItem Session.local "sparkx_admin_token" "old"
                 Session.empty)
              "sparkx_admin_token" eq_refl eq_refl)).
Defined.

(** X18. A login that is not accepted stores nothing and never
    navigates: with an empty user name or password the backend is not
    even called, and in every such case the handler ends by showing an
    error message, after clearing the submitting flag if it was set. *)
Theorem rejected_login_stores_nothing
    (f : LoginSubmit.LoginFormState)
    (login : LoginPage.LoginInput -> ApiResult LoginPage.LoginData)
    (st : Session.Storages) :
  let blank :=
    (negb (JS.truthy (LoginSubmit.form_username f))
     || negb (JS.truthy (LoginSubmit.form_password f)))%bool in
  let effects := LoginSubmit.handleSubmit f login in
  (blank = true
   \/ exists m,
        login (LoginPage.mkLoginInput (LoginSubmit.form_username f)
                 (LoginSubmit.form_password f)) = Failure m) ->
  LoginSubmit.written effects st = st
  /\ existsb LoginSubmit.isWrite effects = false
  /\ existsb LoginSubmit.isNavigation effects = false
  /\ existsb LoginSubmit.isCall effects = negb blank
  /\ LoginSubmit.isError (last effects (LoginSubmit.setMessage None)) = true
  /\ (blank = false ->
      exists before,
        effects
        = (before ++ [LoginSubmit.setIsSubmitting false;
                      last effects (LoginSubmit.setMessage None)])%list).
Proof.
  cbv zeta. unfold LoginSubmit.handleSubmit.
  destruct (negb (JS.truthy (LoginSubmit.form_username f))
            || negb (JS.truthy (LoginSubmit.form_password f)))%bool.
  - intros _. cbn. repeat split; try reflexivity. discriminate.
  - intros [Hb | [m Hm]]; [discriminate |]. rewrite Hm. cbn.
    repeat split; try reflexivity.
    intros _. eexists [_; _; _]. reflexivity.
Qed.

Lemma rejected_login_stores_nothing_witness :
  LoginSubmit.written
    (LoginSubmit.handleSubmit (LoginSubmit.demoForm true)
       LoginSubmit.refusing) Session.empty
  = Session.empty.
Proof.
  apply (proj1
           (@rejected_login_stores_nothing (LoginSubmit.demoForm true)
              LoginSubmit.refusing Session.empty
              (or_intror (ex_intro _ "invalid credentials" eq_refl)))).
Defined.

(** X19. Logging out removes the three credentials from both storages
    and nothing else, and navigates to the login form; afterwards no
    admin is shown, the guard of every page sends back to the login form
    and the wrappers send no token. *)
Theorem logout_clears_session (st : Session.Storages) :
  let st' := fst (Session.handleLogout st) in
  snd (Session.handleLogout st) = "/login"
  /\ (forall s key,
         Session.getItem s st' key
         = if Session.isCredential key then None
           else Session.getItem s st key)
  /\ Session.authGuard st' = Some "/login"
  /\ Session.adminInfo st' = None
  /\ forall T base network,
       SoftwareTemplatesPage.getAuthToken
         (Session.browser (T:=T) st' base network)
       = Normal None.
Proof.
  cbv zeta. split; [reflexivity |]. split.
  - intros s key. unfold Session.isCredential, Session.credentialKeys.
    cbn [existsb]. destruct s; cbn -[String.eqb]; unfold Session.put;
      destruct (String.eqb key "sparkx_admin_role");
      destruct (String.eqb key "sparkx_admin_id");
      destruct (String.eqb key "sparkx_admin_token"); reflexivity.
  - repeat split; reflexivity.
Qed.

(* ------------------------------------------------------------------ *)
(** ** Choosing a file *)
(* ------------------------------------------------------------------ *)

Lemma noChar_app (c : ascii) (a b : string) :
  Cover.noChar c (a ++ b) = (Cover.noChar c a && Cover.noChar c b)%bool.
Proof.
  induction a as [| x a IH]; cbn; [reflexivity |].
  rewrite IH. now rewrite andb_assoc.
Qed.

Lemma plainTail_dotted (a b : string) :
  FileSelect.plainTail (a ++ String "." b) = false.
Proof.
  unfold FileSelect.plainTail. rewrite noChar_app. cbn.
  rewrite andb_false_r, andb_false_r. reflexivity.
Qed.

Lemma removeExtension_noDot (name : string) :
  Cover.noChar "." name = true -> FileSelect.removeExtension name = name.
Proof.
  induction name as [| c r IH]; cbn; [reflexivity |].
  destruct (Ascii.eqb c "."); cbn; [discriminate |].
  intros H. now rewrite (IH H).
Qed.

Lemma removeExtension_dotted (base ext : string) :
  Cover.noChar "." ext = true ->
  FileSelect.removeExtension (base ++ String "." ext)
  = if FileSelect.plainTail ext then base else base ++ String "." ext.
Proof.
  intros H. induction base as [| c r IH]; cbn [String.append].
  - cbn. destruct (FileSelect.plainTail ext); [reflexivity |].
    now rewrite (removeExtension_noDot _ H).
  - cbn [FileSelect.removeExtension]. rewrite plainTail_dotted.
    rewrite andb_false_r, IH.
    destruct (FileSelect.plainTail ext); reflexivity.
Qed.

Lemma removeExtension_prefix (name : string) :
  exists rest, name = FileSelect.removeExtension name ++ rest.
Proof.
  induction name as [| c r [rest IH]]; cbn; [now exists "" |].
  destruct (Ascii.eqb c "." && FileSelect.plainTail r)%bool.
  - now exists (String c r).
  - exists rest. cbn. now rewrite <- IH.
Qed.

(** X20. The name that choosing a file proposes is the file name without
    what follows its last dot: a name without a dot is kept; of a name
    [base.ext], where [ext] has no dot, [base] is left when [ext] is not
    empty and has no slash, and the whole name otherwise; so a name that
    starts with its only dot leaves the empty name.  What is left is
    always a prefix of the file name, and together with the extension
    that the category is looked up with it makes up the file name again,
    but for the case of the letters. *)
Theorem removeExtension_last_dot (name base ext : string) :
  (Cover.noChar "." name = true -> FileSelect.removeExtension name = name)
  /\ (Cover.noChar "." ext = true ->
      FileSelect.removeExtension (base ++ "." ++ ext)
      = if FileSelect.plainTail ext then base else base ++ "." ++ ext)
  /\ (FileSelect.plainTail ext = true ->
      JS.toLowerCase
        (FileSelect.removeExtension (base ++ "." ++ ext) ++ "."
         ++ SoftwareTemplatesPage.getFileExtension (base ++ "." ++ ext))
      = JS.toLowerCase (base ++ "." ++ ext))
  /\ exists rest, name = FileSelect.removeExtension name ++ rest.
Proof.
  split; [apply removeExtension_noDot |].
  split; [apply removeExtension_dotted |].
  split; [| apply removeExtension_prefix].
  intros H. pose proof H as Hp. unfold FileSelect.plainTail in Hp.
  apply andb_true_iff in Hp as [Hp _]. apply andb_true_iff in Hp as [_ Hd].
  cbn [String.append]. rewrite (@removeExtension_dotted base ext Hd), H.
  unfold SoftwareTemplatesPage.getFileExtension.
  destruct (split_after_separator "." base ext) as [Hlen Hlast].
  apply Nat.ltb_lt in Hlen. rewrite Hlen, Hlast.
  rewrite (split_no_separator _ _ Hd). cbn [last].
  clear. induction base as [| c r IH]; cbn.
  - f_equal. induction ext as [| x e IHe]; cbn; [reflexivity |].
    rewrite IHe. f_equal.
    destruct x as [[] [] [] [] [] [] [] []]; reflexivity.
  - now rewrite IH.
Qed.

Lemma removeExtension_last_dot_witness :
  FileSelect.removeExtension "LICENSE" = "LICENSE"
  /\ FileSelect.removeExtension "site.v2.zip" = "site.v2"
  /\ FileSelect.removeExtension ".gitignore" = "".
Proof.
  split; [| split].
  - apply (proj1 (@removeExtension_last_dot "LICENSE" "" "")).
    reflexivity.
  - apply (proj1 (proj2 (@removeExtension_last_dot "" "site.v2" "zip"))).
    reflexivity.
  - apply (proj1 (proj2 (@removeExtension_last_dot "" "" "gitignore"))).
    reflexivity.
Defined.

(** X21. Choosing no file changes nothing.  Choosing a file makes it the
    selected file and touches nothing but the name of the form: a name
    that was typed (not blank in the render that handles the event) is
    never overwritten, and a blank one is replaced by the file name
    without its extension; description, archive id, upload mode and
    everything else on the page stay as they are. *)
Theorem handleFileSelect_prefills_name
    (snap st : ViewState) (file : option File) :
  let st' := FileSelect.handleFileSelect snap file st in
  match file with
  | None => st' = st
  | Some f =>
      st' = applySet (setFormData (formData st'))
              (applySet (setSelectedFile (Some f)) st)
      /\ fd_description (formData st') = fd_description (formData st)
      /\ fd_archiveFileId (formData st') = fd_archiveFileId (formData st)
      /\ fd_name (formData st')
         = if Cover.notBlank (fd_name (formData snap))
           then fd_name (formData st)
           else FileSelect.removeExtension (fileName f)
  end.
Proof.
  cbv zeta. unfold FileSelect.handleFileSelect, Cover.notBlank.
  destruct file as [f |]; [| reflexivity].
  destruct st as [ts pi ld msg sel co eo et fd sf up iu um fi vs vp vl].
  destruct (JS.truthy (JS.trim (fd_name (formData snap)))); cbn;
    repeat split; reflexivity.
Qed.

(* ------------------------------------------------------------------ *)
(** ** The dialogs of the LLM and agent pages *)
(* ------------------------------------------------------------------ *)

Lemma eqb_trimmed (s : string) :
  (JS.trim s =? s)%string = true <-> JS.trim s = s.
Proof. apply String.eqb_eq. Qed.

Lemma trimmed_trim (s : string) : LlmForms.trimmed (JS.trim s) = true.
Proof.
  unfold LlmForms.trimmed. rewrite trim_idempotent. apply String.eqb_refl.
Qed.

(** X22. Opening the provider dialog on a provider and saving it
    untouched sends an update without any field exactly when the name of
    the provider is not blank and its name, base URL and description
    carry no surrounding white space; the API key is never part of the
    form that is opened. *)
Theorem provider_untouched_edit_sends_nothing (p : LlmProvider) :
  let '(mode, editing, form) := LlmForms.openEditProvider p in
  pf_apiKey form = "" /\ pf_clearApiKey form = false
  /\ (submitProvider mode editing form
      = UpdateOf (p_id p) LlmForms.noProviderUpdate
      <-> Cover.notBlank (p_name p) = true
          /\ JS.trim (p_name p) = p_name p
          /\ JS.trim (p_baseUrl p) = p_baseUrl p
          /\ JS.trim (p_description p) = p_description p).
Proof.
  cbn -[JS.trim]. split; [reflexivity |]. split; [reflexivity |].
  unfold submitProvider, Cover.notBlank, LlmForms.noProviderUpdate.
  cbn -[JS.trim].
  rewrite orElse_empty.
  destruct (JS.truthy (JS.trim (p_name p))); cbn -[JS.trim].
  2:{ split; [discriminate | intros [H _]; discriminate]. }
  destruct (String.eqb_spec (JS.trim (p_name p)) (p_name p)) as [En | En];
    destruct (String.eqb_spec (JS.trim (p_baseUrl p)) (p_baseUrl p))
      as [Eb | Eb];
    destruct (String.eqb_spec (JS.trim (p_description p))
                (p_description p)) as [Ed | Ed];
    cbn -[JS.trim]; split;
    try (intros H; discriminate H);
    try (intros _; repeat split; assumption);
    try (intros _; reflexivity);
    intros (_ & H1 & H2 & H3); contradiction.
Qed.

Lemma provider_untouched_edit_sends_nothing_witness :
  submitProvider edit
    (Some (mkLlmProvider 1 "openai" "https://api.openai.com/v1" true "main"
             "2025-01-01T00:00:00Z" "2025-01-01T00:00:00Z"))
    (mkProviderForm "openai" "https://api.openai.com/v1" "main" "" false)
  = UpdateOf 1 LlmForms.noProviderUpdate.
Proof.
  apply (proj2
           (proj2
              (proj2
                 (provider_untouched_edit_sends_nothing
                    (mkLlmProvider 1 "openai" "https://api.openai.com/v1"
                       true "main" "2025-01-01T00:00:00Z"
                       "2025-01-01T00:00:00Z"))))).
  repeat split; reflexivity.
Defined.

Lemma sent_empty (next loaded : string) :
  (if negb (next =? loaded)%string then Some next else None) = Some ""
  <-> next = "" /\ loaded <> "".
Proof.
  destruct (String.eqb_spec next loaded) as [E | E]; cbn [negb]; split.
  - discriminate.
  - intros [-> H]. congruence.
  - intros [= ->]. split; [reflexivity | congruence].
  - intros [-> _]. reflexivity.
Qed.

(** X23. Whatever the provider form holds, every text that it sends is
    trimmed.  A new provider has a name that is not blank, and its
    optional texts (API key, description) are left out rather than sent
    empty.  An update never sends an empty name or API key, never carries
    both an API key and the request to clear it (and the request is never
    sent as false), and goes to the provider that the dialog was opened
    on; it does send an empty base URL or description, exactly when that
    field of the form is blank while the loaded provider has one, which
    clears the field.  A form is turned down exactly when its name is
    blank. *)
Theorem provider_payload_wellformed
    (mode : ModalMode) (editing : option LlmProvider) (form : ProviderForm) :
  match submitProvider mode editing form with
  | Create p =>
      forallb LlmForms.trimmed (LlmForms.textsOfCreate p) = true
      /\ Cover.notBlank (pf_name form) = true
      /\ JS.truthy (pc_name p) = true
      /\ pc_apiKey p <> Some ""
      /\ pc_description p <> Some ""
  | UpdateOf id p =>
      forallb LlmForms.trimmed (LlmForms.textsOfUpdate p) = true
      /\ Cover.notBlank (pf_name form) = true
      /\ upd_name p <> Some ""
      /\ upd_apiKey p <> Some ""
      /\ (upd_apiKey p = None \/ upd_clearApiKey p = None)
      /\ upd_clearApiKey p <> Some false
      /\ option_map p_id editing = Some id
      /\ (forall loaded,
             editing = Some loaded ->
             (upd_baseUrl p = Some ""
              <-> JS.trim (pf_baseUrl form) = "" /\ p_baseUrl loaded <> "")
             /\ (upd_description p = Some ""
                 <-> JS.trim (pf_description form) = ""
                     /\ p_description loaded <> ""))
  | Rejected _ => Cover.notBlank (pf_name form) = false
  | Ignored => mode = edit /\ editing = None
  end.
Proof.
  unfold submitProvider, Cover.notBlank.
  destruct (JS.truthy (JS.trim (pf_name form))) eqn:Hn; cbn -[JS.trim];
    [| reflexivity].
  destruct mode.
  - unfold LlmForms.textsOfCreate. cbn -[JS.trim].
    destruct (JS.truthy (JS.trim (pf_apiKey form))) eqn:Hk;
      destruct (JS.truthy (JS.trim (pf_description form))) eqn:Hd;
      cbn -[JS.trim]; rewrite ?trimmed_trim; cbn -[JS.trim];
      repeat split; try reflexivity; try discriminate; try assumption;
      intros [= E]; rewrite E in *; discriminate.
  - destruct editing as [e |]; [| split; reflexivity].
    unfold LlmForms.textsOfUpdate. cbn -[JS.trim].
    rewrite orElse_empty.
    repeat match goal with |- _ /\ _ => split end;
      try (intros loaded [= <-]; split; apply sent_empty);
      destruct (negb (JS.trim (pf_name form) =? p_name e)%string);
      destruct (negb (JS.trim (pf_baseUrl form) =? p_baseUrl e)%string);
      destruct (negb (JS.trim (pf_description form)
                      =? p_description e)%string);
      destruct (pf_clearApiKey form);
      destruct (JS.truthy (JS.trim (pf_apiKey form))) eqn:Hk;
      cbn -[JS.trim]; rewrite ?trimmed_trim; cbn -[JS.trim];
      try reflexivity; try discriminate;
      try (left; reflexivity); try (right; reflexivity);
      intros [= E]; rewrite E in *; discriminate.
Qed.

Lemma clampInt_nonneg (n : option Z) : 0 <= clampInt n.
Proof. destruct n; cbn; lia. Qed.

(** X24. What the model form sends is within bounds: the provider id of
    a new model is a positive number and its token limits are never
    negative (text that is not a number counts as 0), its name is trimmed
    and not blank; an update carries a provider id or a token limit only
    within the same bounds, and goes to the model that the dialog was
    opened on.  A form is turned down exactly when the provider id is not
    a positive number or the name is blank. *)
Theorem model_payload_bounds
    (Num : Type) (parseFloat : string -> option Num) (zero : Num)
    (max0 : Num -> Num) (strictEq : Num -> Num -> bool)
    (mode : ModalMode) (editing : option (LlmModel Num))
    (form : ModelForm) :
  let valid :=
    (match JS.parseInt (mf_providerId form) with
     | Some n => 0 <? n
     | None => false
     end && Cover.notBlank (mf_modelName form))%bool in
  match submitModel parseFloat zero max0 strictEq mode editing form with
  | Create p =>
      valid = true
      /\ JS.parseInt (mf_providerId form) = Some (mc_providerId p)
      /\ 0 < mc_providerId p
      /\ 0 <= mc_maxInputTokens p
      /\ 0 <= mc_maxOutputTokens p
      /\ LlmForms.trimmed (mc_modelName p) = true
      /\ JS.truthy (mc_modelName p) = true
  | UpdateOf id p =>
      valid = true
      /\ option_map (@m_id Num) editing = Some id
      /\ match mu_providerId p with Some n => 0 < n | None => True end
      /\ match mu_maxInputTokens p with Some n => 0 <= n | None => True end
      /\ match mu_maxOutputTokens p with Some n => 0 <= n | None => True end
      /\ match mu_modelName p with
         | Some s => LlmForms.trimmed s = true /\ JS.truthy s = true
         | None => True
         end
  | Rejected _ => valid = false
  | Ignored => valid = true /\ mode = edit /\ editing = None
  end.
Proof.
  cbv zeta. unfold submitModel, Cover.notBlank.
  destruct (JS.parseInt (mf_providerId form)) as [n |]; [| reflexivity].
  replace (0 <? n) with (negb (n <=? 0)) by
    (destruct (Z.leb_spec n 0); destruct (Z.ltb_spec 0 n); cbn; lia).
  destruct (Z.leb_spec n 0) as [Hn | Hn]; [reflexivity |].
  destruct (JS.truthy (JS.trim (mf_modelName form))) eqn:Hname;
    cbn -[JS.trim]; [| reflexivity].
  destruct mode.
  - cbn -[JS.trim]. rewrite trimmed_trim.
    repeat split; try reflexivity; try assumption;
      apply clampInt_nonneg.
  - destruct editing as [e |]; [| repeat split].
    cbn -[JS.trim]. unfold changed.
    split; [reflexivity |]. split; [reflexivity |].
    split; [destruct (negb (n =? m_providerId e)); [assumption | exact I] |].
    split; [destruct (negb _); [apply clampInt_nonneg | exact I] |].
    split; [destruct (negb _); [apply clampInt_nonneg | exact I] |].
    destruct (negb _); [| exact I].
    split; [apply trimmed_trim | assumption].
Qed.

(** X25. Opening the model dialog on a model and saving it untouched
    sends an update without any field, provided the model is one that the
    form can hold: a positive provider id, token limits that are not
    negative (all three below 1e21, where String() prints plain digits), a
    name that is not blank and has no surrounding white space, and prices
    that String() and parseFloat() give back unchanged. *)
Theorem model_untouched_edit_sends_nothing
    (Num : Type) (parseFloat : string -> option Num) (zero : Num)
    (max0 : Num -> Num) (strictEq : Num -> Num -> bool)
    (toString : Num -> string) (m : LlmModel Num) :
  0 < m_providerId m < 10 ^ 21 ->
  0 <= m_maxInputTokens m < 10 ^ 21 ->
  0 <= m_maxOutputTokens m < 10 ^ 21 ->
  Cover.notBlank (m_modelName m) = true ->
  JS.trim (m_modelName m) = m_modelName m ->
  LlmForms.faithfulPrice parseFloat max0 strictEq toString
    (m_priceInputPer1k m) ->
  LlmForms.faithfulPrice parseFloat max0 strictEq toString
    (m_priceOutputPer1k m) ->
  let '(mode, editing, form) := LlmForms.openEditModel toString m in
  submitModel parseFloat zero max0 strictEq mode editing form
  = UpdateOf (m_id m) (LlmForms.noModelUpdate Num).
Proof.
  intros Hp Hi Ho Hn Ht (Hi1 & Hi2 & Hi3) (Ho1 & Ho2 & Ho3).
  unfold LlmForms.openEditModel, submitModel, Cover.notBlank in *.
  cbn -[JS.trim JS.parseInt JS.stringOfNumber].
  rewrite !parseInt_stringOfNumber.
  destruct (Z.leb_spec (m_providerId m) 0) as [Hle | _]; [lia |].
  rewrite Hn. cbn -[JS.trim JS.parseInt JS.stringOfNumber].
  rewrite Hi1, Ho1, Ht. unfold changed, clampInt, clampNum.
  rewrite Hi2, Ho2, Hi3, Ho3.
  rewrite !Z.max_r by lia.
  rewrite !Z.eqb_refl, !String.eqb_refl, !Bool.eqb_reflx.
  reflexivity.
Qed.

Lemma model_untouched_edit_sends_nothing_witness :
  submitModel JS.parseInt 0 (Z.max 0) Z.eqb edit
    (Some (mkLlmModel 3 1 "gpt-4o" "llm" 128000 4096 true true 5 15
             "2025-01-01T00:00:00Z" "2025-01-01T00:00:00Z"))
    (mkModelForm "1" "gpt-4o" "llm" "128000" "4096" true true "5" "15")
  = UpdateOf 3 (LlmForms.noModelUpdate Z).
Proof.
  apply (@model_untouched_edit_sends_nothing Z JS.parseInt 0 (Z.max 0)
           Z.eqb JS.stringOfNumber
           (mkLlmModel 3 1 "gpt-4o" "llm" 128000 4096 true true 5 15
              "2025-01-01T00:00:00Z" "2025-01-01T00:00:00Z"));
    vm_compute; repeat split; try reflexivity; discriminate.
Defined.

(** X26. Opening the agent dialog on an agent and saving it untouched
    sends an update without any field exactly when the name and the type
    of the agent are not blank and carry no surrounding white space.  An
    agent without a type is opened as of type code, which saving then
    sends; description and instruction are never sent by an untouched
    form. *)
Theorem agent_untouched_edit_sends_nothing (a : Agent) :
  let '(mode, editing, form) := AgentForms.openEditAgent a in
  (submitAgent mode editing form = UpdateOf (a_id a) AgentForms.noAgentUpdate
   <-> Cover.notBlank (a_name a) = true
       /\ JS.trim (a_name a) = a_name a
       /\ Cover.notBlank (a_agentType a) = true
       /\ JS.trim (a_agentType a) = a_agentType a)
  /\ (a_agentType a = "" ->
      Cover.notBlank (a_name a) = true ->
      exists payload,
        submitAgent mode editing form = UpdateOf (a_id a) payload
        /\ au_agentType payload = Some "code")
  /\ (forall id payload,
         submitAgent mode editing form = UpdateOf id payload ->
         au_description payload = None /\ au_instruction payload = None).
Proof.
  unfold AgentForms.openEditAgent, submitAgent, Cover.notBlank,
    AgentForms.noAgentUpdate.
  cbn [af_name af_description af_instruction af_agentType].
  rewrite !orElse_empty, !String.eqb_refl. cbn [negb].
  split; [| split].
  - destruct (JS.truthy (JS.trim (a_name a))); cbn [negb andb].
    2:{ split; [discriminate | intros [H _]; discriminate]. }
    destruct (a_agentType a) as [| c r] eqn:Et.
    + cbn. split; [discriminate | intros (_ & _ & H & _); discriminate].
    + unfold JS.orElse. cbn [JS.truthy].
      destruct (JS.truthy (JS.trim (String c r))); cbn [negb andb].
      2:{ split; [discriminate | intros (_ & _ & H & _); discriminate]. }
      destruct (String.eqb_spec (JS.trim (a_name a)) (a_name a)) as [En | En];
        destruct (String.eqb_spec (JS.trim (String c r)) (String c r))
          as [Ey | Ey];
        cbn [negb]; split;
        try (intros H; discriminate H);
        try (intros _; repeat split; assumption);
        try (intros _; reflexivity);
        intros (_ & H1 & _ & H2); contradiction.
  - intros Et Hn. rewrite Et, Hn. cbn. eexists. split; reflexivity.
  - intros id payload.
    destruct (JS.truthy (JS.trim (a_name a))); cbn [negb];
      [| discriminate].
    destruct (JS.truthy (JS.trim (JS.orElse (a_agentType a) "code")));
      cbn [negb]; [| discriminate].
    intros [= _ <-]. split; reflexivity.
Qed.

Lemma agent_untouched_edit_sends_nothing_witness :
  submitAgent edit
    (Some (mkAgent 4 "reviewer" "reads diffs" "" "code"
             "2025-01-01T00:00:00Z"))
    (mkAgentForm "reviewer" "reads diffs" "" "code")
  = UpdateOf 4 AgentForms.noAgentUpdate.
Proof.
  apply (proj2
           (proj1
              (agent_untouched_edit_sends_nothing
                 (mkAgent 4 "reviewer" "reads diffs" "" "code"
                    "2025-01-01T00:00:00Z")))).
  repeat split; reflexivity.
Defined.

(** X27. Saving the binding form as a successful load of the bindings
    left it sends the current binding again: with a first binding whose
    model id is positive, the request goes to the selected agent and
    carries that model id, that priority and that activity (numbers below
    1e21, where String() prints plain digits); with no binding, the form
    has no model and the save is turned down.  No save is sent without a
    selected agent or with a model id that is not a positive number, and
    every save states the activity. *)
Theorem binding_resave_round_trip
    (agent : Agent) (next : list AgentForms.AgentBinding) :
  let form := AgentForms.bindingFormAfterLoad next in
  match next with
  | [] => AgentForms.submitSaveBinding (Some agent) form
          = Rejected "请选择 LLM Model"
  | first :: _ =>
      0 < AgentForms.b_llmModelId first < 10 ^ 21 ->
      Z.abs (AgentForms.b_priority first) < 10 ^ 21 ->
      AgentForms.submitSaveBinding (Some agent) form
      = Create
          (a_id agent,
           AgentForms.mkBindingCreate (AgentForms.b_llmModelId first)
             (Some (AgentForms.b_priority first))
             (Some (AgentForms.b_isActive first)))
  end
  /\ forall selected anyForm id payload,
       AgentForms.submitSaveBinding selected anyForm = Create (id, payload)
       -> option_map a_id selected = Some id
          /\ JS.parseInt (AgentForms.bf_llmModelId anyForm)
             = Some (AgentForms.bc_llmModelId payload)
          /\ 0 < AgentForms.bc_llmModelId payload
          /\ AgentForms.bc_isActive payload
             = Some (AgentForms.bf_isActive anyForm).
Proof.
  cbv zeta. split.
  - destruct next as [| first rest]; [reflexivity |].
    intros Hm _. unfold AgentForms.submitSaveBinding,
      AgentForms.bindingFormAfterLoad.
    cbn -[JS.parseInt JS.stringOfNumber].
    rewrite !parseInt_stringOfNumber.
    destruct (Z.leb_spec (AgentForms.b_llmModelId first) 0); [lia |].
    reflexivity.
  - intros selected anyForm id payload.
    unfold AgentForms.submitSaveBinding.
    destruct selected as [s |]; [| discriminate].
    destruct (JS.parseInt (AgentForms.bf_llmModelId anyForm)) as [n |];
      [| discriminate].
    destruct (Z.leb_spec n 0); [discriminate |].
    intros [= <- <-]. cbn. repeat split; first [reflexivity | assumption].
Qed.

Lemma binding_resave_round_trip_witness :
  AgentForms.submitSaveBinding
    (Some (mkAgent 4 "reviewer" "" "" "code" "2025-01-01T00:00:00Z"))
    (AgentForms.mkBindingForm "9" "-2" false)
  = Create (4, AgentForms.mkBindingCreate 9 (Some (-2)) (Some false)).
Proof.
  apply (proj1
           (binding_resave_round_trip
              (mkAgent 4 "reviewer" "" "" "code" "2025-01-01T00:00:00Z")
              [AgentForms.mkAgentBinding 1 4 9 (-2) false
                 "2025-01-01T00:00:00Z" 1 "openai" "gpt-4o" "llm"]));
    vm_compute; repeat split; try reflexivity; discriminate.
Defined.

(** X28. The label and the colour of an agent type do not depend on
    surrounding white space; a label is never empty; the colour is the
    grey of unknown types exactly when the trimmed type is none of code,
    asset, design, test, build and ops, and then the label is the trimmed
    type itself, or two dashes when that is empty; the six known types
    have six different labels and six different colours. *)
Theorem agentType_label_and_colour (t : string) :
  AgentForms.agentTypeLabel (JS.trim t) = AgentForms.agentTypeLabel t
  /\ AgentForms.agentTypeColor (JS.trim t) = AgentForms.agentTypeColor t
  /\ JS.truthy (AgentForms.agentTypeLabel t) = true
  /\ (AgentForms.agentTypeColor t =? "#6b7280")%string
     = negb (existsb (String.eqb (JS.trim t)) AgentForms.knownTypes)
  /\ (if existsb (String.eqb (JS.trim t)) AgentForms.knownTypes
      then True
      else AgentForms.agentTypeLabel t = JS.orElse (JS.trim t) "--")
  /\ NoDup (map AgentForms.agentTypeLabel AgentForms.knownTypes)
  /\ NoDup (map AgentForms.agentTypeColor AgentForms.knownTypes).
Proof.
  unfold AgentForms.agentTypeLabel, AgentForms.agentTypeColor,
    AgentForms.knownTypes.
  rewrite trim_idempotent. cbv zeta.
  split; [reflexivity |]. split; [reflexivity |].
  cbn [existsb].
  split; [| split; [| split]].
  - destruct (JS.trim t =? "code")%string; [reflexivity |].
    destruct (JS.trim t =? "asset")%string; [reflexivity |].
    destruct (JS.trim t =? "design")%string; [reflexivity |].
    destruct (JS.trim t =? "test")%string; [reflexivity |].
    destruct (JS.trim t =? "build")%string; [reflexivity |].
    destruct (JS.trim t =? "ops")%string; [reflexivity |].
    unfold JS.orElse. destruct (JS.truthy (JS.trim t)) eqn:E;
      [exact E | reflexivity].
  - destruct (JS.trim t =? "code")%string; [reflexivity |].
    destruct (JS.trim t =? "asset")%string; [reflexivity |].
    destruct (JS.trim t =? "design")%string; [reflexivity |].
    destruct (JS.trim t =? "test")%string; [reflexivity |].
    destruct (JS.trim t =? "build")%string; [reflexivity |].
    destruct (JS.trim t =? "ops")%string; reflexivity.
  - destruct (JS.trim t =? "code")%string; [exact I |].
    destruct (JS.trim t =? "asset")%string; [exact I |].
    destruct (JS.trim t =? "design")%string; [exact I |].
    destruct (JS.trim t =? "test")%string; [exact I |].
    destruct (JS.trim t =? "build")%string; [exact I |].
    destruct (JS.trim t =? "ops")%string; [exact I | reflexivity].
  - split; vm_compute;
      repeat (constructor;
              [cbn; intros H;
               repeat (destruct H as [H | H]; [discriminate H |]);
               exact H |]);
      constructor.
Qed.

(** X29. Whatever the agent form holds, what it sends is well formed:
    every text is trimmed; the name and the type of a new agent are not
    blank and its description and instruction are left out rather than
    sent empty; an update never carries an empty name or type and goes to
    the agent that the dialog was opened on.  A form is turned down
    exactly when its name or its type is blank. *)
Theorem agent_payload_wellformed
    (mode : ModalMode) (editing : option Agent) (form : AgentForm) :
  let valid :=
    (Cover.notBlank (af_name form)
     && Cover.notBlank (af_agentType form))%bool in
  match submitAgent mode editing form with
  | Create p =>
      valid = true
      /\ forallb LlmForms.trimmed (AgentForms.agentTextsOfCreate p) = true
      /\ JS.truthy (ac_name p) = true
      /\ JS.truthy (ac_agentType p) = true
      /\ ac_description p <> Some ""
      /\ ac_instruction p <> Some ""
  | UpdateOf id p =>
      valid = true
      /\ forallb LlmForms.trimmed (AgentForms.agentTextsOfUpdate p) = true
      /\ au_name p <> Some ""
      /\ au_agentType p <> Some ""
      /\ option_map a_id editing = Some id
  | Rejected _ => valid = false
  | Ignored => valid = true /\ mode = edit /\ editing = None
  end.
Proof.
  cbv zeta. unfold submitAgent, Cover.notBlank.
  destruct (JS.truthy (JS.trim (af_name form))) eqn:Hn; cbn -[JS.trim];
    [| reflexivity].
  destruct (JS.truthy (JS.trim (af_agentType form))) eqn:Hy;
    cbn -[JS.trim]; [| reflexivity].
  destruct mode.
  - unfold AgentForms.agentTextsOfCreate. cbn -[JS.trim].
    destruct (JS.truthy (JS.trim (af_description form))) eqn:Hd;
      destruct (JS.truthy (JS.trim (af_instruction form))) eqn:Hi;
      cbn -[JS.trim]; rewrite ?trimmed_trim; cbn -[JS.trim];
      repeat split; try reflexivity; try discriminate; try assumption;
      intros [= E]; rewrite E in *; discriminate.
  - destruct editing as [e |]; [| repeat split].
    unfold AgentForms.agentTextsOfUpdate. cbn -[JS.trim JS.orElse].
    destruct (negb (JS.trim (af_name form) =? a_name e)%string);
      destruct (negb (JS.orElse (af_description form) ""
                      =? JS.orElse (a_description e) "")%string);
      destruct (negb (JS.orElse (af_instruction form) ""
                      =? JS.orElse (a_instruction e) "")%string);
      destruct (negb (JS.trim (af_agentType form) =? a_agentType e)%string);
      cbn -[JS.trim]; rewrite ?trimmed_trim; cbn -[JS.trim];
      repeat split; try reflexivity; try discriminate;
      intros [= E]; rewrite E in *; discriminate.
Qed.

(* ------------------------------------------------------------------ *)
(** ** The decoder on a gateway error *)
(* ------------------------------------------------------------------ *)

Lemma parseApiErrorMessage_three_tier_witness :
  SoftwareTemplatesPage.parseApiErrorMessage
    (Spec.answering (Spec.errorResponse 502 "Bad Gateway" "  upstream  "))
    (Spec.errorResponse 502 "Bad Gateway" "  upstream  ")
  = Normal "upstream".
Proof.
  exact (proj1
           (proj2
              (@parseApiErrorMessage_three_tier unit
                 (Spec.answering
                    (Spec.errorResponse 502 "Bad Gateway" "  upstream  "))
                 (Spec.errorResponse 502 "Bad Gateway" "  upstream  ")
                 "  upstream  " eq_refl eq_refl))).
Defined.
